(** * ng-packagr: the package-writing transform and the worker pool

    A shallow embedding of [writePackageTransform], [copyAssets],
    [writePackageJson], [checkNonPeerDependencies],
    [generatePackageExports], [generateWatchVersion], of the
    [WorkerPool] constructor and of the post-build script, with the
    properties of the specification that concern them and further
    properties of the code.

    Conventions.
    - A JavaScript object whose key order is observable ([Object.keys],
      spread) is an association list in key order with unique keys.
    - [undefined] is [None]; the truthiness of a string is its being
      non-empty, as in JavaScript.
    - The file system, the progress reporter, the logger and the build
      graph form the [World] threaded through every effectful function;
      a thrown exception is the [Throw] result and leaves the world as it
      was when it was raised.
    - Paths follow the POSIX flavour of Node's [path] module. *)

From Stdlib Require Import ZArith NArith List String Ascii Bool Lia.
From stdpp Require Import base option gmap strings list.

Local Open Scope string_scope.
Local Open Scope list_scope.

(** ** Strings *)

Module Str.

(** [s.split('/')] *)
Fixpoint split_slash (s : string) : list string :=
  match s with
  | EmptyString => [EmptyString]
  | String c r =>
      if Ascii.eqb c "/" then EmptyString :: split_slash r
      else match split_slash r with
           | [] => [String c EmptyString]
           | seg :: segs => String c seg :: segs
           end
  end.

(** [s.startsWith(p)] *)
Definition startsWith (s p : string) : bool := String.prefix p s.

(** [s.endsWith('/')] *)
Fixpoint endsWithSlash (s : string) : bool :=
  match s with
  | EmptyString => false
  | String c EmptyString => Ascii.eqb c "/"
  | String _ r => endsWithSlash r
  end.

Definition nonEmpty (s : string) : bool :=
  match s with EmptyString => false | _ => true end.

Definition isSlash (c : ascii) : bool := Ascii.eqb c "/".

Fixpoint dropWhile {A} (p : A -> bool) (l : list A) : list A :=
  match l with
  | [] => []
  | x :: r => if p x then dropWhile p r else l
  end.

Fixpoint takeWhile {A} (p : A -> bool) (l : list A) : list A :=
  match l with
  | [] => []
  | x :: r => if p x then x :: takeWhile p r else []
  end.

(** Replace every occurrence of the character [a] by [b]. *)
Fixpoint replaceChar (a b : ascii) (s : string) : string :=
  match s with
  | EmptyString => EmptyString
  | String c r => String (if Ascii.eqb c a then b else c) (replaceChar a b r)
  end.

End Str.

(** ** Node's [path] module, POSIX flavour

    The library is not part of the repository; these definitions follow
    its documented algorithm: [normalizeString] walks the [/]-separated
    segments, [normalize] and [join] keep a trailing separator,
    [resolve] makes a path absolute against the working directory, and
    [relative] climbs out of the part of [from] that [to] does not share. *)

Module Path.

(** One step of [normalizeString]; [res] holds the segments kept so far,
    last one first. *)
Definition normStep (allowAboveRoot : bool) (res : list string) (seg : string)
  : list string :=
  if String.eqb seg "" || String.eqb seg "." then res
  else if String.eqb seg ".." then
    match res with
    | last :: rest =>
        if String.eqb last ".." then (if allowAboveRoot then ".." :: res else res)
        else rest
    | [] => if allowAboveRoot then [".."] else []
    end
  else seg :: res.

Definition normalizeString (allowAboveRoot : bool) (segs : list string)
  : list string :=
  rev (fold_left (normStep allowAboveRoot) segs []).

Definition isAbsolute (p : string) : bool := Str.startsWith p "/".

Definition normalize (p : string) : string :=
  if negb (Str.nonEmpty p) then "."
  else
    let abs := isAbsolute p in
    let trailing := Str.endsWithSlash p in
    let body := String.concat "/" (normalizeString (negb abs) (Str.split_slash p)) in
    if negb (Str.nonEmpty body) then
      (if abs then "/" else if trailing then "./" else ".")
    else
      let body' := if trailing then body +:+ "/" else body in
      if abs then "/" +:+ body' else body'.

(** [path.join(...args)] *)
Definition join (args : list string) : string :=
  let joined := String.concat "/" (List.filter Str.nonEmpty args) in
  if negb (Str.nonEmpty joined) then "." else normalize joined.

(** The segments of [path.resolve(p)] when the working directory is
    [cwd] (an absolute path): the result of [resolve] is ["/"] followed
    by these segments joined by ["/"]. *)
Definition resolveSegs (cwd p : string) : list string :=
  if isAbsolute p then normalizeString false (Str.split_slash p)
  else normalizeString false (Str.split_slash cwd ++ Str.split_slash p).

Definition resolve (cwd p : string) : string :=
  "/" +:+ String.concat "/" (resolveSegs cwd p).

(** Strip the longest common prefix of two segment lists. *)
Fixpoint stripCommon (from to : list string) : list string * list string :=
  match from, to with
  | f :: from', t :: to' =>
      if String.eqb f t then stripCommon from' to' else (from, to)
  | _, _ => (from, to)
  end.

(** [path.relative(from, to)] *)
Definition relative (cwd from to : string) : string :=
  if String.eqb from to then ""
  else
    let '(up, down) := stripCommon (resolveSegs cwd from) (resolveSegs cwd to) in
    String.concat "/" (List.map (fun _ => "..") up ++ down).

(** [path.basename(p)]: the last portion, trailing separators ignored. *)
Definition basename (p : string) : string :=
  let r := Str.dropWhile Str.isSlash (List.rev (list_ascii_of_string p)) in
  string_of_list_ascii (List.rev (Str.takeWhile (fun c => negb (Str.isSlash c)) r)).

(** [path.dirname(p)]: scanning from the end down to index 1, skip the
    trailing separators and the last portion; the result stops before
    the separator found there. *)
Definition dirname (p : string) : string :=
  match p with
  | EmptyString => "."
  | String c0 rest =>
      let hasRoot := Str.isSlash c0 in
      let r1 := Str.dropWhile Str.isSlash (List.rev (list_ascii_of_string rest)) in
      let r2 := Str.dropWhile (fun c => negb (Str.isSlash c)) r1 in
      match r2 with
      | [] => if hasRoot then "/" else "."
      | _ :: r3 =>
          match r3 with
          | [] => if hasRoot then "//" else String c0 EmptyString
          | _ => String c0 (string_of_list_ascii (List.rev r3))
          end
      end
  end.

End Path.

(** ** JavaScript objects

    An object is the list of its own enumerable properties in the order
    [Object.keys] returns them. Assigning to a present key keeps its
    position, assigning to an absent one appends it. *)

Module Obj.

Definition t (V : Type) : Type := list (string * V).

Fixpoint get {V} (k : string) (o : t V) : option V :=
  match o with
  | [] => None
  | (k', v) :: r => if String.eqb k' k then Some v else get k r
  end.

(** [k in o] *)
Definition has {V} (k : string) (o : t V) : bool :=
  match get k o with Some _ => true | None => false end.

(** [o[k] = v] *)
Fixpoint set {V} (k : string) (v : V) (o : t V) : t V :=
  match o with
  | [] => [(k, v)]
  | (k', v') :: r =>
      if String.eqb k' k then (k, v) :: r else (k', v') :: set k v r
  end.

(** [delete o[k]] *)
Fixpoint del {V} (k : string) (o : t V) : t V :=
  match o with
  | [] => []
  | (k', v') :: r => if String.eqb k' k then del k r else (k', v') :: del k r
  end.

(** [Object.keys(o)] *)
Definition keys {V} (o : t V) : list string := List.map fst o.

(** [o?.[k]] on a possibly undefined object *)
Definition optGet {V} (k : string) (o : option (t V)) : option V :=
  match o with Some o' => get k o' | None => None end.

End Obj.

(** Truthiness of a possibly undefined string. *)
Definition truthy (v : option string) : bool :=
  match v with Some s => Str.nonEmpty s | None => false end.

(** [a || b] on possibly undefined strings. *)
Definition orElse (a b : option string) : option string :=
  if truthy a then a else b.

(** ** Data model *)

(** [type CompilationMode = 'partial' | 'full' | undefined]; the undefined
    case is [None] of [option CompilationMode]. *)
Inductive CompilationMode : Type := Partial | Full.

(** [type ConditionalExport = { types?: string; default?: string }]; user
    declarations may carry further conditions, so an export descriptor is
    an object from condition names to targets. *)
Definition ConditionalExport : Type := Obj.t string.
Definition PackageExports : Type := Obj.t ConditionalExport.

Inductive SideEffects : Type :=
| SideEffectsFlag (b : bool)
| SideEffectsFiles (files : list string).

(** The manifest ([package.json]) of an entry point. The sections the
    transform inspects carry the types npm gives them; [other] holds every
    further property (description, devDependencies, stylelint, ...) as
    opaque text. *)
Record PackageJson : Type := {
  name : option string;
  version : option string;
  module_ : option string;
  typings : option string;
  exports : option PackageExports;
  sideEffects : option SideEffects;
  dependencies : option (Obj.t string);
  peerDependencies : option (Obj.t string);
  scripts : option (Obj.t string);
  ngPackage : option string;
  other : Obj.t string
}.

Definition emptyPackageJson : PackageJson :=
  {| name := None; version := None; module_ := None; typings := None;
     exports := None; sideEffects := None; dependencies := None;
     peerDependencies := None; scripts := None; ngPackage := None;
     other := [] |}.

Record DestinationFiles : Type := {
  directory : string;
  fesm2022 : string;
  declarationsBundled : string
}.

Record NgEntryPoint : Type := {
  moduleId : string;
  destinationPath : string;
  isSecondaryEntryPoint : bool;
  packageJson : PackageJson;
  ep_destinationFiles : DestinationFiles
}.

(** [AssetEntry = Exclude<AssetPattern, string>] *)
Record AssetEntry : Type := {
  glob : string;
  input : string;
  output : string;
  ignore : option (list string);
  followSymlinks : option bool
}.

Inductive AssetPattern : Type :=
| AssetString (s : string)
| AssetObject (a : AssetEntry).

Record NgPackage : Type := {
  src : string;
  dest : string;
  assets : list AssetPattern;
  allowedNonPeerDependencies : list string;
  keepLifecycleScripts : bool;
  primary : NgEntryPoint
}.

(** Modelled from the spec: an entry-point node of the build graph
    ([nodes], [graph/node]), "identified by a canonical URI", with the
    part of its [data] that the transform reads. [inProgress] is what the
    predicate [isInProgress] ([graph/select]) answers on the node, "the
    one node currently in progress for the active run". *)
Record EntryPointNode : Type := {
  url : string;
  inProgress : bool;
  entryPoint : NgEntryPoint;
  destinationFiles : DestinationFiles;
  compilationMode : option CompilationMode
}.

Record NgPackagrOptions : Type := { watch : bool }.

(** ** The world: file system, reporters, build graph, clock *)

(** What a file holds: text, or the JSON text of a manifest.
    [JSON.stringify(m, undefined, 2)] and [JSON.parse] are a lossless pair
    on manifests, so a JSON file is represented by the manifest it
    encodes; [JSON.parse] of other text throws. *)
Inductive content : Type :=
| Text (s : string)
| Json (m : PackageJson).

Inductive fsnode : Type :=
| File (c : content)
| Dir
| Special.

(** File-system operations that change the disk, in the order performed. *)
Inductive fsop : Type :=
| OpWriteFile (path : string) (c : content)
| OpCopyFile (from to : string)
| OpRmdir (path : string).

(** Calls on the progress reporter ([ora]) and on the logger. The text of
    a warning is recorded without the colour codes [colors.yellow] adds. *)
Inductive event : Type :=
| SpinnerStart (text : string)
| SpinnerSucceed (text : option string)
| SpinnerFail
| SpinnerWarn (text : string)
| SpinnerInfo (text : string)
| LogDebug (text : string)
| LogWarn (text : string).

(** Modelled from the spec: the build graph ([graph/build-graph],
    [graph/node]) is "a mapping from URI to Node" whose nodes hold "a set
    of outgoing depends-on edges". Of it the transform changes the nodes
    of asset files, kept here by their URIs, and the edges from entry
    points to them. *)
Record BuildGraph : Type := {
  nodes : gset string;
  edges : gset (string * string)
}.

(** The file system maps the segments of an absolute path to the node
    found there. *)
Record World : Type := {
  cwd : string;
  clock : N;
  fs : gmap (list string) fsnode;
  fsops : list fsop;
  events : list event;
  graph : BuildGraph
}.

Inductive outcome (A : Type) : Type :=
| Return (a : A)
| Throw (message : string).
Arguments Return {A} a.
Arguments Throw {A} message.

(** Effectful computations: a result or an exception, and the world after. *)
Definition M (A : Type) : Type := World -> outcome A * World.

Definition ret {A} (a : A) : M A := fun w => (Return a, w).
Definition throw {A} (message : string) : M A := fun w => (Throw message, w).
Definition bind {A B} (m : M A) (k : A -> M B) : M B :=
  fun w => match m w with
           | (Return a, w') => k a w'
           | (Throw e, w') => (Throw e, w')
           end.
(** [try { m } catch (e) { h(e) }] *)
Definition tryCatch {A} (m : M A) (h : string -> M A) : M A :=
  fun w => match m w with
           | (Return a, w') => (Return a, w')
           | (Throw e, w') => h e w'
           end.

Notation "'let*' x ':=' m 'in' k" := (bind m (fun x => k))
  (at level 10, x pattern, m at level 100, k at level 200).
Notation "m ';;' k" := (bind m (fun _ => k))
  (at level 100, k at level 200, right associativity).

Definition getWorld : M World := fun w => (Return w, w).
Definition modify (f : World -> World) : M unit := fun w => (Return tt, f w).

Definition emit (e : event) : M unit :=
  modify (fun w => {| cwd := cwd w; clock := clock w; fs := fs w; fsops := fsops w;
                      events := events w ++ [e]; graph := graph w |}).

Definition setFs (f : gmap (list string) fsnode) (op : fsop) (w : World) : World :=
  {| cwd := cwd w; clock := clock w; fs := f; fsops := fsops w ++ [op];
     events := events w; graph := graph w |}.

(** [Date.now()] *)
Definition dateNow : M N := fun w => (Return (clock w), w).

(** ** Collaborators outside the repository's sources *)

Record GlobOptions : Type := {
  g_cwd : string;
  g_ignore : list string;
  g_dot : bool;
  g_onlyFiles : bool;
  g_followSymbolicLinks : option bool
}.

(** [peerDependencies] and [dependencies] of [@angular/compiler/package.json] *)
Record CompilerPackageJson : Type := {
  angularPeerDependencies : option (Obj.t string);
  angularDependencies : option (Obj.t string)
}.

(** What the transform calls outside the repository's sources:
    tinyglobby's [glob]; of the regular expressions of the allow-list,
    the message of the SyntaxError that [new RegExp(source)] throws for a
    source that is no regular expression, and [regex.test(s)] for the
    expression of a source; the [fileUrl] of [nodes] that gives a file
    its canonical URI, and the manifest of the installed compiler. *)
Class Host : Type := {
  globFiles : string -> GlobOptions -> World -> list string;
  regexpSyntaxError : string -> option string;
  regexpTest : string -> string -> bool;
  fileUrl : string -> string;
  compilerPackageJson : CompilerPackageJson
}.

(** Modelled from the spec: the file-system collaborator ([utils/fs]) with
    "byte-exact file copy, UTF-8 text read/write, existence check, stat,
    recursive directory removal". Paths are resolved against the working
    directory. *)
Module Fs.

(** Where a path leads on disk. *)
Definition key (w : World) (p : string) : list string := Path.resolveSegs (cwd w) p.

Record Stats : Type := { isDirectory : bool; isFile : bool }.

(** Modelled from the spec: [stat] of [utils/fs]; it fails when nothing
    is at the path, and for a file named with a trailing separator. *)
Definition stat (p : string) : M Stats :=
  fun w => match fs w !! key w p with
           | Some Dir => (Return {| isDirectory := true; isFile := false |}, w)
           | Some (File _) =>
               if Str.endsWithSlash p
               then (Throw ("ENOTDIR: not a directory, stat '" +:+ p +:+ "'"), w)
               else (Return {| isDirectory := false; isFile := true |}, w)
           | Some Special => (Return {| isDirectory := false; isFile := false |}, w)
           | None => (Throw ("ENOENT: no such file or directory, stat '" +:+ p +:+ "'"), w)
           end.

(** Modelled from the spec: [exists] of [utils/fs], the "existence check". *)
Definition exists_ (p : string) : M bool :=
  fun w => (Return (bool_decide (is_Some (fs w !! key w p))), w).

(** Modelled from the spec: [readFile] of [utils/fs], the "text read". *)
Definition readFile (p : string) : M content :=
  fun w => match fs w !! key w p with
           | Some (File c) => (Return c, w)
           | Some _ => (Throw ("EISDIR: illegal operation on a directory, read '" +:+ p +:+ "'"), w)
           | None => (Throw ("ENOENT: no such file or directory, open '" +:+ p +:+ "'"), w)
           end.

(** Modelled from the spec: [writeFile] of [utils/fs], the "text write". *)
Definition writeFile (p : string) (c : content) : M unit :=
  fun w => (Return tt, setFs (<[key w p := File c]> (fs w)) (OpWriteFile p c) w).

(** Modelled from the spec: [copyFile] of [utils/fs], the "byte-exact
    file copy". *)
Definition copyFile (from to : string) : M unit :=
  fun w => match fs w !! key w from with
           | Some (File c) =>
               (Return tt, setFs (<[key w to := File c]> (fs w)) (OpCopyFile from to) w)
           | _ => (Throw ("ENOENT: no such file or directory, copyfile '" +:+ from +:+ "'"), w)
           end.

(** [k] is [d] or lies below it *)
Definition below (d k : list string) : bool := bool_decide (d `prefix_of` k).

(** Modelled from the spec: [rmdir(p, { recursive: true })] of
    [utils/fs], the "recursive directory removal": the directory and all
    below it are gone afterwards. *)
Definition rmdir (p : string) : M unit :=
  fun w => (Return tt,
            setFs (filter (fun kv => below (key w p) (fst kv) = false) (fs w)) (OpRmdir p) w).

End Fs.

(** Modelled from the spec: [ensureUnixPath] ([utils/path]) makes a path
    "forward-slash-normalized". *)
Definition ensureUnixPath (filePath : string) : string :=
  Str.replaceChar "\" "/" filePath.

(** ** Containment

    [to] lies in the directory [root] (or is [root]) once both are
    resolved against the working directory. *)
Definition withinRoot (cwd root to : string) : Prop :=
  Path.resolveSegs cwd root `prefix_of` Path.resolveSegs cwd to.

#[global] Instance withinRoot_dec (cwd root to : string) : Decision (withinRoot cwd root to).
Proof. unfold withinRoot. apply _. Defined.

(** ** Text building blocks *)

Definition dquote : string := String (ascii_of_nat 34) EmptyString.
Definition newline : string := String (ascii_of_nat 10) EmptyString.
Definition backslash_n : string := String (ascii_of_nat 92) "n".

(** [String(n)] for a non-negative integer [n] (below 10^21, where
    JavaScript switches to exponent notation): its decimal digits. *)
Module Dec.

Definition digitChar (d : N) : ascii := ascii_of_N (48 + d).

Fixpoint digits (fuel : nat) (n : N) (acc : string) : string :=
  match fuel with
  | O => acc
  | S fuel' =>
      let acc' := String (digitChar (n mod 10)) acc in
      if (n <? 10)%N then acc' else digits fuel' (n / 10) acc'
  end.

Definition ofN (n : N) : string :=
  digits (S (N.to_nat (N.log2 n))) n "".

(** The number a string of decimal digits denotes. *)
Fixpoint numeral (s : string) : N :=
  match s with
  | EmptyString => 0
  | String c r => (N_of_ascii c - 48) * 10 ^ N.of_nat (String.length r) + numeral r
  end.

Fixpoint allDigits (s : string) : Prop :=
  match s with
  | EmptyString => True
  | String c r => (48 <= N_of_ascii c <= 57)%N /\ allDigits r
  end.

End Dec.

(** ** [copyAssets] *)

Section Transform.

Context {host : Host}.

Definition isAncestorPath (cwd target datum : string) : bool :=
  Str.startsWith (Path.relative cwd datum target) "..".

Definition globsForceIgnored (ngPackage : NgPackage) : list string :=
  [".gitkeep"; "**/.DS_Store"; "**/Thumbs.db"; dest ngPackage +:+ "/**"].

Definition plainAsset (g i o : string) : AssetEntry :=
  {| glob := g; input := i; output := o; ignore := None; followSymlinks := None |}.

Definition defaultAssets (entryPoints : list EntryPointNode) : list AssetEntry :=
  plainAsset "LICENSE" "/" "/"
  :: List.map (fun data =>
                 let d := directory (ep_destinationFiles (entryPoint data)) in
                 let subpath := if Str.nonEmpty d then d else "/" in
                 plainAsset "README.md" subpath subpath)
              entryPoints.

(** [stat(...).then(stats => [stats.isDirectory(), stats.isFile()])
    .catch(() => [false, false])] *)
Definition probe (p : string) : M (bool * bool) :=
  tryCatch (let* stats := Fs.stat p in ret (Fs.isDirectory stats, Fs.isFile stats))
           (fun _ => ret (false, false)).

(** The entry a declaration stands for, before its roots are joined to
    the package roots. *)
Definition resolveAssetPattern (ngPackage : NgPackage) (assetPath : AssetPattern)
  : M AssetEntry :=
  match assetPath with
  | AssetObject a => ret a
  | AssetString assetPath =>
      let* (isDir, isFile) := probe (Path.join [src ngPackage; assetPath]) in
      if isDir : bool then
        ret (plainAsset "**/*" assetPath assetPath)
      else if isFile : bool then
        ret (plainAsset (Path.basename assetPath)
                        (Path.dirname assetPath) (Path.dirname assetPath))
      else
        ret (plainAsset assetPath "/" "/")
  end.

(** [asset.input = path.join(src, asset.input)] and likewise the output. *)
Definition rootAsset (ngPackage : NgPackage) (asset : AssetEntry) : AssetEntry :=
  {| glob := glob asset;
     input := Path.join [src ngPackage; input asset];
     output := Path.join [dest ngPackage; output asset];
     ignore := ignore asset;
     followSymlinks := followSymlinks asset |}.

Definition inputOutsideMessage : string :=
  "Cannot read assets from a location outside of the project root.".
Definition outputOutsideMessage : string :=
  "Cannot write assets to a location outside of the output path.".

(** The first loop of [copyAssets]: resolve and validate every
    declaration, collecting the entries in [assets]. *)
Fixpoint resolveAssets (ngPackage : NgPackage) (declared : list AssetPattern)
         (assets : list AssetEntry) : M (list AssetEntry) :=
  match declared with
  | [] => ret assets
  | assetPath :: rest =>
      let* asset0 := resolveAssetPattern ngPackage assetPath in
      let asset := rootAsset ngPackage asset0 in
      let* w := getWorld in
      if isAncestorPath (cwd w) (input asset) (src ngPackage) then
        throw inputOutsideMessage
      else if isAncestorPath (cwd w) (output asset) (dest ngPackage) then
        throw outputOutsideMessage
      else resolveAssets ngPackage rest (assets ++ [asset])
  end.

(** [graph.get(nodeUri)], and [graph.put(new Node(nodeUri))] when absent. *)
Definition graphEnsure (nodeUri : string) : M unit :=
  modify (fun w => {| cwd := cwd w; clock := clock w; fs := fs w; fsops := fsops w;
                      events := events w;
                      graph := {| nodes := {[nodeUri]} ∪ nodes (graph w);
                                  edges := edges (graph w) |} |}).

(** [entryPointNode.dependsOn(node)] *)
Definition dependsOn (entryPointNode : EntryPointNode) (nodeUri : string) : M unit :=
  modify (fun w => {| cwd := cwd w; clock := clock w; fs := fs w; fsops := fsops w;
                      events := events w;
                      graph := {| nodes := nodes (graph w);
                                  edges := {[(url entryPointNode, nodeUri)]}
                                           ∪ edges (graph w) |} |}).

Fixpoint copyFiles (entryPointNode : EntryPointNode) (asset : AssetEntry)
         (filePaths : list string) : M unit :=
  match filePaths with
  | [] => ret tt
  | filePath :: rest =>
      let fileSrcFullPath := Path.join [input asset; filePath] in
      let fileDestFullPath := Path.join [output asset; filePath] in
      let nodeUri := fileUrl (ensureUnixPath fileSrcFullPath) in
      graphEnsure nodeUri ;;
      dependsOn entryPointNode nodeUri ;;
      Fs.copyFile fileSrcFullPath fileDestFullPath ;;
      copyFiles entryPointNode asset rest
  end.

(** The second loop of [copyAssets]. *)
Fixpoint copyResolved (ngPackage : NgPackage) (entryPointNode : EntryPointNode)
         (assets : list AssetEntry) : M unit :=
  match assets with
  | [] => ret tt
  | asset :: rest =>
      let* w := getWorld in
      let filePaths :=
        globFiles (glob asset)
                  {| g_cwd := input asset;
                     g_ignore := default [] (ignore asset) ++ globsForceIgnored ngPackage;
                     g_dot := true;
                     g_onlyFiles := true;
                     g_followSymbolicLinks := followSymlinks asset |}
                  w in
      copyFiles entryPointNode asset filePaths ;;
      copyResolved ngPackage entryPointNode rest
  end.

Definition declaredAssets (ngPackage : NgPackage) (entryPoints : list EntryPointNode)
  : list AssetPattern :=
  assets ngPackage ++ List.map AssetObject (defaultAssets entryPoints).

Definition copyAssets (entryPointNode : EntryPointNode) (ngPackage : NgPackage)
           (entryPoints : list EntryPointNode) : M unit :=
  let* assets := resolveAssets ngPackage (declaredAssets ngPackage entryPoints) [] in
  copyResolved ngPackage entryPointNode assets.

(** ** [generateWatchVersion] *)

Definition watchVersionOf (now : N) : string := "0.0.0-watch+" +:+ Dec.ofN now.

Definition generateWatchVersion : M string :=
  let* now := dateNow in ret (watchVersionOf now).

(** ** [generatePackageExports] *)

Definition conflictWarning (subpath conditionName : string) : string :=
  "Found a conflicting export condition for " +:+ dquote +:+ subpath +:+ dquote
  +:+ ". The " +:+ dquote +:+ conditionName +:+ dquote +:+ " "
  +:+ "condition would be overridden by ng-packagr. Please unset it.".

(** The loop of [insertMappingOrError] over [Object.keys(mapping)];
    [subpathExport] is [exports[subpath]]. *)
Fixpoint insertConditions (subpath : string) (mapping : ConditionalExport)
         (conditionNames : list string) (subpathExport : ConditionalExport)
  : M ConditionalExport :=
  match conditionNames with
  | [] => ret subpathExport
  | conditionName :: rest =>
      (if Obj.has conditionName subpathExport
       then emit (LogWarn (conflictWarning subpath conditionName))
       else ret tt) ;;
      let subpathExport' :=
        match Obj.get conditionName mapping with
        | Some target => Obj.set conditionName target subpathExport
        | None => subpathExport
        end in
      insertConditions subpath mapping rest subpathExport'
  end.

Definition insertMappingOrError (subpath : string) (mapping : ConditionalExport)
           (exports : PackageExports) : M PackageExports :=
  (* exports[subpath] ??= {} *)
  let exports1 :=
    match Obj.get subpath exports with
    | Some _ => exports
    | None => Obj.set subpath [] exports
    end in
  let subpathExport := default [] (Obj.get subpath exports1) in
  let* subpathExport' :=
    insertConditions subpath mapping (Obj.keys mapping) subpathExport in
  ret (Obj.set subpath subpathExport' exports1).

Definition exportSubpath (e : NgEntryPoint) : string :=
  if isSecondaryEntryPoint e
  then "./" +:+ directory (ep_destinationFiles e)
  else ".".

(** [{ types: ..., default: ... }], the mapping generated for an entry
    point, relative to the destination of the entry point being written *)
Definition generatedMapping (cwd destinationPath : string) (node : EntryPointNode)
  : ConditionalExport :=
  let relativeUnixFromDestPath filePath :=
    "./" +:+ ensureUnixPath (Path.relative cwd destinationPath filePath) in
  let files := ep_destinationFiles (entryPoint node) in
  [("types", relativeUnixFromDestPath (declarationsBundled files));
   ("default", relativeUnixFromDestPath (fesm2022 files))].

Fixpoint insertEntryPoints (cwd destinationPath : string)
         (entryPoints : list EntryPointNode) (exports : PackageExports)
  : M PackageExports :=
  match entryPoints with
  | [] => ret exports
  | node :: rest =>
      let* exports' :=
        insertMappingOrError (exportSubpath (entryPoint node))
          (generatedMapping cwd destinationPath node)
          exports in
      insertEntryPoints cwd destinationPath rest exports'
  end.

Definition generatePackageExports (e : NgEntryPoint)
           (entryPoints : list EntryPointNode) : M PackageExports :=
  let exports0 : PackageExports := default [] (exports (packageJson e)) in
  let* w := getWorld in
  let* exports1 :=
    insertMappingOrError "./package.json" [("default", "./package.json")] exports0 in
  insertEntryPoints (cwd w) (destinationPath e) entryPoints exports1.

(** ** [checkNonPeerDependencies] *)

(** [packageJson[property]] for the object-valued sections. *)
Definition section (packageJson : PackageJson) (property : string)
  : option (Obj.t string) :=
  if String.eqb property "dependencies" then dependencies packageJson
  else if String.eqb property "peerDependencies" then peerDependencies packageJson
  else if String.eqb property "scripts" then scripts packageJson
  else None.

Definition notRecommendedWarning (property dep : string) : string :=
  "Distributing npm packages with '" +:+ property
  +:+ "' is not recommended. Please consider adding " +:+ dep +:+ " "
  +:+ "to 'peerDependencies' or remove it from '" +:+ property +:+ "'.".

Definition notAllowedMessage (dep : string) : string :=
  "Dependency " +:+ dep +:+ " must be explicitly allowed using the "
  +:+ dquote +:+ "allowedNonPeerDependencies" +:+ dquote +:+ " option.".

(** [allowed.some(regex => regex.test(dep))] *)
Definition isAllowed (allowed : list string) (dep : string) : bool :=
  existsb (fun regex => regexpTest regex dep) allowed.

Fixpoint checkDeps (property : string) (allowed : list string) (deps : list string)
  : M unit :=
  match deps with
  | [] => ret tt
  | dep :: rest =>
      if isAllowed allowed dep then
        emit (LogDebug ("Dependency " +:+ dep +:+ " is allowed in '" +:+ property +:+ "'")) ;;
        checkDeps property allowed rest
      else
        emit (SpinnerWarn (notRecommendedWarning property dep)) ;;
        throw (notAllowedMessage dep)
  end.

Definition checkNonPeerDependencies (packageJson : PackageJson) (property : string)
           (allowed : list string) : M unit :=
  match section packageJson property with
  | None => ret tt
  | Some deps => checkDeps property allowed (Obj.keys deps)
  end.

(** ** [writePackageJson] *)

(** [new RegExp(value)]; a regular expression is kept by its source. *)
Definition newRegExp (value : string) : M string :=
  match regexpSyntaxError value with
  | Some message => throw message
  | None => ret value
  end.

(** [values.map(f)] for an [f] that may throw. *)
Fixpoint mapM {A B} (f : A -> M B) (values : list A) : M (list B) :=
  match values with
  | [] => ret []
  | value :: rest =>
      let* b := f value in
      let* bs := mapM f rest in
      ret (b :: bs)
  end.

(** The properties the transform passes as [additionalProperties]. *)
Record AdditionalProperties : Type := {
  add_module : string;
  add_typings : string;
  add_exports : PackageExports;
  add_sideEffects : SideEffects
}.

(** [{ ...entryPoint.packageJson, ...additionalProperties }] *)
Definition mergeProperties (p : PackageJson) (a : AdditionalProperties) : PackageJson :=
  {| name := name p; version := version p;
     module_ := Some (add_module a); typings := Some (add_typings a);
     exports := Some (add_exports a); sideEffects := Some (add_sideEffects a);
     dependencies := dependencies p; peerDependencies := peerDependencies p;
     scripts := scripts p; ngPackage := ngPackage p; other := other p |}.

Definition setVersion (v : option string) (p : PackageJson) : PackageJson :=
  {| name := name p; version := v; module_ := module_ p; typings := typings p;
     exports := exports p; sideEffects := sideEffects p;
     dependencies := dependencies p; peerDependencies := peerDependencies p;
     scripts := scripts p; ngPackage := ngPackage p; other := other p |}.

Definition setDependencies (d : option (Obj.t string)) (p : PackageJson) : PackageJson :=
  {| name := name p; version := version p; module_ := module_ p; typings := typings p;
     exports := exports p; sideEffects := sideEffects p;
     dependencies := d; peerDependencies := peerDependencies p;
     scripts := scripts p; ngPackage := ngPackage p; other := other p |}.

Definition setPeerDependencies (d : option (Obj.t string)) (p : PackageJson)
  : PackageJson :=
  {| name := name p; version := version p; module_ := module_ p; typings := typings p;
     exports := exports p; sideEffects := sideEffects p;
     dependencies := dependencies p; peerDependencies := d;
     scripts := scripts p; ngPackage := ngPackage p; other := other p |}.

Definition setScripts (sc : option (Obj.t string)) (p : PackageJson) : PackageJson :=
  {| name := name p; version := version p; module_ := module_ p; typings := typings p;
     exports := exports p; sideEffects := sideEffects p;
     dependencies := dependencies p; peerDependencies := peerDependencies p;
     scripts := sc; ngPackage := ngPackage p; other := other p |}.

Definition setNgPackage (n : option string) (p : PackageJson) : PackageJson :=
  {| name := name p; version := version p; module_ := module_ p; typings := typings p;
     exports := exports p; sideEffects := sideEffects p;
     dependencies := dependencies p; peerDependencies := peerDependencies p;
     scripts := scripts p; ngPackage := n; other := other p |}.

Definition setOther (o : Obj.t string) (p : PackageJson) : PackageJson :=
  {| name := name p; version := version p; module_ := module_ p; typings := typings p;
     exports := exports p; sideEffects := sideEffects p;
     dependencies := dependencies p; peerDependencies := peerDependencies p;
     scripts := scripts p; ngPackage := ngPackage p; other := o |}.

Definition setName (n : option string) (p : PackageJson) : PackageJson :=
  {| name := n; version := version p; module_ := module_ p; typings := typings p;
     exports := exports p; sideEffects := sideEffects p;
     dependencies := dependencies p; peerDependencies := peerDependencies p;
     scripts := scripts p; ngPackage := ngPackage p; other := other p |}.

Definition tslibMovedWarning : string :=
  "'tslib' is no longer recommended to be used as a 'peerDependencies'. Moving it to 'dependencies'.".

Definition removingScriptsInfo : string :=
  "Removing scripts section in package.json as it's considered a potential security vulnerability.".

Definition keepScriptsWarning : string :=
  "You enabled keepLifecycleScripts explicitly. The scripts section in package.json will be published to npm.".

(** The [prepublishOnly] script of a package compiled in full mode. *)
Definition prepublishOnlyGuard : string :=
  "node --eval " +:+ dquote +:+ "console.error('"
  +:+ "ERROR: Trying to publish a package that has been compiled in full compilation mode. This is not allowed."
  +:+ backslash_n
  +:+ "Please delete and rebuild the package with partial compilation mode, before attempting to publish."
  +:+ backslash_n
  +:+ "')" +:+ dquote +:+ " "
  +:+ "&& exit 1".

Definition packageJsonPropertiesToDelete : list string :=
  ["stylelint"; "prettier"; "browserslist"; "devDependencies"; "jest"; "workspaces"; "husky"].

(** [angularPeerDependencies.tslib || angularDependencies.tslib], the two
    objects defaulting to [{}], read from [@angular/compiler/package.json] *)
Definition compilerTslibVersion : option string :=
  orElse (Obj.get "tslib" (default [] (angularPeerDependencies compilerPackageJson)))
         (Obj.get "tslib" (default [] (angularDependencies compilerPackageJson))).

(** The block that makes [tslib] a dependency. *)
Definition tslibBlock (packageJson : PackageJson) : M PackageJson :=
  if negb (truthy (Obj.optGet "tslib" (peerDependencies packageJson)))
     && negb (truthy (Obj.optGet "tslib" (dependencies packageJson)))
  then
    let tsLibVersion := compilerTslibVersion in
    match tsLibVersion with
    | Some v =>
        if Str.nonEmpty v
        then ret (setDependencies
                    (Some (Obj.set "tslib" v (default [] (dependencies packageJson))))
                    packageJson)
        else ret packageJson
    | None => ret packageJson
    end
  else
    match Obj.optGet "tslib" (peerDependencies packageJson) with
    | Some v =>
        if Str.nonEmpty v then
          emit (SpinnerWarn tslibMovedWarning) ;;
          let packageJson1 :=
            setDependencies
              (Some (Obj.set "tslib" v (default [] (dependencies packageJson))))
              packageJson in
          ret (setPeerDependencies
                 (Some (Obj.del "tslib" (default [] (peerDependencies packageJson1))))
                 packageJson1)
        else ret packageJson
    | None => ret packageJson
    end.

(** The block that removes the scripts unless they are to be kept. *)
Definition scriptsBlock (pkg : NgPackage) (packageJson : PackageJson) : M PackageJson :=
  match scripts packageJson with
  | Some _ =>
      if negb (keepLifecycleScripts pkg) then
        emit (SpinnerInfo removingScriptsInfo) ;;
        ret (setScripts None packageJson)
      else
        emit (SpinnerWarn keepScriptsWarning) ;;
        ret packageJson
  | None => ret packageJson
  end.

(** The block that guards a package not compiled in partial mode. *)
Definition guardBlock (compilationMode : option CompilationMode)
           (packageJson : PackageJson) : PackageJson :=
  match compilationMode with
  | Some Partial => packageJson
  | _ =>
      setScripts
        (Some (Obj.set "prepublishOnly" prepublishOnlyGuard
                       (default [] (scripts packageJson))))
        packageJson
  end.

Fixpoint stripProperties (props : list string) (packageJson : PackageJson)
  : M PackageJson :=
  match props with
  | [] => ret packageJson
  | prop :: rest =>
      if Obj.has prop (other packageJson) then
        let packageJson' := setOther (Obj.del prop (other packageJson)) packageJson in
        emit (SpinnerInfo ("Removing " +:+ prop +:+ " section in package.json.")) ;;
        stripProperties rest packageJson'
      else stripProperties rest packageJson
  end.

(** One call of [writePackageJson]. The copy it starts from is shallow:
    the [peerDependencies] and [scripts] objects are those of the entry
    point's own manifest, so the deletion of [tslib] and the guard script
    are also visible there after the call. *)
Definition writePackageJson (entryPoint : NgEntryPoint) (pkg : NgPackage)
           (additionalProperties : AdditionalProperties) (isWatchMode : bool)
           (compilationMode : option CompilationMode) : M unit :=
  emit (LogDebug "Writing package.json") ;;
  let packageJson := mergeProperties (packageJson entryPoint) additionalProperties in
  let* packageJson :=
    (if isWatchMode
     then let* v := generateWatchVersion in ret (setVersion (Some v) packageJson)
     else ret packageJson) in
  let* packageJson := tslibBlock packageJson in
  let* allowedList := mapM newRegExp (allowedNonPeerDependencies pkg) in
  tryCatch (checkNonPeerDependencies packageJson "dependencies" allowedList)
           (fun e => Fs.rmdir (destinationPath entryPoint) ;; throw e) ;;
  let* packageJson := scriptsBlock pkg packageJson in
  let packageJson := guardBlock compilationMode packageJson in
  let packageJson := setNgPackage None packageJson in
  let* packageJson := stripProperties packageJsonPropertiesToDelete packageJson in
  let packageJson := setName (Some (moduleId entryPoint)) packageJson in
  Fs.writeFile (Path.join [destinationPath entryPoint; "package.json"]) (Json packageJson).

(** ** [writePackageTransform] *)

Definition npmignoreText : string :=
  "# Nested package.json's are only needed for development." +:+ newline
  +:+ "**/package.json".

(** [JSON.parse] of what a file holds. *)
Definition jsonParse (c : content) : M PackageJson :=
  match c with
  | Json m => ret m
  | Text _ => throw "SyntaxError: Unexpected token in JSON"
  end.

(** [JSON.stringify({ module: m }, undefined, 2)] *)
Definition moduleStub (m : string) : content :=
  Json {| name := None; version := None; module_ := Some m; typings := None;
          exports := None; sideEffects := None; dependencies := None;
          peerDependencies := None; scripts := None; ngPackage := None;
          other := [] |}.

Definition writePackageTransform (options : NgPackagrOptions)
           (entryPoints : list EntryPointNode) (ngPackage : NgPackage) : M unit :=
  match List.find inProgress entryPoints with
  | None => throw "TypeError: Cannot read properties of undefined (reading 'data')"
  | Some entryPointNode =>
      let ngEntryPoint := entryPoint entryPointNode in
      let destinationFiles := destinationFiles entryPointNode in
      (if negb (isSecondaryEntryPoint ngEntryPoint) then
         emit (SpinnerStart "Copying assets") ;;
         tryCatch (copyAssets entryPointNode ngPackage entryPoints)
                  (fun error => emit SpinnerFail ;; throw error) ;;
         emit (SpinnerSucceed None)
       else ret tt) ;;
      let* w := getWorld in
      let relativeUnixFromDestPath filePath :=
        ensureUnixPath (Path.relative (cwd w) (destinationPath ngEntryPoint) filePath) in
      (if negb (isSecondaryEntryPoint ngEntryPoint) then
         tryCatch
           (emit (SpinnerStart "Writing package manifest") ;;
            (if negb (watch options)
             then Fs.writeFile (Path.join [destinationPath (primary ngPackage); ".npmignore"])
                               (Text npmignoreText)
             else ret tt) ;;
            let* generated := generatePackageExports ngEntryPoint entryPoints in
            writePackageJson ngEntryPoint ngPackage
              {| add_module := relativeUnixFromDestPath (fesm2022 destinationFiles);
                 add_typings := relativeUnixFromDestPath (declarationsBundled destinationFiles);
                 add_exports := generated;
                 add_sideEffects :=
                   default (SideEffectsFlag false) (sideEffects (packageJson ngEntryPoint)) |}
              (watch options) (compilationMode entryPointNode))
           (fun error => emit SpinnerFail ;; throw error) ;;
         emit (SpinnerSucceed None)
       else
         (if watch options then
            let packageJsonPath := Path.join [destinationPath (primary ngPackage); "package.json"] in
            let* present := Fs.exists_ packageJsonPath in
            if present : bool then
              let* text := Fs.readFile packageJsonPath in
              let* packageJson := jsonParse text in
              let* v := generateWatchVersion in
              Fs.writeFile (Path.join [destinationPath (primary ngPackage); "package.json"])
                           (Json (setVersion (Some v) packageJson))
            else ret tt
          else ret tt) ;;
         Fs.writeFile (Path.join [destinationPath ngEntryPoint; "package.json"])
                      (moduleStub (relativeUnixFromDestPath (fesm2022 destinationFiles)))) ;;
      emit (SpinnerSucceed (Some ("Built " +:+ moduleId ngEntryPoint)))
  end.

End Transform.

(** ** The worker pool ([WorkerPool extends Piscina]) *)

Module WorkerPool.

Inductive Atomics : Type := AtomicsSync | AtomicsAsync | AtomicsDisabled.

(** The [env] option: the [SHARE_ENV] symbol or an object of variables. *)
Inductive EnvSpecifier : Type :=
| ShareEnv
| EnvObject (vars : Obj.t string).

(** The options the constructor sets or reads; an absent key is [None]. *)
Record WorkerPoolOptions : Type := {
  minThreads : option N;
  idleTimeout : option N;
  atomics : option Atomics;
  recordTiming : option bool;
  env : option EnvSpecifier
}.

(** The host process: [process.versions.webcontainer], [process.env],
    and [getCompileCacheDir], which is missing before Node.js v22.8 and
    otherwise reports the cache directory or [undefined]. *)
Record Process : Type := {
  webcontainer : option string;
  processEnv : Obj.t string;
  getCompileCacheDir : option (option string)
}.

(** [{ ...defaults, ...options }], one key at a time *)
Definition override {A} (dflt : A) (o : option A) : option A :=
  match o with Some a => Some a | None => Some dflt end.

(** The options handed to [super(...)]. *)
Definition constructor (process : Process) (options : WorkerPoolOptions)
  : WorkerPoolOptions :=
  let piscinaOptions :=
    {| minThreads := override 1%N (minThreads options);
       idleTimeout := override 1000%N (idleTimeout options);
       atomics := override (if truthy (webcontainer process)
                            then AtomicsDisabled else AtomicsSync)
                           (atomics options);
       recordTiming := override false (recordTiming options);
       env := env options |} in
  let compileCacheDirectory :=
    if truthy (Obj.get "RUNFILES" (processEnv process)) then None
    else match getCompileCacheDir process with
         | Some reported => reported
         | None => None
         end in
  match compileCacheDirectory with
  | Some dir =>
      if Str.nonEmpty dir then
        {| minThreads := minThreads piscinaOptions;
           idleTimeout := idleTimeout piscinaOptions;
           atomics := atomics piscinaOptions;
           recordTiming := recordTiming piscinaOptions;
           env :=
             match env piscinaOptions with
             | Some (EnvObject vars) =>
                 Some (EnvObject (Obj.set "NODE_COMPILE_CACHE" dir vars))
             | _ =>
                 Some (EnvObject (Obj.set "NODE_COMPILE_CACHE" dir (processEnv process)))
             end |}
      else piscinaOptions
  | None => piscinaOptions
  end.

End WorkerPool.

(** ** The post-build script ([scripts/postbuild.js])

    The script runs Node's synchronous file-system functions one after
    the other; the first that throws ends it. Node's [fs] module is not
    part of the repository: the functions below follow its documented
    behaviour. The disk maps the segments of an absolute path to what is
    there, and relative paths are resolved against the working directory
    of the process. *)

Module Postbuild.

(** A step of the script: a result or an exception, and the disk after. *)
Definition Run (A : Type) : Type :=
  gmap (list string) fsnode -> outcome A * gmap (list string) fsnode.

(** One statement after the other. *)
Definition andThen {A B} (m : Run A) (k : A -> Run B) : Run B :=
  fun d => match m d with
           | (Return a, d') => k a d'
           | (Throw e, d') => (Throw e, d')
           end.

(** The root is a directory; elsewhere the disk tells. *)
Definition isDirectory (d : gmap (list string) fsnode) (k : list string) : bool :=
  match k with
  | [] => true
  | _ => match d !! k with Some Dir => true | _ => false end
  end.

(** [copyFileSync(src, dest, constants.COPYFILE_FICLONE)]: a copy-on-write
    link where the file system has one, a plain copy otherwise; the
    destination is overwritten, and its directory has to exist. *)
Definition copyFileSync (cwd src dest : string) : Run unit :=
  fun d =>
    let failure code :=
      code +:+ ", copyfile '" +:+ src +:+ "' -> '" +:+ dest +:+ "'" in
    match d !! Path.resolveSegs cwd src with
    | Some (File c) =>
        let k := Path.resolveSegs cwd dest in
        if isDirectory d k then (Throw (failure "EISDIR: illegal operation on a directory"), d)
        else if negb (isDirectory d (removelast k))
             then (Throw (failure "ENOENT: no such file or directory"), d)
             else (Return tt, <[k := File c]> d)
    | Some _ => (Throw (failure "EISDIR: illegal operation on a directory"), d)
    | None => (Throw (failure "ENOENT: no such file or directory"), d)
    end.

(** The directories of [mkdirSync(p, { recursive: true })], from the
    root down: a missing one is made, one that is there is kept. *)
Fixpoint mkdirs (above : list string) (segs : list string) (d : gmap (list string) fsnode)
  : option (gmap (list string) fsnode) :=
  match segs with
  | [] => Some d
  | seg :: rest =>
      let k := above ++ [seg] in
      match d !! k with
      | None => mkdirs k rest (<[k := Dir]> d)
      | Some Dir => mkdirs k rest d
      | Some _ => None
      end
  end.

(** [mkdirSync(p, { recursive: true })]: it fails only when a file is in
    the way. *)
Definition mkdirSync (cwd p : string) : Run unit :=
  fun d => match mkdirs [] (Path.resolveSegs cwd p) d with
           | Some d' => (Return tt, d')
           | None => (Throw ("EEXIST: file already exists, mkdir '" +:+ p +:+ "'"), d)
           end.

(** [readFileSync(p)] *)
Definition readFileSync (cwd p : string) : Run content :=
  fun d => match d !! Path.resolveSegs cwd p with
           | Some (File c) => (Return c, d)
           | Some _ => (Throw "EISDIR: illegal operation on a directory, read", d)
           | None => (Throw ("ENOENT: no such file or directory, open '" +:+ p +:+ "'"), d)
           end.

(** What [JSON.parse] gives: an object, which is kept as a manifest;
    [null]; or a value that is neither, that is a number, a string, a
    boolean or an array, which is kept by the text that
    [JSON.stringify(value, undefined, 2)] gives for it. *)
Inductive jsonValue : Type :=
| Object (m : PackageJson)
| Null
| Plain (stringified : string).

(** [JSON.parse] on the text of a file that is not kept as a manifest:
    the value of a JSON text, and nothing for a text that is no JSON. *)
Class JsonParse : Type := { jsonParse : string -> option jsonValue }.

Section Script.

Context {json : JsonParse}.

(** [JSON.parse] of what a file holds. *)
Definition parse (c : content) : Run jsonValue :=
  fun d => match c with
           | Json m => (Return (Object m), d)
           | Text s => match jsonParse s with
                       | Some v => (Return v, d)
                       | None => (Throw "SyntaxError: Unexpected token in JSON", d)
                       end
           end.

(** [JSON.stringify(value, undefined, 2)] *)
Definition stringify (v : jsonValue) : content :=
  match v with
  | Object m => Json m
  | Null => Text "null"
  | Plain stringified => Text stringified
  end.

(** [writeFileSync(p, data)] *)
Definition writeFileSync (cwd p : string) (c : content) : Run unit :=
  fun d =>
    let k := Path.resolveSegs cwd p in
    if isDirectory d k
    then (Throw ("EISDIR: illegal operation on a directory, open '" +:+ p +:+ "'"), d)
    else if negb (isDirectory d (removelast k))
         then (Throw ("ENOENT: no such file or directory, open '" +:+ p +:+ "'"), d)
         else (Return tt, <[k := File c]> d).

(** [delete packageJson[k]] *)
Definition deleteProperty (k : string) (p : PackageJson) : PackageJson :=
  if String.eqb k "name" then setName None p
  else if String.eqb k "version" then setVersion None p
  else if String.eqb k "module" then
    {| name := name p; version := version p; module_ := None; typings := typings p;
       exports := exports p; sideEffects := sideEffects p;
       dependencies := dependencies p; peerDependencies := peerDependencies p;
       scripts := scripts p; ngPackage := ngPackage p; other := other p |}
  else if String.eqb k "typings" then
    {| name := name p; version := version p; module_ := module_ p; typings := None;
       exports := exports p; sideEffects := sideEffects p;
       dependencies := dependencies p; peerDependencies := peerDependencies p;
       scripts := scripts p; ngPackage := ngPackage p; other := other p |}
  else if String.eqb k "exports" then
    {| name := name p; version := version p; module_ := module_ p; typings := typings p;
       exports := None; sideEffects := sideEffects p;
       dependencies := dependencies p; peerDependencies := peerDependencies p;
       scripts := scripts p; ngPackage := ngPackage p; other := other p |}
  else if String.eqb k "sideEffects" then
    {| name := name p; version := version p; module_ := module_ p; typings := typings p;
       exports := exports p; sideEffects := None;
       dependencies := dependencies p; peerDependencies := peerDependencies p;
       scripts := scripts p; ngPackage := ngPackage p; other := other p |}
  else if String.eqb k "dependencies" then setDependencies None p
  else if String.eqb k "peerDependencies" then setPeerDependencies None p
  else if String.eqb k "scripts" then setScripts None p
  else if String.eqb k "ngPackage" then setNgPackage None p
  else setOther (Obj.del k (other p)) p.

(** [delete packageJson[k]] on what [JSON.parse] gave: no object can be
    made of [null]; a number, a string, a boolean or an array has none
    of the properties the script deletes. *)
Definition deleteKey (k : string) (v : jsonValue) : Run jsonValue :=
  fun d => match v with
           | Object m => (Return (Object (deleteProperty k m)), d)
           | Null => (Throw "TypeError: Cannot convert undefined or null to object", d)
           | Plain _ => (Return v, d)
           end.

(** The properties the script deletes, in its order. *)
Definition propertiesToDelete : list string :=
  ["devDependencies"; "scripts"; "private"; "pnpm"; "packageManager"; "husky"; "overrides"].

(** The manifest the script publishes for the manifest it reads. *)
Definition published (packageJson : PackageJson) : PackageJson :=
  fold_left (fun p k => deleteProperty k p) propertiesToDelete packageJson.

(** The files the script copies, source and destination. *)
Definition copied : list (string * string) :=
  [("LICENSE", "dist/LICENSE");
   ("README.md", "dist/README.md");
   (".browserslistrc", "dist/.browserslistrc");
   ("src/ng-package.schema.json", "dist/ng-package.schema.json");
   ("src/ng-entrypoint.schema.json", "dist/ng-entrypoint.schema.json");
   ("src/lib/ts/conf/tsconfig.ngc.json", "dist/src/lib/ts/conf/tsconfig.ngc.json")].

(** The script, run in the working directory [cwd]. *)
Definition script (cwd : string) : Run unit :=
  andThen (copyFileSync cwd "LICENSE" "dist/LICENSE") (fun _ =>
  andThen (copyFileSync cwd "README.md" "dist/README.md") (fun _ =>
  andThen (copyFileSync cwd ".browserslistrc" "dist/.browserslistrc") (fun _ =>
  andThen (copyFileSync cwd "src/ng-package.schema.json" "dist/ng-package.schema.json")
          (fun _ =>
  andThen (copyFileSync cwd "src/ng-entrypoint.schema.json" "dist/ng-entrypoint.schema.json")
          (fun _ =>
  andThen (mkdirSync cwd "dist/src/lib/ts/conf") (fun _ =>
  andThen (copyFileSync cwd "src/lib/ts/conf/tsconfig.ngc.json"
                        "dist/src/lib/ts/conf/tsconfig.ngc.json") (fun _ =>
  andThen (readFileSync cwd "package.json") (fun text =>
  andThen (parse text) (fun packageJson =>
  andThen (deleteKey "devDependencies" packageJson) (fun packageJson =>
  andThen (deleteKey "scripts" packageJson) (fun packageJson =>
  andThen (deleteKey "private" packageJson) (fun packageJson =>
  andThen (deleteKey "pnpm" packageJson) (fun packageJson =>
  andThen (deleteKey "packageManager" packageJson) (fun packageJson =>
  andThen (deleteKey "husky" packageJson) (fun packageJson =>
  andThen (deleteKey "overrides" packageJson) (fun packageJson =>
  writeFileSync cwd "dist/package.json" (stringify packageJson))))))))))))))))).

End Script.


End Postbuild.

(** ** Vocabulary of the properties *)

Section Vocabulary.

Context {host : Host}.

(** A segment free of separators. *)
Fixpoint slashFree (s : string) : Prop :=
  match s with
  | EmptyString => True
  | String c r => Ascii.eqb c "/" = false /\ slashFree r
  end.

(** Segments that normalisation keeps: neither empty nor ["."]; a plain
    segment is moreover not [".."]. *)
Definition kept (seg : string) : Prop := seg <> "" /\ seg <> ".".
Definition plain (seg : string) : Prop := seg <> "" /\ seg <> "." /\ seg <> "..".

(** What the probe of a path reports: [(isDirectory, isFile)], and
    [(false, false)] when [stat] fails. *)
Definition probed (w : World) (p : string) : bool * bool :=
  match fs w !! Fs.key w p with
  | Some Dir => (true, false)
  | Some (File _) => if Str.endsWithSlash p then (false, false) else (false, true)
  | Some Special => (false, false)
  | None => (false, false)
  end.

(** The entry a declaration resolves to in a given world. *)
Definition resolvedEntry (ngPackage : NgPackage) (w : World) (a : AssetPattern)
  : AssetEntry :=
  match a with
  | AssetObject e => e
  | AssetString s =>
      match probed w (Path.join [src ngPackage; s]) with
      | (true, _) => plainAsset "**/*" s s
      | (false, true) => plainAsset (Path.basename s) (Path.dirname s) (Path.dirname s)
      | (false, false) => plainAsset s "/" "/"
      end
  end.

(** The code's own test on a rooted entry. *)
Definition flagged (ngPackage : NgPackage) (w : World) (asset : AssetEntry) : bool :=
  isAncestorPath (cwd w) (input asset) (src ngPackage)
  || isAncestorPath (cwd w) (output asset) (dest ngPackage).

Definition containmentMessage (ngPackage : NgPackage) (w : World) (asset : AssetEntry)
  : string :=
  if isAncestorPath (cwd w) (input asset) (src ngPackage)
  then inputOutsideMessage else outputOutsideMessage.

(** Events are only ever appended. *)
Definition extends (w w' : World) : Prop :=
  cwd w' = cwd w /\ clock w' = clock w /\ fs w' = fs w /\ fsops w' = fsops w
  /\ graph w' = graph w
  /\ exists more, events w' = events w ++ more.

(** Two manifests agree on the version, the scripts, the dependencies and
    the peer dependencies. *)
Definition sameSections (p p' : PackageJson) : Prop :=
  version p' = version p /\ scripts p' = scripts p
  /\ dependencies p' = dependencies p /\ peerDependencies p' = peerDependencies p.

(** The manifest path of an entry point. *)
Definition manifestPath (e : NgEntryPoint) : string :=
  Path.join [destinationPath e; "package.json"].

(** The world after [rmdir(destinationPath, { recursive: true })]. *)
Definition rolledBack (e : NgEntryPoint) (w : World) : World :=
  snd (Fs.rmdir (destinationPath e) w).

(** The manifest after the version and [tslib] blocks, as [writePackageJson]
    computes it from the world it starts in. *)
Definition beforeGate (e : NgEntryPoint) (add : AdditionalProperties) (isWatchMode : bool)
           (w : World) : outcome PackageJson * World :=
  let p0 := mergeProperties (packageJson e) add in
  let p1 := if isWatchMode then setVersion (Some (watchVersionOf (clock w))) p0 else p0 in
  tslibBlock p1 (snd (emit (LogDebug "Writing package.json") w)).

(** The stub written for an entry point: [{ module: <bundle, relative to
    the destination> }]. *)
Definition stubOf (w : World) (node : EntryPointNode) : content :=
  moduleStub (ensureUnixPath
                (Path.relative (cwd w) (destinationPath (entryPoint node))
                               (fesm2022 (destinationFiles node)))).

(** A copy as the disk operation it is recorded as. *)
Definition copyOp (c : string * string) : fsop := OpCopyFile (fst c) (snd c).

(** What [copyAssets] may do to the world, [copies] being the files
    copied, source and destination, in order: nothing but these copies
    reaches the disk, every destination holds a file afterwards, the log
    stays as it is, the graph only grows and has a node and an edge from
    the entry point for every file copied. *)
Definition copiesOnly (entryPointNode : EntryPointNode) (w w' : World)
           (copies : list (string * string)) : Prop :=
  cwd w' = cwd w /\ clock w' = clock w /\ events w' = events w
  /\ fsops w' = fsops w ++ List.map copyOp copies
  /\ nodes (graph w) ⊆ nodes (graph w')
  /\ edges (graph w) ⊆ edges (graph w')
  /\ (forall c, In c copies ->
                fileUrl (ensureUnixPath (fst c)) ∈ nodes (graph w')
                /\ (url entryPointNode, fileUrl (ensureUnixPath (fst c))) ∈ edges (graph w'))
  /\ (forall c, In c copies -> exists x, fs w' !! Fs.key w (snd c) = Some (File x))
  /\ (forall k, (forall c, In c copies -> Fs.key w (snd c) <> k) -> fs w' !! k = fs w !! k).

(** The path of the [.npmignore] file of a package. *)
Definition npmignorePath (ngPackage : NgPackage) : string :=
  Path.join [destinationPath (primary ngPackage); ".npmignore"].

(** The properties the transform adds to the manifest of the entry point
    of [node], [generated] being the export map. *)
Definition additionalOf (w : World) (node : EntryPointNode) (generated : PackageExports)
  : AdditionalProperties :=
  let relativeUnixFromDestPath filePath :=
    ensureUnixPath (Path.relative (cwd w) (destinationPath (entryPoint node)) filePath) in
  {| add_module := relativeUnixFromDestPath (fesm2022 (destinationFiles node));
     add_typings := relativeUnixFromDestPath (declarationsBundled (destinationFiles node));
     add_exports := generated;
     add_sideEffects :=
       default (SideEffectsFlag false) (sideEffects (packageJson (entryPoint node))) |}.

(** The world when the manifest of a primary entry point is about to be
    assembled, [w2] being the world the assets were copied in. *)
Definition manifestStart (options : NgPackagrOptions) (ngPackage : NgPackage) (w2 : World)
  : World :=
  let w3 := snd (emit (SpinnerStart "Writing package manifest")
                      (snd (emit (SpinnerSucceed None) w2))) in
  if watch options then w3
  else snd (Fs.writeFile (npmignorePath ngPackage) (Text npmignoreText) w3).

(** The world once the transform has reported the manifest written and
    the entry point built. *)
Definition finished (node : EntryPointNode) (w : World) : World :=
  snd (emit (SpinnerSucceed (Some ("Built " +:+ moduleId (entryPoint node))))
            (snd (emit (SpinnerSucceed None) w))).

(** Two manifests agree on every property that is neither the version,
    nor the scripts, nor a dependency section. *)
Definition sameProperties (p p' : PackageJson) : Prop :=
  name p' = name p /\ module_ p' = module_ p /\ typings p' = typings p
  /\ exports p' = exports p /\ sideEffects p' = sideEffects p
  /\ ngPackage p' = ngPackage p /\ other p' = other p.

(** [delete o[k]] for every [k] of [props], in turn. *)
Definition stripped (props : list string) (o : Obj.t string) : Obj.t string :=
  fold_left (fun o' prop => Obj.del prop o') props o.

(** The report of a section removed by the strip loop. *)
Definition removingInfo (prop : string) : event :=
  SpinnerInfo ("Removing " +:+ prop +:+ " section in package.json.").

End Vocabulary.

(** ** A concrete host, package and disk for the examples *)

Module Sample.

(** A pattern without metacharacters matches the strings containing it. *)
Definition contains (pattern s : string) : bool :=
  match String.index 0 pattern s with Some _ => true | None => false end.

(** A source that begins with a quantifier is no regular expression. *)
Definition nothingToRepeat (pattern : string) : option string :=
  if String.prefix "*" pattern || String.prefix "+" pattern || String.prefix "?" pattern
  then Some ("Invalid regular expression: /" +:+ pattern +:+ "/: Nothing to repeat")
  else None.

(** A pattern without wildcards matches the file of that name; a source
    without special characters matches the strings it occurs in. *)
Definition host : Host :=
  {| globFiles := fun pattern opts w =>
       match fs w !! Fs.key w (Path.join [g_cwd opts; pattern]) with
       | Some (File _) => [pattern]
       | _ => []
       end;
     regexpSyntaxError := nothingToRepeat;
     regexpTest := contains;
     fileUrl := fun p => "file://" +:+ p;
     compilerPackageJson :=
       {| angularPeerDependencies := None;
          angularDependencies := Some [("tslib", "^2.3.0")] |} |}.

(** The sample host with another manifest of the compiler. *)
Definition hostWith (compiler : CompilerPackageJson) : Host :=
  {| globFiles := @globFiles host;
     regexpSyntaxError := nothingToRepeat;
     regexpTest := contains;
     fileUrl := @fileUrl host;
     compilerPackageJson := compiler |}.

Definition files : DestinationFiles :=
  {| directory := "";
     fesm2022 := "/repo/dist/fesm2022/lib.mjs";
     declarationsBundled := "/repo/dist/index.d.ts" |}.

Definition manifest : PackageJson :=
  {| name := Some "lib"; version := Some "1.2.3"; module_ := None; typings := None;
     exports := None; sideEffects := None;
     dependencies := None; peerDependencies := None;
     scripts := None; ngPackage := Some "{}";
     other := [("devDependencies", "{}")] |}.

Definition primaryEntry : NgEntryPoint :=
  {| moduleId := "lib"; destinationPath := "/repo/dist";
     isSecondaryEntryPoint := false; packageJson := manifest;
     ep_destinationFiles := files |}.

(** The primary entry point with a hand-written [default] condition. *)
Definition declaringEntry : NgEntryPoint :=
  {| moduleId := "lib"; destinationPath := "/repo/dist";
     isSecondaryEntryPoint := false;
     packageJson :=
       {| name := Some "lib"; version := Some "1.2.3"; module_ := None; typings := None;
          exports := Some [(".", [("default", "./custom.js")])];
          sideEffects := None; dependencies := None; peerDependencies := None;
          scripts := None; ngPackage := None; other := [] |};
     ep_destinationFiles := files |}.

Definition declaringNode : EntryPointNode :=
  {| url := "file:///repo/src/package.json"; inProgress := true;
     entryPoint := declaringEntry; destinationFiles := files;
     compilationMode := Some Partial |}.

Definition testingFiles : DestinationFiles :=
  {| directory := "testing";
     fesm2022 := "/repo/dist/fesm2022/lib-testing.mjs";
     declarationsBundled := "/repo/dist/testing/index.d.ts" |}.

Definition secondaryEntry : NgEntryPoint :=
  {| moduleId := "lib/testing"; destinationPath := "/repo/dist/testing";
     isSecondaryEntryPoint := true; packageJson := emptyPackageJson;
     ep_destinationFiles := testingFiles |}.

Definition primaryNode (active : bool) : EntryPointNode :=
  {| url := "file:///repo/src/package.json"; inProgress := active;
     entryPoint := primaryEntry; destinationFiles := files;
     compilationMode := Some Partial |}.

Definition secondaryNode (active : bool) : EntryPointNode :=
  {| url := "file:///repo/src/testing/package.json"; inProgress := active;
     entryPoint := secondaryEntry; destinationFiles := testingFiles;
     compilationMode := Some Partial |}.

Definition package (declared : list AssetPattern) (allowed : list string) : NgPackage :=
  {| src := "/repo/src"; dest := "/repo/dist"; assets := declared;
     allowedNonPeerDependencies := allowed; keepLifecycleScripts := false;
     primary := primaryEntry |}.

Definition disk : gmap (list string) fsnode :=
  list_to_map
    [ (["repo"], Dir);
      (["repo"; "src"], Dir);
      (["repo"; "src"; "README.md"], File (Text "# lib"));
      (["repo"; "src"; "assets"], Dir);
      (["repo"; "src"; "assets"; "logo.svg"], File (Text "<svg/>"));
      (["repo"; "secret"], Dir);
      (["repo"; "secret"; "README.md"], File (Text "keys"));
      (["repo"; "dist"], Dir);
      (["repo"; "dist"; "fesm2022"], Dir);
      (["repo"; "dist"; "fesm2022"; "lib.mjs"], File (Text "export {}")) ].

Definition manifestWith (deps peers scr : option (Obj.t string)) : PackageJson :=
  {| name := Some "lib"; version := Some "1.2.3"; module_ := None; typings := None;
     exports := None; sideEffects := None;
     dependencies := deps; peerDependencies := peers;
     scripts := scr; ngPackage := None; other := [] |}.

Definition entryWith (m : PackageJson) : NgEntryPoint :=
  {| moduleId := "lib"; destinationPath := "/repo/dist";
     isSecondaryEntryPoint := false; packageJson := m;
     ep_destinationFiles := files |}.

Definition additional : AdditionalProperties :=
  {| add_module := "fesm2022/lib.mjs"; add_typings := "index.d.ts";
     add_exports := [("./package.json", [("default", "./package.json")])];
     add_sideEffects := SideEffectsFlag false |}.

Definition keepingPackage (allowed : list string) : NgPackage :=
  {| src := "/repo/src"; dest := "/repo/dist"; assets := [];
     allowedNonPeerDependencies := allowed; keepLifecycleScripts := true;
     primary := primaryEntry |}.

(** A Node.js process with a compile cache, outside Bazel and outside a
    web container. *)
Definition process : WorkerPool.Process :=
  {| WorkerPool.webcontainer := None;
     WorkerPool.processEnv := [("PATH", "/usr/bin")];
     WorkerPool.getCompileCacheDir := Some (Some "/tmp/node-compile-cache") |}.

Definition noOptions : WorkerPool.WorkerPoolOptions :=
  {| WorkerPool.minThreads := None; WorkerPool.idleTimeout := None;
     WorkerPool.atomics := None; WorkerPool.recordTiming := None;
     WorkerPool.env := None |}.

(** The disk once the primary entry point has been built. *)
Definition builtDisk : gmap (list string) fsnode :=
  <[ ["repo"; "dist"; "package.json"] := File (Json manifest) ]> disk.

Definition world (now : N) (d : gmap (list string) fsnode) : World :=
  {| cwd := "/repo"; clock := now; fs := d; fsops := []; events := [];
     graph := {| nodes := ∅; edges := ∅ |} |}.

(** The node of a primary entry point in progress. *)
Definition nodeOf (e : NgEntryPoint) : EntryPointNode :=
  {| url := "file:///repo/src/package.json"; inProgress := true;
     entryPoint := e; destinationFiles := files;
     compilationMode := Some Partial |}.


(** The manifest of a repository about to be published. *)
Definition rootManifest : PackageJson :=
  {| name := Some "ng-packagr"; version := Some "21.0.0"; module_ := None; typings := None;
     exports := None; sideEffects := None;
     dependencies := Some [("piscina", "^5.0.0")];
     peerDependencies := Some [("tslib", "^2.3.0")];
     scripts := Some [("build", "tsc"); ("postbuild", "node scripts/postbuild.js")];
     ngPackage := None;
     other := [("license", "MIT"); ("devDependencies", "{ jasmine }"); ("private", "true");
               ("packageManager", "pnpm@10")] |}.

(** The working directory of the post-build script, after the build. *)
Definition repository : gmap (list string) fsnode :=
  list_to_map
    [ (["work"], Dir);
      (["work"; "LICENSE"], File (Text "MIT"));
      (["work"; "README.md"], File (Text "# ng-packagr"));
      (["work"; ".browserslistrc"], File (Text "last 2 versions"));
      (["work"; "package.json"], File (Json rootManifest));
      (["work"; "src"], Dir);
      (["work"; "src"; "ng-package.schema.json"], File (Text "{ package }"));
      (["work"; "src"; "ng-entrypoint.schema.json"], File (Text "{ entrypoint }"));
      (["work"; "src"; "lib"], Dir);
      (["work"; "src"; "lib"; "ts"], Dir);
      (["work"; "src"; "lib"; "ts"; "conf"], Dir);
      (["work"; "src"; "lib"; "ts"; "conf"; "tsconfig.ngc.json"], File (Text "{ ngc }"));
      (["work"; "dist"], Dir) ].

(** A [JSON.parse] for the texts of the samples: of the JSON texts it
    knows [null] and the number [42]. *)
Definition json : Postbuild.JsonParse :=
  {| Postbuild.jsonParse := fun text =>
       if String.eqb text "null" then Some Postbuild.Null
       else if String.eqb text "42" then Some (Postbuild.Plain "42")
       else None |}.

End Sample.

(** * Properties *)

(** ** Paths *)

Example normalize_ex1 : Path.normalize "/a/b/../c/./d/" = "/a/c/d/".
Proof. reflexivity. Qed.
Example join_ex1 : Path.join ["/repo/src"; "../secret"] = "/repo/secret".
Proof. reflexivity. Qed.
Example join_ex2 : Path.join ["/repo/src"; "/"] = "/repo/src/".
Proof. reflexivity. Qed.
Example relative_ex1 : Path.relative "/" "/repo/src" "/repo/secret" = "../secret".
Proof. reflexivity. Qed.
Example relative_ex2 : Path.relative "/" "/repo/src" "/repo/src/assets/" = "assets".
Proof. reflexivity. Qed.
Example relative_ex3 : Path.relative "/" "/a/b" "/" = "../..".
Proof. reflexivity. Qed.
Example dirname_ex1 : Path.dirname "assets/img/logo.png" = "assets/img".
Proof. reflexivity. Qed.
Example dirname_ex2 : Path.dirname "logo.png" = ".".
Proof. reflexivity. Qed.
Example dirname_ex3 : Path.dirname "/logo.png" = "/".
Proof. reflexivity. Qed.
Example dirname_ex4 : Path.dirname "a//b" = "a/".
Proof. reflexivity. Qed.
Example basename_ex1 : Path.basename "assets/img/logo.png/" = "logo.png".
Proof. reflexivity. Qed.

Example ofN_ex1 : Dec.ofN 1700000000000 = "1700000000000".
Proof. reflexivity. Qed.
Example ofN_ex2 : Dec.ofN 0 = "0".
Proof. reflexivity. Qed.

Lemma append_cons (a : ascii) (s t : string) : String a s +:+ t = String a (s +:+ t).
Proof. reflexivity. Qed.

Lemma split_slash_cons (s : string) : exists seg segs, Str.split_slash s = seg :: segs.
Proof.
  induction s as [|c s (seg & segs & IH)]; simpl; [eauto|].
  destruct (Ascii.eqb c "/"); [eauto|]. rewrite IH. eauto.
Qed.

(** Splitting distributes over a separator. *)
Lemma split_slash_app (a b : string) :
  Str.split_slash (a +:+ "/" +:+ b) = Str.split_slash a ++ Str.split_slash b.
Proof.
  induction a as [|c a IH].
  - reflexivity.
  - rewrite append_cons. simpl. rewrite IH.
    destruct (Ascii.eqb c "/"); [reflexivity|].
    destruct (split_slash_cons a) as (seg & segs & ->). reflexivity.
Qed.

Lemma split_slash_free (s : string) : Forall slashFree (Str.split_slash s).
Proof.
  induction s as [|c s IH]; simpl.
  - repeat constructor.
  - destruct (Ascii.eqb c "/") eqn:E.
    + constructor; [exact I|exact IH].
    + destruct (Str.split_slash s) as [|seg segs]; [repeat constructor; exact E|].
      inversion IH; subst. constructor; [split; assumption|assumption].
Qed.

Lemma split_slash_free_id (s : string) : slashFree s -> Str.split_slash s = [s].
Proof.
  induction s as [|c s IH]; simpl; [reflexivity|].
  intros [Hc Hs]. rewrite Hc, (IH Hs). reflexivity.
Qed.

(** Joining separator-free segments and splitting again is the identity. *)
Lemma split_concat (segs : list string) :
  segs <> [] -> Forall slashFree segs ->
  Str.split_slash (String.concat "/" segs) = segs.
Proof.
  induction segs as [|seg segs IH]; [congruence|]. intros _ Hall.
  inversion Hall as [|? ? Hseg Hrest]; subst.
  destruct segs as [|seg' segs'].
  - simpl. apply split_slash_free_id, Hseg.
  - change (String.concat "/" (seg :: seg' :: segs'))
      with (seg +:+ "/" +:+ String.concat "/" (seg' :: segs')).
    rewrite split_slash_app, (split_slash_free_id seg Hseg), IH by (congruence || assumption).
    reflexivity.
Qed.

Lemma normStep_skip (a : bool) (res : list string) (seg : string) :
  seg = "" \/ seg = "." -> Path.normStep a res seg = res.
Proof. intros [->| ->]; reflexivity. Qed.

Lemma normStep_plain (a : bool) (res : list string) (seg : string) :
  plain seg -> Path.normStep a res seg = seg :: res.
Proof.
  intros (H1 & H2 & H3). unfold Path.normStep.
  destruct (String.eqb_spec seg ""); [contradiction|].
  destruct (String.eqb_spec seg "."); [contradiction|].
  destruct (String.eqb_spec seg ".."); [contradiction|]. reflexivity.
Qed.

Lemma segment_cases (seg : string) : seg = "" \/ seg = "." \/ seg = ".." \/ plain seg.
Proof.
  destruct (String.eqb_spec seg ""); [tauto|].
  destruct (String.eqb_spec seg "."); [tauto|].
  destruct (String.eqb_spec seg ".."); [tauto|].
  right. right. right. repeat split; assumption.
Qed.

Lemma fold_plain (a : bool) (xs st : list string) :
  Forall plain xs -> fold_left (Path.normStep a) xs st = rev xs ++ st.
Proof.
  revert st. induction xs as [|x xs IH]; intros st H; [reflexivity|].
  inversion H; subst. simpl. rewrite normStep_plain by assumption.
  rewrite IH by assumption. rewrite <- app_assoc. reflexivity.
Qed.

Lemma normStep_false_plain (res : list string) (seg : string) :
  Forall plain res -> Forall plain (Path.normStep false res seg).
Proof.
  intros Hres.
  destruct (segment_cases seg) as [->|[->|[->|Hp]]].
  - exact Hres.
  - exact Hres.
  - unfold Path.normStep. simpl. destruct res as [|last rest]; [constructor|].
    inversion Hres; subst. destruct (String.eqb last ".."); assumption.
  - rewrite normStep_plain by exact Hp. constructor; assumption.
Qed.

Lemma fold_false_plain (xs st : list string) :
  Forall plain st -> Forall plain (fold_left (Path.normStep false) xs st).
Proof.
  revert st. induction xs as [|x xs IH]; intros st H; [exact H|].
  simpl. apply IH, normStep_false_plain, H.
Qed.

Lemma normStep_true_kept (res : list string) (seg : string) :
  Forall kept res -> Forall kept (Path.normStep true res seg).
Proof.
  intros Hres.
  destruct (segment_cases seg) as [->|[->|[->|Hp]]].
  - exact Hres.
  - exact Hres.
  - unfold Path.normStep. simpl. destruct res as [|last rest].
    + constructor; [split; discriminate|constructor].
    + inversion Hres; subst. destruct (String.eqb last "..").
      * constructor; [split; discriminate|assumption].
      * assumption.
  - rewrite normStep_plain by exact Hp. constructor; [|assumption].
    destruct Hp as (? & ? & ?). split; assumption.
Qed.

Lemma fold_true_kept (xs st : list string) :
  Forall kept st -> Forall kept (fold_left (Path.normStep true) xs st).
Proof.
  revert st. induction xs as [|x xs IH]; intros st H; [exact H|].
  simpl. apply IH, normStep_true_kept, H.
Qed.

Lemma normStep_slashFree (a : bool) (res : list string) (seg : string) :
  slashFree seg -> Forall slashFree res -> Forall slashFree (Path.normStep a res seg).
Proof.
  intros Hseg Hres.
  destruct (segment_cases seg) as [->|[->|[->|Hp]]].
  - exact Hres.
  - exact Hres.
  - unfold Path.normStep. simpl. destruct res as [|last rest].
    + destruct a; repeat constructor.
    + inversion Hres; subst. destruct (String.eqb last ".."); [|assumption].
      destruct a; [|assumption]. constructor; [repeat constructor|assumption].
  - rewrite normStep_plain by exact Hp. constructor; assumption.
Qed.

Lemma fold_slashFree (a : bool) (xs st : list string) :
  Forall slashFree xs -> Forall slashFree st ->
  Forall slashFree (fold_left (Path.normStep a) xs st).
Proof.
  revert st. induction xs as [|x xs IH]; intros st Hxs Hst; [exact Hst|].
  inversion Hxs; subst. simpl. apply IH; [assumption|].
  apply normStep_slashFree; assumption.
Qed.

(** Normalising first, with leading [".."] kept, does not change where a
    path leads from a given directory. *)
Lemma fold_normalized (ys st : list string) :
  fold_left (Path.normStep false) (rev (fold_left (Path.normStep true) ys [])) st
  = fold_left (Path.normStep false) ys st.
Proof.
  induction ys as [|y ys IH] using rev_ind; [reflexivity|].
  rewrite !fold_left_app. simpl.
  set (R := fold_left (Path.normStep true) ys []) in *.
  assert (HR : Forall kept R) by (apply fold_true_kept; constructor).
  rewrite <- IH.
  destruct (segment_cases y) as [->|[->|[->|Hp]]].
  - reflexivity.
  - reflexivity.
  - destruct R as [|last rest] eqn:ER.
    + reflexivity.
    + unfold Path.normStep at 2. simpl.
      destruct (String.eqb_spec last "..") as [->|Hne].
      * simpl. rewrite !fold_left_app. reflexivity.
      * simpl. rewrite fold_left_app. simpl.
        inversion HR as [|? ? [Hk1 Hk2] _]; subst.
        rewrite (normStep_plain false _ last) by (repeat split; assumption).
        unfold Path.normStep. simpl.
        destruct (String.eqb_spec last ".."); [contradiction|reflexivity].
  - rewrite (normStep_plain true) by exact Hp. simpl.
    rewrite fold_left_app. reflexivity.
Qed.

Lemma concat_nonEmpty (seg : string) (segs : list string) :
  seg <> "" -> Str.nonEmpty (String.concat "/" (seg :: segs)) = true.
Proof.
  intros H. destruct seg as [|c seg]; [congruence|].
  destruct segs; reflexivity.
Qed.

Lemma concat_empty (segs : list string) :
  Forall kept segs -> Str.nonEmpty (String.concat "/" segs) = false -> segs = [].
Proof.
  destruct segs as [|seg segs]; [reflexivity|]. intros H E.
  inversion H as [|? ? [Hne _] _]; subst.
  rewrite concat_nonEmpty in E by exact Hne. discriminate.
Qed.

Lemma plain_kept (segs : list string) : Forall plain segs -> Forall kept segs.
Proof.
  induction 1 as [|seg segs (H1 & H2 & _) _ IH]; constructor; [split|]; assumption.
Qed.

Lemma isAbsolute_cons (c : ascii) (X : string) :
  Path.isAbsolute (String c X) = Ascii.eqb c "/".
Proof.
  unfold Path.isAbsolute, Str.startsWith.
  change (String.prefix "/" (String c X))
    with (if ascii_dec "/" c then String.prefix "" X else false).
  destruct (ascii_dec "/" c) as [<-|Hne].
  - destruct X; reflexivity.
  - symmetry. apply Ascii.eqb_neq. congruence.
Qed.

Lemma concat_not_absolute (segs : list string) :
  Forall kept segs -> Forall slashFree segs ->
  forall tail, Path.isAbsolute (String.concat "/" segs +:+ tail) = false
               \/ segs = [].
Proof.
  intros Hk Hs tail. destruct segs as [|seg segs]; [right; reflexivity|left].
  inversion Hk as [|? ? [Hne _] _]; subst. inversion Hs as [|? ? Hsf _]; subst.
  destruct seg as [|c seg]; [congruence|]. destruct Hsf as [Hc _].
  assert (HX : exists X, String.concat "/" (String c seg :: segs) +:+ tail = String c X).
  { destruct segs; eexists; reflexivity. }
  destruct HX as (X & ->). rewrite isAbsolute_cons. exact Hc.
Qed.

Lemma append_nil_r (s : string) : s +:+ "" = s.
Proof. induction s as [|a s IH]; [reflexivity|]. rewrite append_cons, IH. reflexivity. Qed.

Lemma split_slash_trailing (s : string) :
  Str.split_slash (s +:+ "/") = Str.split_slash s ++ [""].
Proof. exact (split_slash_app s ""). Qed.

Lemma fold_skip_last (a : bool) (xs st : list string) :
  fold_left (Path.normStep a) (xs ++ [""]) st = fold_left (Path.normStep a) xs st.
Proof. rewrite fold_left_app. reflexivity. Qed.

Lemma resolveSegs_rooted (cwd X : string) :
  Path.resolveSegs cwd ("/" +:+ X) = Path.normalizeString false (Str.split_slash X).
Proof.
  change ("/" +:+ X) with (String "/" X).
  unfold Path.resolveSegs. rewrite isAbsolute_cons. reflexivity.
Qed.

(** Resolving a normalised path leads where resolving the path does. *)
Lemma resolveSegs_normalize (cwd q : string) :
  Str.nonEmpty q = true ->
  Path.resolveSegs cwd (Path.normalize q) = Path.resolveSegs cwd q.
Proof.
  intros Hq. unfold Path.normalize. rewrite Hq. simpl.
  destruct (Path.isAbsolute q) eqn:Habs; simpl.
  - (* absolute *)
    set (N := Path.normalizeString false (Str.split_slash q)).
    assert (HN : Forall plain N).
    { unfold N, Path.normalizeString. apply Forall_rev, fold_false_plain. constructor. }
    assert (HS : Forall slashFree N).
    { unfold N, Path.normalizeString. apply Forall_rev, fold_slashFree;
        [apply split_slash_free|constructor]. }
    assert (Hidem : Path.normalizeString false N = N).
    { unfold Path.normalizeString at 1. rewrite fold_plain by exact HN.
      rewrite app_nil_r. apply rev_involutive. }
    unfold Path.resolveSegs at 2. rewrite Habs. fold N.
    destruct (Str.nonEmpty (String.concat "/" N)) eqn:Hbody; simpl.
    + assert (Hne : N <> []) by (intros E; rewrite E in Hbody; discriminate).
      destruct (Str.endsWithSlash q).
      * rewrite resolveSegs_rooted, split_slash_trailing.
        rewrite split_concat by assumption.
        unfold Path.normalizeString. rewrite fold_skip_last. exact Hidem.
      * rewrite resolveSegs_rooted, split_concat by assumption. exact Hidem.
    + rewrite (concat_empty N (plain_kept N HN) Hbody). reflexivity.
  - (* relative *)
    set (N := Path.normalizeString true (Str.split_slash q)).
    assert (HN : Forall kept N).
    { unfold N, Path.normalizeString. apply Forall_rev, fold_true_kept. constructor. }
    assert (HS : Forall slashFree N).
    { unfold N, Path.normalizeString. apply Forall_rev, fold_slashFree;
        [apply split_slash_free|constructor]. }
    assert (Hconf : forall st, fold_left (Path.normStep false) N st
                               = fold_left (Path.normStep false) (Str.split_slash q) st).
    { intros st. unfold N, Path.normalizeString. apply fold_normalized. }
    set (S0 := fold_left (Path.normStep false) (Str.split_slash cwd) []).
    assert (HR : Path.resolveSegs cwd q = rev (fold_left (Path.normStep false) N S0)).
    { unfold Path.resolveSegs. rewrite Habs. unfold Path.normalizeString.
      rewrite fold_left_app, Hconf. reflexivity. }
    rewrite HR.
    assert (Hrel : forall p, Path.isAbsolute p = false ->
                             Path.resolveSegs cwd p
                             = rev (fold_left (Path.normStep false) (Str.split_slash p) S0)).
    { intros p Hp. unfold Path.resolveSegs. rewrite Hp. unfold Path.normalizeString.
      rewrite fold_left_app. reflexivity. }
    destruct (Str.nonEmpty (String.concat "/" N)) eqn:Hbody; simpl.
    + assert (Hne : N <> []) by (intros E; rewrite E in Hbody; discriminate).
      destruct (Str.endsWithSlash q).
      * destruct (concat_not_absolute N HN HS "/") as [Hna|E]; [|contradiction].
        rewrite (Hrel _ Hna), split_slash_trailing, split_concat by assumption.
        rewrite fold_skip_last. reflexivity.
      * destruct (concat_not_absolute N HN HS "") as [Hna|E]; [|contradiction].
        rewrite append_nil_r in Hna.
        rewrite (Hrel _ Hna), split_concat by assumption. reflexivity.
    + rewrite (concat_empty N HN Hbody).
      destruct (Str.endsWithSlash q); rewrite Hrel by reflexivity; reflexivity.
Qed.

(** [path.join(d, name)] leads to the entry [name] of the directory [d]. *)
Lemma resolveSegs_join_name (cwd d name : string) :
  plain name -> slashFree name ->
  Path.resolveSegs cwd (Path.join [d; name]) = Path.resolveSegs cwd d ++ [name].
Proof.
  intros Hp Hs.
  assert (Hne : Str.nonEmpty name = true).
  { destruct name; [destruct Hp; congruence|reflexivity]. }
  unfold Path.join. simpl. rewrite Hne.
  destruct (Str.nonEmpty d) eqn:Hd; simpl.
  - change (String.concat "/" [d; name]) with (d +:+ "/" +:+ name).
    assert (Hj : Str.nonEmpty (d +:+ "/" +:+ name) = true).
    { destruct d; [discriminate|reflexivity]. }
    rewrite Hj. simpl. rewrite resolveSegs_normalize by exact Hj.
    unfold Path.resolveSegs.
    assert (Ha : Path.isAbsolute (d +:+ "/" +:+ name) = Path.isAbsolute d).
    { destruct d as [|c d]; [discriminate|].
      rewrite append_cons, !isAbsolute_cons. reflexivity. }
    rewrite Ha, split_slash_app, (split_slash_free_id name Hs).
    unfold Path.normalizeString.
    destruct (Path.isAbsolute d).
    + rewrite fold_left_app. simpl. rewrite normStep_plain by exact Hp. reflexivity.
    + rewrite app_assoc, fold_left_app. simpl. rewrite normStep_plain by exact Hp. reflexivity.
  - destruct d; [|discriminate].
    rewrite Hne. simpl. rewrite resolveSegs_normalize by exact Hne.
    unfold Path.resolveSegs.
    assert (Ha : Path.isAbsolute name = false).
    { destruct name as [|c name]; [discriminate|]. destruct Hs as [Hc _].
      rewrite isAbsolute_cons. exact Hc. }
    rewrite Ha. simpl. rewrite (split_slash_free_id name Hs).
    unfold Path.normalizeString. rewrite !fold_left_app. simpl.
    rewrite normStep_plain by exact Hp. reflexivity.
Qed.

Lemma stripCommon_up_nil (from to : list string) :
  fst (Path.stripCommon from to) = [] -> from `prefix_of` to.
Proof.
  revert to. induction from as [|f from IH]; intros to H.
  - apply prefix_nil.
  - destruct to as [|t to]; simpl in H; [discriminate|].
    destruct (String.eqb_spec f t) as [->|Hne]; [|discriminate].
    apply prefix_cons, IH, H.
Qed.

Lemma concat_dotdot_prefix (up down : list string) :
  up <> [] ->
  String.prefix ".." (String.concat "/" (List.map (fun _ => "..") up ++ down)) = true.
Proof.
  destruct up as [|u up]; [congruence|]. intros _. simpl.
  destruct (List.map (fun _ => "..") up ++ down); reflexivity.
Qed.

(** A target outside the root is always flagged by [isAncestorPath]. *)
Lemma isAncestorPath_outside (cwd target datum : string) :
  ~ withinRoot cwd datum target -> isAncestorPath cwd target datum = true.
Proof.
  intros Hout. unfold isAncestorPath, Str.startsWith, Path.relative.
  destruct (String.eqb_spec datum target) as [->|Hne].
  - exfalso. apply Hout. unfold withinRoot. reflexivity.
  - destruct (Path.stripCommon (Path.resolveSegs cwd datum) (Path.resolveSegs cwd target))
      as [up down] eqn:E.
    apply concat_dotdot_prefix. intros ->. apply Hout.
    apply stripCommon_up_nil. rewrite E. reflexivity.
Qed.

(** ** Asset resolution and containment *)

Section AssetProperties.

Context {host : Host}.

Lemma probe_run (p : string) (w : World) : probe p w = (Return (probed w p), w).
Proof.
  unfold probe, probed, tryCatch, bind, Fs.stat, ret.
  destruct (fs w !! Fs.key w p) as [[c| |]|]; try reflexivity.
  destruct (Str.endsWithSlash p); reflexivity.
Qed.

Lemma resolveAssetPattern_run (ngPackage : NgPackage) (a : AssetPattern) (w : World) :
  resolveAssetPattern ngPackage a w = (Return (resolvedEntry ngPackage w a), w).
Proof.
  destruct a as [s|e]; [|reflexivity].
  unfold resolveAssetPattern, bind. rewrite probe_run. simpl.
  destruct (probed w (Path.join [src ngPackage; s])) as [[|] [|]]; reflexivity.
Qed.

(** C5. A bare string is probed under the source root. A directory gives
    the pattern matching every file below it, with the string as input
    and output; a file gives its base name as pattern and its directory
    as input and output; anything else, a failed probe included, gives
    the string itself as pattern with input and output ["/"], which
    [rootAsset] then joins to the source and destination roots. The
    probe neither throws nor changes the world. *)
Theorem bare_string_resolution (ngPackage : NgPackage) (assetPath : string) (w : World) :
  let probedPath := Path.join [src ngPackage; assetPath] in
  resolveAssetPattern ngPackage (AssetString assetPath) w =
  (Return
     match fs w !! Fs.key w probedPath with
     | Some Dir =>
         {| glob := "**/*"; input := assetPath; output := assetPath;
            ignore := None; followSymlinks := None |}
     | Some (File _) =>
         if Str.endsWithSlash probedPath
         then {| glob := assetPath; input := "/"; output := "/";
                 ignore := None; followSymlinks := None |}
         else {| glob := Path.basename assetPath;
                 input := Path.dirname assetPath; output := Path.dirname assetPath;
                 ignore := None; followSymlinks := None |}
     | Some Special | None =>
         {| glob := assetPath; input := "/"; output := "/";
            ignore := None; followSymlinks := None |}
     end, w)
  /\ input (rootAsset ngPackage (plainAsset assetPath "/" "/")) = Path.join [src ngPackage; "/"]
  /\ output (rootAsset ngPackage (plainAsset assetPath "/" "/")) = Path.join [dest ngPackage; "/"].
Proof.
  intros probedPath. split; [|split; reflexivity].
  rewrite resolveAssetPattern_run. unfold resolvedEntry, probed. fold probedPath.
  destruct (fs w !! Fs.key w probedPath) as [[c| |]|]; try reflexivity.
  destruct (Str.endsWithSlash probedPath); reflexivity.
Qed.

Lemma resolveAssets_clean (ngPackage : NgPackage) (w : World)
      (declared : list AssetPattern) (acc : list AssetEntry) :
  (forall a, In a declared ->
             flagged ngPackage w (rootAsset ngPackage (resolvedEntry ngPackage w a)) = false) ->
  resolveAssets ngPackage declared acc w =
  (Return (acc ++ List.map (fun a => rootAsset ngPackage (resolvedEntry ngPackage w a)) declared), w).
Proof.
  revert acc. induction declared as [|a rest IH]; intros acc Hall; simpl.
  - rewrite app_nil_r. reflexivity.
  - unfold bind at 1. rewrite resolveAssetPattern_run.
    unfold bind at 1. unfold getWorld at 1.
    pose proof (Hall a (or_introl eq_refl)) as Ha. unfold flagged in Ha.
    apply orb_false_iff in Ha as [Hi Ho]. simpl in Hi, Ho. rewrite Hi, Ho.
    rewrite IH by (intros; apply Hall; right; assumption).
    rewrite <- app_assoc. reflexivity.
Qed.

Lemma resolveAssets_flagged (ngPackage : NgPackage) (w : World)
      (clean : list AssetPattern) (a : AssetPattern) (rest : list AssetPattern)
      (acc : list AssetEntry) :
  (forall c, In c clean ->
             flagged ngPackage w (rootAsset ngPackage (resolvedEntry ngPackage w c)) = false) ->
  flagged ngPackage w (rootAsset ngPackage (resolvedEntry ngPackage w a)) = true ->
  resolveAssets ngPackage (clean ++ a :: rest) acc w =
  (Throw (containmentMessage ngPackage w (rootAsset ngPackage (resolvedEntry ngPackage w a))), w).
Proof.
  revert acc. induction clean as [|c clean IH]; intros acc Hclean Ha; simpl.
  - unfold bind at 1. rewrite resolveAssetPattern_run.
    unfold bind at 1. unfold getWorld at 1.
    unfold flagged in Ha. unfold containmentMessage. simpl in Ha |- *.
    destruct (isAncestorPath (cwd w) (Path.join [src ngPackage; _]) (src ngPackage));
      [reflexivity|].
    simpl in Ha. rewrite Ha. reflexivity.
  - unfold bind at 1. rewrite resolveAssetPattern_run.
    unfold bind at 1. unfold getWorld at 1.
    pose proof (Hclean c (or_introl eq_refl)) as Hc. unfold flagged in Hc.
    apply orb_false_iff in Hc as [Hi Ho]. simpl in Hi, Ho. rewrite Hi, Ho.
    apply IH; [intros; apply Hclean; right; assumption|assumption].
Qed.

(** Every list splits at its first element satisfying a test. *)
Lemma first_split {A} (p : A -> bool) (l : list A) (x : A) :
  In x l -> p x = true ->
  exists pre y post, l = pre ++ y :: post /\ (forall c, In c pre -> p c = false) /\ p y = true.
Proof.
  induction l as [|h t IH]; intros Hin Hp; [destruct Hin|].
  destruct (p h) eqn:Eh.
  - exists [], h, t. split; [reflexivity|]. split; [intros c []|assumption].
  - destruct Hin as [->|Hin]; [congruence|].
    destruct (IH Hin Hp) as (pre & y & post & -> & Hpre & Hy).
    exists (h :: pre), y, post. split; [reflexivity|]. split; [|assumption].
    intros c [<-|Hc]; [assumption|apply Hpre, Hc].
Qed.

End AssetProperties.

Section ContainmentTheorem.

Context {host : Host}.

(** C2. When some declaration, user-given or default, resolves to an
    entry whose input is outside the source root or whose output is
    outside the destination root, [copyAssets] throws one of the two
    containment errors and leaves the world exactly as it was: no copy
    operation is recorded, no file and no graph node is added, also not
    for the entries that precede the violating one. *)
Theorem containment_violation_copies_nothing
        (entryPointNode : EntryPointNode) (ngPackage : NgPackage)
        (entryPoints : list EntryPointNode) (w : World)
        (a : AssetPattern) (e0 : AssetEntry) :
  In a (declaredAssets ngPackage entryPoints) ->
  resolveAssetPattern ngPackage a w = (Return e0, w) ->
  ~ withinRoot (cwd w) (src ngPackage) (input (rootAsset ngPackage e0))
  \/ ~ withinRoot (cwd w) (dest ngPackage) (output (rootAsset ngPackage e0)) ->
  exists message,
    copyAssets entryPointNode ngPackage entryPoints w = (Throw message, w)
    /\ (message = inputOutsideMessage \/ message = outputOutsideMessage)
    /\ fsops (snd (copyAssets entryPointNode ngPackage entryPoints w)) = fsops w
    /\ fs (snd (copyAssets entryPointNode ngPackage entryPoints w)) = fs w.
Proof.
  intros Hin Hres Hout.
  rewrite resolveAssetPattern_run in Hres. injection Hres as <-.
  assert (Hflag : flagged ngPackage w
                    (rootAsset ngPackage (resolvedEntry ngPackage w a)) = true).
  { unfold flagged. apply orb_true_iff.
    destruct Hout as [H|H]; [left|right]; apply isAncestorPath_outside, H. }
  destruct (first_split
              (fun c => flagged ngPackage w (rootAsset ngPackage (resolvedEntry ngPackage w c)))
              _ a Hin Hflag) as (pre & y & post & Hsplit & Hpre & Hy).
  assert (Hrun : copyAssets entryPointNode ngPackage entryPoints w =
                 (Throw (containmentMessage ngPackage w
                           (rootAsset ngPackage (resolvedEntry ngPackage w y))), w)).
  { unfold copyAssets, bind. rewrite Hsplit.
    rewrite (resolveAssets_flagged ngPackage w pre y post [] Hpre Hy). reflexivity. }
  eexists. split; [exact Hrun|]. rewrite Hrun. split; [|split; reflexivity].
  unfold containmentMessage.
  destruct (isAncestorPath _ _ _); [left|right]; reflexivity.
Qed.

End ContainmentTheorem.

(** A package whose only declared asset reads from outside the source
    root: nothing is copied, although the default README would have been. *)
Lemma containment_violation_copies_nothing_witness :
  exists message,
    @copyAssets Sample.host (Sample.primaryNode true)
      (Sample.package [AssetString "README.md";
                       AssetObject (plainAsset "README.md" "../secret" ".")] [])
      [Sample.primaryNode true] (Sample.world 0 Sample.disk)
    = (Throw message, Sample.world 0 Sample.disk)
    /\ (message = inputOutsideMessage \/ message = outputOutsideMessage)
    /\ fsops (snd (@copyAssets Sample.host (Sample.primaryNode true)
                     (Sample.package [AssetString "README.md";
                                      AssetObject (plainAsset "README.md" "../secret" ".")] [])
                     [Sample.primaryNode true] (Sample.world 0 Sample.disk))) = []
    /\ fs (snd (@copyAssets Sample.host (Sample.primaryNode true)
                  (Sample.package [AssetString "README.md";
                                   AssetObject (plainAsset "README.md" "../secret" ".")] [])
                  [Sample.primaryNode true] (Sample.world 0 Sample.disk))) = Sample.disk.
Proof.
  apply (@containment_violation_copies_nothing Sample.host (Sample.primaryNode true)
           (Sample.package [AssetString "README.md";
                            AssetObject (plainAsset "README.md" "../secret" ".")] [])
           [Sample.primaryNode true] (Sample.world 0 Sample.disk)
           (AssetObject (plainAsset "README.md" "../secret" "."))
           (plainAsset "README.md" "../secret" ".")).
  - simpl. right. left. reflexivity.
  - reflexivity.
  - left. apply (bool_decide_eq_false_1 _). vm_compute. reflexivity.
Defined.

(** Without the violating entry the same package copies its README. *)
Example copyAssets_copies :
  fsops (snd (@copyAssets Sample.host (Sample.primaryNode true)
                (Sample.package [AssetString "README.md"] [])
                [Sample.primaryNode true] (Sample.world 0 Sample.disk)))
  = [OpCopyFile "/repo/src/README.md" "/repo/dist/README.md";
     OpCopyFile "/repo/src/README.md" "/repo/dist/README.md"].
Proof. vm_compute. reflexivity. Qed.

(** ** Objects *)

Lemma get_set_eq {V} (k : string) (v : V) (o : Obj.t V) : Obj.get k (Obj.set k v o) = Some v.
Proof.
  induction o as [|[k' v'] r IH]; simpl.
  - rewrite String.eqb_refl. reflexivity.
  - destruct (String.eqb_spec k' k) as [->|Hne]; simpl.
    + rewrite String.eqb_refl. reflexivity.
    + destruct (String.eqb_spec k' k); [contradiction|exact IH].
Qed.

Lemma get_set_ne {V} (k k0 : string) (v : V) (o : Obj.t V) :
  k0 <> k -> Obj.get k (Obj.set k0 v o) = Obj.get k o.
Proof.
  intros Hne. induction o as [|[k' v'] r IH]; simpl.
  - destruct (String.eqb_spec k0 k); [contradiction|reflexivity].
  - destruct (String.eqb_spec k' k0) as [->|Hne']; simpl.
    + destruct (String.eqb_spec k0 k); [contradiction|reflexivity].
    + destruct (String.eqb_spec k' k); [reflexivity|exact IH].
Qed.

Lemma get_del_eq {V} (k : string) (o : Obj.t V) : Obj.get k (Obj.del k o) = None.
Proof.
  induction o as [|[k' v'] r IH]; simpl; [reflexivity|].
  destruct (String.eqb_spec k' k) as [->|Hne]; simpl; [exact IH|].
  destruct (String.eqb_spec k' k); [contradiction|exact IH].
Qed.

Lemma get_del_ne {V} (k k0 : string) (o : Obj.t V) :
  k0 <> k -> Obj.get k (Obj.del k0 o) = Obj.get k o.
Proof.
  intros Hne. induction o as [|[k' v'] r IH]; simpl; [reflexivity|].
  destruct (String.eqb_spec k' k0) as [->|Hne']; simpl.
  - destruct (String.eqb_spec k0 k); [contradiction|exact IH].
  - destruct (String.eqb_spec k' k); [reflexivity|exact IH].
Qed.

Lemma get_some_in_keys {V} (k : string) (v : V) (o : Obj.t V) :
  Obj.get k o = Some v -> In k (Obj.keys o).
Proof.
  induction o as [|[k' v'] r IH]; simpl; [discriminate|].
  destruct (String.eqb_spec k' k) as [->|Hne]; [left; reflexivity|right; auto].
Qed.

Lemma in_keys_has {V} (k : string) (o : Obj.t V) : In k (Obj.keys o) -> Obj.has k o = true.
Proof.
  unfold Obj.has. induction o as [|[k' v'] r IH]; simpl; [intros []|].
  destruct (String.eqb_spec k' k) as [->|Hne]; [reflexivity|].
  intros [H|H]; [contradiction|exact (IH H)].
Qed.

(** Assignment keeps the keys in place and appends a new one. *)
Lemma keys_set {V} (k : string) (v : V) (o : Obj.t V) :
  Obj.keys (Obj.set k v o) = if Obj.has k o then Obj.keys o else Obj.keys o ++ [k].
Proof.
  unfold Obj.has. induction o as [|[k' v'] r IH]; simpl; [reflexivity|].
  destruct (String.eqb_spec k' k) as [->|Hne]; simpl; [reflexivity|].
  rewrite IH. destruct (Obj.get k r); reflexivity.
Qed.

(** ** Running effectful code *)

Lemma bind_return {A B} (m : M A) (k : A -> M B) (w w' : World) (a : A) :
  m w = (Return a, w') -> bind m k w = k a w'.
Proof. intros H. unfold bind. rewrite H. reflexivity. Qed.

Lemma bind_throw {A B} (m : M A) (k : A -> M B) (w w' : World) (e : string) :
  m w = (Throw e, w') -> bind m k w = (Throw e, w').
Proof. intros H. unfold bind. rewrite H. reflexivity. Qed.

Lemma tryCatch_return {A} (m : M A) (h : string -> M A) (w w' : World) (a : A) :
  m w = (Return a, w') -> tryCatch m h w = (Return a, w').
Proof. intros H. unfold tryCatch. rewrite H. reflexivity. Qed.

Lemma tryCatch_throw {A} (m : M A) (h : string -> M A) (w w' : World) (e : string) :
  m w = (Throw e, w') -> tryCatch m h w = h e w'.
Proof. intros H. unfold tryCatch. rewrite H. reflexivity. Qed.

(** ** Export map *)

Section ExportProperties.

Context {host : Host}.

Lemma extends_refl (w : World) : extends w w.
Proof. repeat split. exists []. rewrite app_nil_r. reflexivity. Qed.

Lemma extends_trans (w1 w2 w3 : World) : extends w1 w2 -> extends w2 w3 -> extends w1 w3.
Proof.
  intros (a1 & a2 & a3 & a4 & a5 & m1 & a7) (b1 & b2 & b3 & b4 & b5 & m2 & b7).
  repeat split; try congruence.
  exists (m1 ++ m2). rewrite b7, a7, app_assoc. reflexivity.
Qed.

Lemma extends_emit (e : event) (w : World) : extends w (snd (emit e w)).
Proof. repeat split. exists [e]. reflexivity. Qed.

Lemma extends_event (w w' : World) (e : event) :
  extends w w' -> In e (events w) -> In e (events w').
Proof.
  intros (_ & _ & _ & _ & _ & more & ->) H. apply in_or_app. left. exact H.
Qed.

Lemma in_keys_get {V} (k : string) (o : Obj.t V) :
  In k (Obj.keys o) -> exists v, Obj.get k o = Some v.
Proof.
  intros H. apply in_keys_has in H. unfold Obj.has in H.
  destruct (Obj.get k o) as [v|]; [exists v; reflexivity|discriminate].
Qed.

Lemma has_set_other {V} (k n : string) (v : V) (o : Obj.t V) :
  Obj.has k o = true -> Obj.has k (Obj.set n v o) = true.
Proof.
  intros H. apply in_keys_has. rewrite keys_set.
  assert (Hin : In k (Obj.keys o)).
  { unfold Obj.has in H. destruct (Obj.get k o) eqn:E; [|discriminate].
    eapply get_some_in_keys, E. }
  destruct (Obj.has n o); [exact Hin|apply in_or_app; left; exact Hin].
Qed.

Lemma insertConditions_run (subpath : string) (mapping : ConditionalExport)
      (names : list string) (se : ConditionalExport) (w : World) :
  exists se' w',
    insertConditions subpath mapping names se w = (Return se', w')
    /\ extends w w'
    /\ (forall k v, Obj.get k mapping = Some v ->
                    In k names \/ Obj.get k se = Some v -> Obj.get k se' = Some v)
    /\ (forall k, In k names -> Obj.has k se = true ->
                  In (LogWarn (conflictWarning subpath k)) (events w'))
    /\ (forall k, Obj.has k se = true -> Obj.has k se' = true).
Proof.
  revert se w. induction names as [|n names IH]; intros se w; simpl.
  - exists se, w. split; [reflexivity|]. split; [apply extends_refl|].
    split; [intros k v _ [[]|H]; exact H|]. split; [intros k []|intros k H; exact H].
  - set (se1 := match Obj.get n mapping with
                | Some target => Obj.set n target se
                | None => se
                end).
    set (w1 := if Obj.has n se then snd (emit (LogWarn (conflictWarning subpath n)) w) else w).
    assert (Hstep : forall (K : M ConditionalExport),
               ((if Obj.has n se then emit (LogWarn (conflictWarning subpath n)) else ret tt) ;; K) w
               = K w1).
    { intros K. unfold bind, w1. destruct (Obj.has n se); reflexivity. }
    rewrite Hstep.
    assert (Hext1 : extends w w1).
    { unfold w1. destruct (Obj.has n se); [apply extends_emit|apply extends_refl]. }
    assert (Hhas1 : forall k, Obj.has k se = true -> Obj.has k se1 = true).
    { intros k Hk. unfold se1. destruct (Obj.get n mapping); [|exact Hk].
      apply has_set_other, Hk. }
    destruct (IH se1 w1) as (se' & w' & Hrun & Hext & Hget & Hwarn & Hhas).
    exists se', w'. split; [exact Hrun|]. split; [eapply extends_trans; eassumption|].
    split; [|split].
    + intros k v Hk Hor. apply (Hget k v Hk).
      destruct (String.eqb_spec n k) as [->|Hne].
      * right. unfold se1. rewrite Hk. apply get_set_eq.
      * destruct Hor as [[Heq|Hin]|Hse]; [contradiction|left; exact Hin|].
        right. unfold se1. destruct (Obj.get n mapping); [|exact Hse].
        rewrite get_set_ne by exact Hne. exact Hse.
    + intros k [->|Hin] Hk.
      * apply (extends_event w1 w' _ Hext). unfold w1. rewrite Hk.
        simpl. apply in_or_app. right. left. reflexivity.
      * apply Hwarn; [exact Hin|apply Hhas1, Hk].
    + intros k Hk. apply Hhas, Hhas1, Hk.
Qed.

(** One insertion: the generated conditions are set under the subpath,
    with a warning for each that was there before; what else was under
    the subpath stays, and the other subpaths are untouched. *)
Lemma insertMappingOrError_run
      (subpath : string) (mapping : ConditionalExport) (current : PackageExports)
      (w : World) :
  exists result w',
    insertMappingOrError subpath mapping current w = (Return result, w')
    /\ extends w w'
    /\ (forall k v, Obj.get k mapping = Some v ->
                    Obj.get k (default [] (Obj.get subpath result)) = Some v)
    /\ (forall k, In k (Obj.keys mapping) ->
                  Obj.has k (default [] (Obj.get subpath current)) = true ->
                  In (LogWarn (conflictWarning subpath k)) (events w'))
    /\ (forall s k, Obj.has k (default [] (Obj.get s current)) = true ->
                    Obj.has k (default [] (Obj.get s result)) = true)
    /\ (forall s, s <> subpath -> Obj.get s result = Obj.get s current).
Proof.
  unfold insertMappingOrError.
  set (exports1 := match Obj.get subpath current with
                   | Some _ => current
                   | None => Obj.set subpath [] current
                   end).
  assert (Hse : default [] (Obj.get subpath exports1) = default [] (Obj.get subpath current)).
  { unfold exports1. destruct (Obj.get subpath current) eqn:E.
    - rewrite E. reflexivity.
    - rewrite get_set_eq. reflexivity. }
  assert (Hother : forall s, s <> subpath -> Obj.get s exports1 = Obj.get s current).
  { intros s Hs. unfold exports1. destruct (Obj.get subpath current); [reflexivity|].
    apply get_set_ne. congruence. }
  rewrite Hse.
  destruct (insertConditions_run subpath mapping (Obj.keys mapping)
              (default [] (Obj.get subpath current)) w)
    as (se' & w' & Hrun & Hext & Hget & Hwarn & Hhas).
  exists (Obj.set subpath se' exports1), w'.
  split; [unfold bind; rewrite Hrun; reflexivity|]. split; [exact Hext|].
  split; [|split; [|split]].
  - intros k v Hk. rewrite get_set_eq. simpl. apply (Hget k v Hk). left.
    eapply get_some_in_keys, Hk.
  - exact Hwarn.
  - intros s k Hk. destruct (String.eqb_spec s subpath) as [->|Hne].
    + rewrite get_set_eq. simpl. apply Hhas, Hk.
    + rewrite get_set_ne by congruence. rewrite Hother by exact Hne. exact Hk.
  - intros s Hs. rewrite get_set_ne by congruence. apply Hother, Hs.
Qed.

Lemma insertEntryPoints_run (cwd0 destinationPath0 : string)
      (entryPoints : list EntryPointNode) (current : PackageExports) (w : World) :
  exists result w',
    insertEntryPoints cwd0 destinationPath0 entryPoints current w = (Return result, w')
    /\ extends w w'
    /\ (forall pre node post,
          entryPoints = pre ++ node :: post ->
          (forall n, In n post ->
                     exportSubpath (entryPoint n) <> exportSubpath (entryPoint node)) ->
          forall k v, Obj.get k (generatedMapping cwd0 destinationPath0 node) = Some v ->
                      Obj.get k (default [] (Obj.get (exportSubpath (entryPoint node)) result))
                      = Some v)
    /\ (forall pre node post k,
          entryPoints = pre ++ node :: post ->
          In k (Obj.keys (generatedMapping cwd0 destinationPath0 node)) ->
          Obj.has k (default [] (Obj.get (exportSubpath (entryPoint node)) current)) = true
          \/ (exists n, In n pre
                        /\ exportSubpath (entryPoint n) = exportSubpath (entryPoint node)
                        /\ In k (Obj.keys (generatedMapping cwd0 destinationPath0 n))) ->
          In (LogWarn (conflictWarning (exportSubpath (entryPoint node)) k)) (events w'))
    /\ (forall s,
          (forall n, In n entryPoints -> exportSubpath (entryPoint n) <> s) ->
          Obj.get s result = Obj.get s current).
Proof.
  revert current w. induction entryPoints as [|node0 rest IH]; intros current w; simpl.
  - exists current, w. split; [reflexivity|]. split; [apply extends_refl|].
    split; [intros [|? ?] ? ? H; discriminate H|].
    split; [intros [|? ?] ? ? ? H; discriminate H|reflexivity].
  - destruct (insertMappingOrError_run (exportSubpath (entryPoint node0))
                (generatedMapping cwd0 destinationPath0 node0) current w)
      as (e1 & w1 & Hrun1 & Hext1 & Hget1 & Hwarn1 & Hhas1 & Hother1).
    destruct (IH e1 w1) as (result & w' & Hrun & Hext & Hlast & Hwarn & Hother).
    exists result, w'.
    split; [rewrite (bind_return _ _ w w1 e1 Hrun1); exact Hrun|].
    split; [eapply extends_trans; eassumption|].
    split; [|split].
    + intros pre node post Hsplit Hpost k v Hk.
      destruct pre as [|n0 pre]; simpl in Hsplit; injection Hsplit as <- ->.
      * rewrite Hother by exact Hpost. apply Hget1, Hk.
      * eapply Hlast; [reflexivity|exact Hpost|exact Hk].
    + intros pre node post k Hsplit Hk Hprior.
      destruct pre as [|n0 pre]; simpl in Hsplit; injection Hsplit as <- ->.
      * destruct Hprior as [Hhas|(n & [] & _)].
        eapply extends_event; [exact Hext|]. apply Hwarn1; assumption.
      * apply (Hwarn pre node post k eq_refl Hk).
        destruct Hprior as [Hhas|(n & [<-|Hin] & Hsame & Hkn)].
        -- left. apply Hhas1, Hhas.
        -- left.
           destruct (in_keys_get k (generatedMapping cwd0 destinationPath0 node0) Hkn)
             as (v & Hv).
           rewrite <- Hsame. unfold Obj.has. rewrite (Hget1 k v Hv). reflexivity.
        -- right. exists n. split; [exact Hin|]. split; assumption.
    + intros s Hs. rewrite Hother by (intros n Hn; apply Hs; right; exact Hn).
      apply Hother1. intros E. apply (Hs node0 (or_introl eq_refl)). congruence.
Qed.

(** C1, as the code has it. Export-map generation returns, changing
    nothing in the world but the log. The conditions generated for the
    last entry point with a given subpath are in the resulting map with
    their generated targets, whether or not the subpath had those
    conditions before. Whenever a generated condition was already under
    the subpath of an entry point, in the declared map or from an earlier
    entry point of the run, a warning naming that subpath and condition
    has been logged. *)
Theorem generated_conditions_overwrite (e : NgEntryPoint)
        (entryPoints : list EntryPointNode) (w : World) :
  exists result w',
    generatePackageExports e entryPoints w = (Return result, w')
    /\ extends w w'
    /\ (forall pre node post,
          entryPoints = pre ++ node :: post ->
          (forall n, In n post ->
                     exportSubpath (entryPoint n) <> exportSubpath (entryPoint node)) ->
          forall k v,
            Obj.get k (generatedMapping (cwd w) (destinationPath e) node) = Some v ->
            Obj.get k (default [] (Obj.get (exportSubpath (entryPoint node)) result))
            = Some v)
    /\ (forall pre node post k,
          entryPoints = pre ++ node :: post ->
          k = "types" \/ k = "default" ->
          Obj.has k (default [] (Obj.get (exportSubpath (entryPoint node))
                                         (default [] (exports (packageJson e))))) = true
          \/ (exists n, In n pre
                        /\ exportSubpath (entryPoint n) = exportSubpath (entryPoint node)) ->
          In (LogWarn (conflictWarning (exportSubpath (entryPoint node)) k)) (events w')).
Proof.
  unfold generatePackageExports.
  destruct (insertMappingOrError_run "./package.json" [("default", "./package.json")]
              (default [] (exports (packageJson e))) w)
    as (e1 & w1 & Hrun1 & Hext1 & _ & _ & Hhas1 & _).
  destruct (insertEntryPoints_run (cwd w) (destinationPath e) entryPoints e1 w1)
    as (result & w' & Hrun & Hext & Hlast & Hwarn & _).
  exists result, w'.
  split.
  { rewrite (bind_return _ _ w w w) by reflexivity.
    rewrite (bind_return _ _ w w1 e1 Hrun1). exact Hrun. }
  split; [eapply extends_trans; eassumption|]. split; [exact Hlast|].
  intros pre node post k Hsplit Hk Hprior.
  assert (Hkeys : forall n, In k (Obj.keys (generatedMapping (cwd w) (destinationPath e) n))).
  { intros n. destruct Hk as [-> | ->]; [left|right; left]; reflexivity. }
  apply (Hwarn pre node post k Hsplit (Hkeys node)).
  destruct Hprior as [Hhas|(n & Hin & Hsame)].
  - left. apply Hhas1, Hhas.
  - right. exists n. split; [exact Hin|]. split; [exact Hsame|apply Hkeys].
Qed.

End ExportProperties.

Lemma generated_conditions_overwrite_witness :
  exists result w',
    generatePackageExports Sample.declaringEntry [Sample.declaringNode]
      (Sample.world 0 Sample.disk) = (Return result, w')
    /\ Obj.get "default" (default [] (Obj.get "." result)) = Some "./fesm2022/lib.mjs"
    /\ In (LogWarn (conflictWarning "." "default")) (events w').
Proof.
  destruct (generated_conditions_overwrite Sample.declaringEntry [Sample.declaringNode]
              (Sample.world 0 Sample.disk))
    as (result & w' & Hrun & _ & Hlast & Hwarn).
  exists result, w'. split; [exact Hrun|]. split.
  - apply (Hlast [] Sample.declaringNode [] eq_refl); [intros n []|reflexivity].
  - apply (Hwarn [] Sample.declaringNode [] "default" eq_refl);
      [right; reflexivity|left; reflexivity].
Defined.

(** C1 as the specification words it fails: a condition declared by hand
    under ["."] is replaced by the generated one. *)
Lemma declared_condition_is_overwritten :
  ~ (forall (e : NgEntryPoint) (entryPoints : list EntryPointNode)
            (w w' : World) (result : PackageExports) (subpath k old : string),
        Obj.get k (default [] (Obj.get subpath (default [] (exports (packageJson e)))))
        = Some old ->
        generatePackageExports e entryPoints w = (Return result, w') ->
        Obj.get k (default [] (Obj.get subpath result)) = Some old).
Proof.
  intros stated.
  pose proof (stated Sample.declaringEntry [Sample.declaringNode]
                (Sample.world 0 Sample.disk) _ _ "." "default" "./custom.js"
                eq_refl eq_refl) as H.
  vm_compute in H. discriminate H.
Qed.

Example declared_condition_run :
  let run := generatePackageExports Sample.declaringEntry [Sample.declaringNode]
               (Sample.world 0 Sample.disk) in
  fst run = Return [(".", [("default", "./fesm2022/lib.mjs"); ("types", "./index.d.ts")]);
                    ("./package.json", [("default", "./package.json")])]
  /\ events (snd run) = [LogWarn (conflictWarning "." "default")].
Proof. vm_compute. split; reflexivity. Qed.

(** ** Manifest assembly, block by block *)

Section ManifestBlocks.

Context {host : Host}.

Lemma sameSections_refl (p : PackageJson) : sameSections p p.
Proof. repeat split. Qed.

Lemma sameSections_trans (p1 p2 p3 : PackageJson) :
  sameSections p1 p2 -> sameSections p2 p3 -> sameSections p1 p3.
Proof. unfold sameSections. intros (?&?&?&?) (?&?&?&?). repeat split; congruence. Qed.

Lemma generateWatchVersion_run (w : World) :
  generateWatchVersion w = (Return (watchVersionOf (clock w)), w).
Proof. reflexivity. Qed.

Lemma tslibBlock_run (p : PackageJson) (w : World) :
  exists p' w',
    tslibBlock p w = (Return p', w')
    /\ extends w w'
    /\ version p' = version p /\ scripts p' = scripts p
    /\ (dependencies p' = dependencies p
        \/ exists v, dependencies p' = Some (Obj.set "tslib" v (default [] (dependencies p))))
    /\ (Obj.optGet "tslib" (peerDependencies p) = None ->
        Obj.optGet "tslib" (dependencies p) = None ->
        forall v, compilerTslibVersion = Some v -> Str.nonEmpty v = true ->
                  Obj.optGet "tslib" (dependencies p') = Some v)
    /\ (forall v, Obj.optGet "tslib" (peerDependencies p) = Some v -> Str.nonEmpty v = true ->
                  Obj.optGet "tslib" (dependencies p') = Some v
                  /\ Obj.optGet "tslib" (peerDependencies p') = None
                  /\ In (SpinnerWarn tslibMovedWarning) (events w')).
Proof.
  unfold tslibBlock.
  destruct (Obj.optGet "tslib" (peerDependencies p)) as [pv|] eqn:Epeer; simpl.
  - destruct (Str.nonEmpty pv) eqn:Epv; simpl.
    + (* moved from the peer dependencies *)
      eexists _, _. split; [reflexivity|].
      split; [apply extends_emit|]. split; [reflexivity|]. split; [reflexivity|].
      split; [right; eexists; reflexivity|].
      split; [intros H; discriminate H|].
      intros v Hv _. injection Hv as <-. simpl.
      split; [apply get_set_eq|]. split; [apply get_del_eq|].
      apply in_or_app. right. left. reflexivity.
    + (* an empty peer version counts as undeclared *)
      destruct (truthy (Obj.optGet "tslib" (dependencies p))) eqn:Edep; simpl.
      * eexists _, _. split; [reflexivity|]. split; [apply extends_refl|].
        split; [reflexivity|]. split; [reflexivity|]. split; [left; reflexivity|].
        split; [intros H; discriminate H|].
        intros v Hv Hne. injection Hv as <-. congruence.
      * destruct compilerTslibVersion as [cv|] eqn:Ecv.
        -- destruct (Str.nonEmpty cv) eqn:Ecvne.
           ++ eexists _, _. split; [reflexivity|]. split; [apply extends_refl|].
              split; [reflexivity|]. split; [reflexivity|].
              split; [right; eexists; reflexivity|].
              split; [intros H; discriminate H|].
              intros v Hv Hne. injection Hv as <-. congruence.
           ++ eexists _, _. split; [reflexivity|]. split; [apply extends_refl|].
              split; [reflexivity|]. split; [reflexivity|]. split; [left; reflexivity|].
              split; [intros H; discriminate H|].
              intros v Hv Hne. injection Hv as <-. congruence.
        -- eexists _, _. split; [reflexivity|]. split; [apply extends_refl|].
           split; [reflexivity|]. split; [reflexivity|]. split; [left; reflexivity|].
           split; [intros H; discriminate H|].
           intros v Hv Hne. injection Hv as <-. congruence.
  - destruct (truthy (Obj.optGet "tslib" (dependencies p))) eqn:Edep; simpl.
    + eexists _, _. split; [reflexivity|]. split; [apply extends_refl|].
      split; [reflexivity|]. split; [reflexivity|]. split; [left; reflexivity|].
      split; [|intros v Hv; discriminate Hv].
      intros _ Hnone. rewrite Hnone in Edep. discriminate Edep.
    + destruct compilerTslibVersion as [cv|] eqn:Ecv.
      * destruct (Str.nonEmpty cv) eqn:Ecvne.
        -- eexists _, _. split; [reflexivity|]. split; [apply extends_refl|].
           split; [reflexivity|]. split; [reflexivity|].
           split; [right; eexists; reflexivity|].
           split; [|intros v Hv; discriminate Hv].
           intros _ _ v Hv _. injection Hv as <-. simpl. apply get_set_eq.
        -- eexists _, _. split; [reflexivity|]. split; [apply extends_refl|].
           split; [reflexivity|]. split; [reflexivity|]. split; [left; reflexivity|].
           split; [|intros v Hv; discriminate Hv].
           intros _ _ v Hv Hne. injection Hv as <-. congruence.
      * eexists _, _. split; [reflexivity|]. split; [apply extends_refl|].
        split; [reflexivity|]. split; [reflexivity|]. split; [left; reflexivity|].
        split; [|intros v Hv; discriminate Hv].
        intros _ _ v Hv. discriminate Hv.
Qed.

(** A list passes a test everywhere or splits at its first failure. *)
Lemma first_failure {A} (p : A -> bool) (l : list A) :
  (forall x, In x l -> p x = true)
  \/ exists pre d post, l = pre ++ d :: post /\ (forall c, In c pre -> p c = true) /\ p d = false.
Proof.
  induction l as [|h t IH]; [left; intros x []|].
  destruct (p h) eqn:Eh.
  - destruct IH as [Hall|(pre & d & post & -> & Hpre & Hd)].
    + left. intros x [<-|Hx]; [exact Eh|exact (Hall x Hx)].
    + right. exists (h :: pre), d, post. split; [reflexivity|]. split; [|exact Hd].
      intros c [<-|Hc]; [exact Eh|exact (Hpre c Hc)].
  - right. exists [], h, t. split; [reflexivity|]. split; [intros c []|exact Eh].
Qed.

Lemma checkDeps_pass (property : string) (allowed deps : list string) (w : World) :
  (forall d, In d deps -> isAllowed allowed d = true) ->
  exists w', checkDeps property allowed deps w = (Return tt, w') /\ extends w w'.
Proof.
  revert w. induction deps as [|d deps IH]; intros w Hall; simpl.
  - exists w. split; [reflexivity|apply extends_refl].
  - rewrite (Hall d (or_introl eq_refl)).
    destruct (IH (snd (emit (LogDebug ("Dependency " +:+ d +:+ " is allowed in '"
                                       +:+ property +:+ "'")) w)))
      as (w' & Hrun & Hext); [intros; apply Hall; right; assumption|].
    exists w'. split; [exact Hrun|].
    eapply extends_trans; [apply extends_emit|exact Hext].
Qed.

Lemma checkDeps_fail (property : string) (allowed pre : list string) (d : string)
      (post : list string) (w : World) :
  (forall c, In c pre -> isAllowed allowed c = true) ->
  isAllowed allowed d = false ->
  exists w', checkDeps property allowed (pre ++ d :: post) w = (Throw (notAllowedMessage d), w')
             /\ extends w w'
             /\ In (SpinnerWarn (notRecommendedWarning property d)) (events w').
Proof.
  revert w. induction pre as [|c pre IH]; intros w Hpre Hd; simpl.
  - rewrite Hd. eexists. split; [reflexivity|]. split; [apply extends_emit|].
    simpl. apply in_or_app. right. left. reflexivity.
  - rewrite (Hpre c (or_introl eq_refl)).
    destruct (IH (snd (emit (LogDebug ("Dependency " +:+ c +:+ " is allowed in '"
                                       +:+ property +:+ "'")) w)))
      as (w' & Hrun & Hext & Hin); [intros; apply Hpre; right; assumption|exact Hd|].
    exists w'. split; [exact Hrun|]. split; [|exact Hin].
    eapply extends_trans; [apply extends_emit|exact Hext].
Qed.

(** The gate either passes or stops at the first dependency, in key
    order, that no pattern of the allow-list matches. *)
Lemma checkNonPeerDependencies_run (p : PackageJson) (allowed : list string) (w : World) :
  (exists w', checkNonPeerDependencies p "dependencies" allowed w = (Return tt, w')
              /\ extends w w'
              /\ forall d, In d (Obj.keys (default [] (dependencies p))) ->
                           isAllowed allowed d = true)
  \/ (exists pre d post w',
         Obj.keys (default [] (dependencies p)) = pre ++ d :: post
         /\ (forall c, In c pre -> isAllowed allowed c = true)
         /\ isAllowed allowed d = false
         /\ checkNonPeerDependencies p "dependencies" allowed w = (Throw (notAllowedMessage d), w')
         /\ extends w w'
         /\ In (SpinnerWarn (notRecommendedWarning "dependencies" d)) (events w')).
Proof.
  unfold checkNonPeerDependencies.
  change (section p "dependencies") with (dependencies p).
  destruct (dependencies p) as [deps|]; simpl.
  - destruct (first_failure (isAllowed allowed) (Obj.keys deps))
      as [Hall|(pre & d & post & Hsplit & Hpre & Hd)].
    + left.
      destruct (checkDeps_pass "dependencies" allowed (Obj.keys deps) w Hall) as (w' & Hrun & Hext).
      exists w'. split; [exact Hrun|]. split; [exact Hext|exact Hall].
    + right. rewrite Hsplit.
      destruct (checkDeps_fail "dependencies" allowed pre d post w Hpre Hd)
        as (w' & Hrun & Hext & Hin).
      exists pre, d, post, w'. split; [reflexivity|]. split; [exact Hpre|].
      split; [exact Hd|]. split; [exact Hrun|]. split; [exact Hext|exact Hin].
  - left. exists w. split; [reflexivity|]. split; [apply extends_refl|intros d []].
Qed.

Lemma scriptsBlock_run (pkg : NgPackage) (p : PackageJson) (w : World) :
  exists p' w',
    scriptsBlock pkg p w = (Return p', w')
    /\ extends w w'
    /\ scripts p' = (if keepLifecycleScripts pkg then scripts p else None)
    /\ version p' = version p
    /\ dependencies p' = dependencies p /\ peerDependencies p' = peerDependencies p.
Proof.
  unfold scriptsBlock. destruct (scripts p) as [sc|] eqn:E.
  - destruct (keepLifecycleScripts pkg); simpl.
    + eexists _, _. split; [reflexivity|]. split; [apply extends_emit|].
      split; [exact E|]. repeat split.
    + eexists _, _. split; [reflexivity|]. split; [apply extends_emit|]. repeat split.
  - exists p, w. split; [reflexivity|]. split; [apply extends_refl|].
    split; [|repeat split]. rewrite E. destruct (keepLifecycleScripts pkg); reflexivity.
Qed.

Lemma stripProperties_run (props : list string) (p : PackageJson) (w : World) :
  exists p' w',
    stripProperties props p w = (Return p', w')
    /\ extends w w'
    /\ sameSections p p'.
Proof.
  revert p w. induction props as [|prop props IH]; intros p w; simpl.
  - exists p, w. split; [reflexivity|]. split; [apply extends_refl|apply sameSections_refl].
  - destruct (Obj.has prop (other p)).
    + destruct (IH (setOther (Obj.del prop (other p)) p)
                   (snd (emit (SpinnerInfo ("Removing " +:+ prop +:+ " section in package.json.")) w)))
        as (p' & w' & Hrun & Hext & Hsame).
      exists p', w'. split; [exact Hrun|].
      split; [eapply extends_trans; [apply extends_emit|exact Hext]|exact Hsame].
    + apply IH.
Qed.

(** The sources of the allow-list that are regular expressions compile
    to the list itself. *)
Lemma mapM_newRegExp_valid (values : list string) (w : World) :
  (forall value, In value values -> regexpSyntaxError value = None) ->
  mapM newRegExp values w = (Return values, w).
Proof.
  induction values as [|value rest IH]; intros Hvalid; [reflexivity|].
  simpl. unfold bind at 1. unfold newRegExp at 1.
  rewrite (Hvalid value (or_introl eq_refl)). unfold ret at 1.
  unfold bind at 1. rewrite IH; [reflexivity|].
  intros v Hv. apply Hvalid. right. exact Hv.
Qed.

(** The first source that is no regular expression stops the map with
    its SyntaxError. *)
Lemma mapM_newRegExp_invalid (pre : list string) (bad : string) (post : list string)
      (message : string) (w : World) :
  (forall value, In value pre -> regexpSyntaxError value = None) ->
  regexpSyntaxError bad = Some message ->
  mapM newRegExp (pre ++ bad :: post) w = (Throw message, w).
Proof.
  induction pre as [|value pre IH]; intros Hpre Hbad; simpl.
  - unfold bind, newRegExp. rewrite Hbad. reflexivity.
  - unfold bind at 1. unfold newRegExp at 1.
    rewrite (Hpre value (or_introl eq_refl)). unfold ret at 1.
    unfold bind at 1. rewrite IH; [reflexivity| |exact Hbad].
    intros v Hv. apply Hpre. right. exact Hv.
Qed.

(** Every source of a list is a regular expression, or the list splits
    at the first that is none. *)
Lemma first_invalid (values : list string) :
  (forall value, In value values -> regexpSyntaxError value = None)
  \/ exists pre bad post message,
      values = pre ++ bad :: post
      /\ (forall value, In value pre -> regexpSyntaxError value = None)
      /\ regexpSyntaxError bad = Some message.
Proof.
  destruct (first_failure (fun value => bool_decide (regexpSyntaxError value = None)) values)
    as [Hall|(pre & bad & post & Hsplit & Hpre & Hbad)].
  - left. intros value Hin. exact (bool_decide_eq_true_1 _ (Hall value Hin)).
  - right. apply bool_decide_eq_false_1 in Hbad.
    destruct (regexpSyntaxError bad) as [message|] eqn:E; [|congruence].
    exists pre, bad, post, message. split; [exact Hsplit|]. split; [|exact E].
    intros value Hin. exact (bool_decide_eq_true_1 _ (Hpre value Hin)).
Qed.

(** With an allow-list entry that is no regular expression
    [writePackageJson] stops before the gate, with the SyntaxError of the
    first such entry. *)
Lemma writePackageJson_invalid (e : NgEntryPoint) (pkg : NgPackage)
      (add : AdditionalProperties) (isWatchMode : bool) (mode : option CompilationMode)
      (w : World) (pre : list string) (bad : string) (post : list string) (message : string) :
  allowedNonPeerDependencies pkg = pre ++ bad :: post ->
  (forall value, In value pre -> regexpSyntaxError value = None) ->
  regexpSyntaxError bad = Some message ->
  exists p2 w2,
    beforeGate e add isWatchMode w = (Return p2, w2)
    /\ extends w w2
    /\ writePackageJson e pkg add isWatchMode mode w = (Throw message, w2).
Proof.
  intros Hsplit Hpre Hbad.
  unfold beforeGate, writePackageJson.
  set (p0 := mergeProperties (packageJson e) add).
  set (p1 := if isWatchMode then setVersion (Some (watchVersionOf (clock w))) p0 else p0).
  set (w1 := snd (emit (LogDebug "Writing package.json") w)).
  destruct (tslibBlock_run p1 w1) as (p2 & w2 & Hts & Hext2 & _).
  exists p2, w2. split; [exact Hts|].
  split; [eapply extends_trans; [apply extends_emit|exact Hext2]|].
  rewrite (bind_return _ _ w w1 tt) by reflexivity.
  rewrite (bind_return _ _ w1 w1 p1) by (unfold p1; destruct isWatchMode; reflexivity).
  rewrite (bind_return _ _ w1 w2 p2 Hts).
  apply bind_throw. rewrite Hsplit. apply mapM_newRegExp_invalid; assumption.
Qed.

(** With an allow-list of regular expressions [writePackageJson] either
    fails at the gate, after which the destination directory has been
    removed and nothing written, or writes the assembled manifest. *)
Lemma writePackageJson_run (e : NgEntryPoint) (pkg : NgPackage) (add : AdditionalProperties)
      (isWatchMode : bool) (mode : option CompilationMode) (w : World) :
  (forall value, In value (allowedNonPeerDependencies pkg) ->
                 regexpSyntaxError value = None) ->
  exists p2 w2,
    beforeGate e add isWatchMode w = (Return p2, w2)
    /\ extends w w2
    /\ ((exists pre d post w3,
            Obj.keys (default [] (dependencies p2)) = pre ++ d :: post
            /\ (forall c, In c pre -> isAllowed (allowedNonPeerDependencies pkg) c = true)
            /\ isAllowed (allowedNonPeerDependencies pkg) d = false
            /\ extends w2 w3
            /\ In (SpinnerWarn (notRecommendedWarning "dependencies" d)) (events w3)
            /\ writePackageJson e pkg add isWatchMode mode w
               = (Throw (notAllowedMessage d), rolledBack e w3))
        \/ (exists m w3,
              (forall d, In d (Obj.keys (default [] (dependencies p2))) ->
                         isAllowed (allowedNonPeerDependencies pkg) d = true)
              /\ extends w2 w3
              /\ writePackageJson e pkg add isWatchMode mode w
                 = (Return tt, setFs (<[Fs.key w3 (manifestPath e) := File (Json m)]> (fs w3))
                                     (OpWriteFile (manifestPath e) (Json m)) w3)
              /\ name m = Some (moduleId e)
              /\ version m = version p2
              /\ dependencies m = dependencies p2
              /\ peerDependencies m = peerDependencies p2
              /\ scripts m =
                 scripts (guardBlock mode
                            (setScripts (if keepLifecycleScripts pkg then scripts p2 else None) p2)))).
Proof.
  intros Hvalid.
  unfold beforeGate, writePackageJson.
  set (p0 := mergeProperties (packageJson e) add).
  set (p1 := if isWatchMode then setVersion (Some (watchVersionOf (clock w))) p0 else p0).
  set (w1 := snd (emit (LogDebug "Writing package.json") w)).
  destruct (tslibBlock_run p1 w1) as (p2 & w2 & Hts & Hext2 & _).
  exists p2, w2. split; [exact Hts|].
  split; [eapply extends_trans; [apply extends_emit|exact Hext2]|].
  assert (Hhead : forall K : PackageJson -> list string -> M unit,
             (emit (LogDebug "Writing package.json") ;;
              let* packageJson0 :=
                (if isWatchMode
                 then let* v := generateWatchVersion in ret (setVersion (Some v) p0)
                 else ret p0) in
              let* packageJson1 := tslibBlock packageJson0 in
              let* allowedList := mapM newRegExp (allowedNonPeerDependencies pkg) in
              K packageJson1 allowedList) w
             = K p2 (allowedNonPeerDependencies pkg) w2).
  { intros K. rewrite (bind_return _ _ w w1 tt) by reflexivity.
    rewrite (bind_return _ _ w1 w1 p1) by (unfold p1; destruct isWatchMode; reflexivity).
    rewrite (bind_return _ _ w1 w2 p2 Hts).
    rewrite (bind_return _ _ w2 w2 (allowedNonPeerDependencies pkg))
      by (apply mapM_newRegExp_valid; exact Hvalid).
    reflexivity. }
  rewrite Hhead. clear Hhead.
  destruct (checkNonPeerDependencies_run p2 (allowedNonPeerDependencies pkg) w2)
    as [(w3 & Hrun & Hext3 & Hall)|(pre & d & post & w3 & Hsplit & Hpre & Hd & Hrun & Hext3 & Hin)].
  - right.
    destruct (scriptsBlock_run pkg p2 w3) as (p3 & w4 & Hsc & Hext4 & Hs3 & Hv3 & Hd3 & Hp3).
    destruct (stripProperties_run packageJsonPropertiesToDelete
                (setNgPackage None (guardBlock mode p3)) w4)
      as (p4 & w5 & Hst & Hext5 & (Hv4 & Hs4 & Hd4 & Hp4)).
    exists (setName (Some (moduleId e)) p4), w5.
    split; [exact Hall|].
    split; [eapply extends_trans; [exact Hext3|eapply extends_trans; eassumption]|].
    split.
    { rewrite (bind_return _ _ w2 w3 tt) by (apply tryCatch_return; exact Hrun).
      rewrite (bind_return _ _ w3 w4 p3 Hsc).
      rewrite (bind_return _ _ w4 w5 p4 Hst). reflexivity. }
    split; [reflexivity|]. simpl.
    rewrite Hv4, Hs4, Hd4, Hp4.
    assert (Hg : forall q q' : PackageJson,
               scripts q = scripts q' ->
               scripts (guardBlock mode q) = scripts (guardBlock mode q')).
    { intros q q' Hq. destruct mode as [[|]|]; simpl; congruence. }
    repeat split.
    + destruct mode as [[|]|]; simpl; congruence.
    + destruct mode as [[|]|]; simpl; congruence.
    + destruct mode as [[|]|]; simpl; congruence.
    + simpl. apply Hg. rewrite Hs3. reflexivity.
  - left. exists pre, d, post, w3.
    split; [exact Hsplit|]. split; [exact Hpre|]. split; [exact Hd|].
    split; [exact Hext3|]. split; [exact Hin|].
    rewrite (bind_throw _ _ w2 (rolledBack e w3) (notAllowedMessage d)); [reflexivity|].
    rewrite (tryCatch_throw _ _ w2 w3 _ Hrun). reflexivity.
Qed.

(** A write that returns had an allow-list of regular expressions. *)
Lemma writePackageJson_compiled (e : NgEntryPoint) (pkg : NgPackage)
      (add : AdditionalProperties) (isWatchMode : bool) (mode : option CompilationMode)
      (w : World) :
  fst (writePackageJson e pkg add isWatchMode mode w) = Return tt ->
  forall value, In value (allowedNonPeerDependencies pkg) -> regexpSyntaxError value = None.
Proof.
  intros Hret.
  destruct (first_invalid (allowedNonPeerDependencies pkg))
    as [Hvalid|(pre & bad & post & message & Hsplit & Hpre & Hbad)]; [exact Hvalid|].
  destruct (writePackageJson_invalid e pkg add isWatchMode mode w pre bad post message
              Hsplit Hpre Hbad) as (p2 & w2 & _ & _ & Hrun).
  rewrite Hrun in Hret. discriminate Hret.
Qed.

End ManifestBlocks.

(** ** The dependency gate *)

Section GateTheorem.

Context {host : Host}.

Lemma rmdir_removes (p : string) (w : World) (k : list string) :
  Fs.key w p `prefix_of` k -> fs (snd (Fs.rmdir p w)) !! k = None.
Proof.
  intros Hpre. simpl. apply map_lookup_filter_None. right.
  intros x _. simpl. unfold Fs.below.
  rewrite bool_decide_eq_true_2 by exact Hpre. discriminate.
Qed.

(** The manifest of an entry point lies in its destination directory. *)
Lemma manifest_below_destination (w : World) (e : NgEntryPoint) :
  Fs.key w (destinationPath e) `prefix_of` Fs.key w (manifestPath e).
Proof.
  unfold Fs.key, manifestPath. rewrite resolveSegs_join_name.
  - apply prefix_app_r. reflexivity.
  - repeat split; discriminate.
  - simpl. tauto.
Qed.

(** The dependencies the gate sees begin with the declared ones, in their
    order; the [tslib] block at most appends [tslib]. *)
Lemma beforeGate_keys (e : NgEntryPoint) (add : AdditionalProperties) (isWatchMode : bool)
      (w w2 : World) (p2 : PackageJson) :
  beforeGate e add isWatchMode w = (Return p2, w2) ->
  exists extra,
    Obj.keys (default [] (dependencies p2))
    = Obj.keys (default [] (dependencies (packageJson e))) ++ extra
    /\ (extra = [] \/ extra = ["tslib"]).
Proof.
  unfold beforeGate. intros H.
  set (p1 := if isWatchMode
             then setVersion (Some (watchVersionOf (clock w)))
                             (mergeProperties (packageJson e) add)
             else mergeProperties (packageJson e) add) in H.
  assert (Hd1 : dependencies p1 = dependencies (packageJson e)).
  { unfold p1. destruct isWatchMode; reflexivity. }
  destruct (tslibBlock_run p1 (snd (emit (LogDebug "Writing package.json") w)))
    as (p' & w' & Hrun & _ & _ & _ & Hdeps & _).
  rewrite Hrun in H. injection H as <- <-.
  destruct Hdeps as [->|(v & ->)].
  - exists []. rewrite Hd1, app_nil_r. split; [reflexivity|left; reflexivity].
  - simpl. rewrite keys_set, Hd1.
    destruct (Obj.has "tslib" (default [] (dependencies (packageJson e)))).
    + exists []. rewrite app_nil_r. split; [reflexivity|left; reflexivity].
    + exists ["tslib"]. split; [reflexivity|right; reflexivity].
Qed.

(** If [l ++ extra] splits at its first failure and [l] has a failing
    element, the split point lies in [l]. *)
Lemma first_failure_in_prefix {A} (p : A -> bool) (l extra pre post : list A) (d x : A) :
  l ++ extra = pre ++ d :: post ->
  (forall c, In c pre -> p c = true) -> p d = false ->
  In x l -> p x = false ->
  exists post', l = pre ++ d :: post'.
Proof.
  revert pre. induction l as [|h t IH]; intros pre Heq Hpre Hd Hin Hx; [destruct Hin|].
  destruct pre as [|c pre]; simpl in Heq.
  - injection Heq as -> _. exists t. reflexivity.
  - injection Heq as -> Heq.
    destruct Hin as [->|Hin].
    + rewrite (Hpre x (or_introl eq_refl)) in Hx. discriminate.
    + destruct (IH pre Heq (fun c' Hc' => Hpre c' (or_intror Hc')) Hd Hin Hx) as (post' & ->).
      exists post'. reflexivity.
Qed.

(** C3. When the allow-list is one of regular expressions and a declared
    dependency matches none of them, [writePackageJson] throws the error
    [Dependency <d> must be explicitly allowed using the
    "allowedNonPeerDependencies" option.] that names the first such
    dependency in key order (that very dependency when it is the only
    one), after warning about it. By then it has removed the
    destination directory of the entry point: no path at or below it is
    left on disk, the removal is the only disk operation performed, and
    so no manifest has been written and none is on disk. Paths outside
    the destination directory are untouched. *)
Theorem dependency_gate_rolls_back
        (e : NgEntryPoint) (pkg : NgPackage) (add : AdditionalProperties)
        (isWatchMode : bool) (mode : option CompilationMode) (w : World) (dep : string) :
  (forall value, In value (allowedNonPeerDependencies pkg) ->
                 regexpSyntaxError value = None) ->
  In dep (Obj.keys (default [] (dependencies (packageJson e)))) ->
  isAllowed (allowedNonPeerDependencies pkg) dep = false ->
  exists (pre : list string) (d : string) (post : list string) (w' : World),
    writePackageJson e pkg add isWatchMode mode w
    = (Throw ("Dependency " +:+ d +:+ " must be explicitly allowed using the "
              +:+ String (ascii_of_nat 34) "allowedNonPeerDependencies"
              +:+ String (ascii_of_nat 34) " option."), w')
    /\ Obj.keys (default [] (dependencies (packageJson e))) = pre ++ d :: post
    /\ (forall c, In c pre -> isAllowed (allowedNonPeerDependencies pkg) c = true)
    /\ isAllowed (allowedNonPeerDependencies pkg) d = false
    /\ ((forall c, In c (Obj.keys (default [] (dependencies (packageJson e)))) ->
                   isAllowed (allowedNonPeerDependencies pkg) c = false -> c = dep) ->
        d = dep)
    /\ In (SpinnerWarn (notRecommendedWarning "dependencies" d)) (events w')
    /\ fsops w' = fsops w ++ [OpRmdir (destinationPath e)]
    /\ (forall k, Fs.key w (destinationPath e) `prefix_of` k -> fs w' !! k = None)
    /\ fs w' !! Fs.key w (manifestPath e) = None
    /\ (forall k, ~ Fs.key w (destinationPath e) `prefix_of` k -> fs w' !! k = fs w !! k).
Proof.
  intros Hvalid Hin Hno.
  destruct (writePackageJson_run e pkg add isWatchMode mode w Hvalid)
    as (p2 & w2 & Hbefore & Hext2 & [Hfail|Hok]).
  - destruct Hfail as (pre & d & post & w3 & Hsplit & Hpre & Hd & Hext3 & Hwarn & Hrun).
    destruct (beforeGate_keys e add isWatchMode w w2 p2 Hbefore) as (extra & Hkeys & _).
    rewrite Hkeys in Hsplit.
    destruct (first_failure_in_prefix _ _ _ _ _ _ _ Hsplit Hpre Hd Hin Hno) as (post' & Hdecl).
    pose proof (extends_trans _ _ _ Hext2 Hext3) as (Hcwd & _ & Hfs & Hops & _).
    exists pre, d, post', (rolledBack e w3).
    split; [exact Hrun|]. split; [exact Hdecl|]. split; [exact Hpre|]. split; [exact Hd|].
    split.
    { intros Honly. apply Honly; [|exact Hd].
      rewrite Hdecl. apply in_or_app. right. left. reflexivity. }
    assert (Hgone : forall k, Fs.key w (destinationPath e) `prefix_of` k ->
                              fs (rolledBack e w3) !! k = None).
    { intros k Hk. apply rmdir_removes. unfold Fs.key in *. rewrite Hcwd. exact Hk. }
    split; [exact Hwarn|]. split; [simpl; rewrite Hops; reflexivity|].
    split; [exact Hgone|]. split; [apply Hgone, manifest_below_destination|].
    + intros k Hk. simpl. rewrite <- Hfs.
      destruct (fs w3 !! k) as [x|] eqn:E.
      * apply map_lookup_filter_Some. split; [exact E|]. simpl.
        unfold Fs.below, Fs.key. rewrite Hcwd. apply bool_decide_eq_false_2. exact Hk.
      * apply map_lookup_filter_None. left. exact E.
  - exfalso. destruct Hok as (m & w3 & Hall & _).
    destruct (beforeGate_keys e add isWatchMode w w2 p2 Hbefore) as (extra & Hkeys & _).
    rewrite Hkeys in Hall.
    rewrite (Hall dep) in Hno; [discriminate|]. apply in_or_app. left. exact Hin.
Qed.

(** The write returns when the allow-list is one of regular expressions
    that match every declared dependency and [tslib]. *)
Lemma writePackageJson_returns
      (e : NgEntryPoint) (pkg : NgPackage) (add : AdditionalProperties)
      (isWatchMode : bool) (mode : option CompilationMode) (w : World) :
  (forall value, In value (allowedNonPeerDependencies pkg) ->
                 regexpSyntaxError value = None) ->
  (forall d, In d (Obj.keys (default [] (dependencies (packageJson e)))) ->
             isAllowed (allowedNonPeerDependencies pkg) d = true) ->
  isAllowed (allowedNonPeerDependencies pkg) "tslib" = true ->
  fst (writePackageJson e pkg add isWatchMode mode w) = Return tt.
Proof.
  intros Hvalid Hall Htslib.
  destruct (writePackageJson_run e pkg add isWatchMode mode w Hvalid)
    as (p2 & w2 & Hbefore & _ & [Hfail|Hok]).
  - exfalso. destruct Hfail as (pre & d & post & w3 & Hsplit & _ & Hd & _).
    destruct (beforeGate_keys e add isWatchMode w w2 p2 Hbefore) as (extra & Hkeys & Hextra).
    assert (Hin : In d (Obj.keys (default [] (dependencies (packageJson e))) ++ extra)).
    { rewrite <- Hkeys, Hsplit. apply in_or_app. right. left. reflexivity. }
    apply in_app_or in Hin as [Hin|Hin].
    + rewrite (Hall d Hin) in Hd. discriminate.
    + destruct Hextra as [-> | ->]; [destruct Hin|].
      destruct Hin as [<-|[]]. rewrite Htslib in Hd. discriminate.
  - destruct Hok as (m & w3 & _ & _ & Hrun & _). rewrite Hrun. reflexivity.
Qed.

End GateTheorem.

(** ** What a successful write leaves in the manifest *)

Section WrittenManifest.

Context {host : Host}.

Lemma beforeGate_sections (e : NgEntryPoint) (add : AdditionalProperties) (isWatchMode : bool)
      (w w2 : World) (p2 : PackageJson) :
  beforeGate e add isWatchMode w = (Return p2, w2) ->
  scripts p2 = scripts (packageJson e)
  /\ version p2 = (if isWatchMode then Some (watchVersionOf (clock w))
                   else version (packageJson e))
  /\ (Obj.optGet "tslib" (peerDependencies (packageJson e)) = None ->
      Obj.optGet "tslib" (dependencies (packageJson e)) = None ->
      forall v, compilerTslibVersion = Some v -> Str.nonEmpty v = true ->
                Obj.optGet "tslib" (dependencies p2) = Some v)
  /\ (forall v, Obj.optGet "tslib" (peerDependencies (packageJson e)) = Some v ->
                Str.nonEmpty v = true ->
                Obj.optGet "tslib" (dependencies p2) = Some v
                /\ Obj.optGet "tslib" (peerDependencies p2) = None
                /\ In (SpinnerWarn tslibMovedWarning) (events w2)).
Proof.
  unfold beforeGate. intros H.
  set (p1 := if isWatchMode
             then setVersion (Some (watchVersionOf (clock w)))
                             (mergeProperties (packageJson e) add)
             else mergeProperties (packageJson e) add) in H.
  assert (H1 : scripts p1 = scripts (packageJson e)
               /\ dependencies p1 = dependencies (packageJson e)
               /\ peerDependencies p1 = peerDependencies (packageJson e)
               /\ version p1 = (if isWatchMode then Some (watchVersionOf (clock w))
                                else version (packageJson e))).
  { unfold p1. destruct isWatchMode; repeat split. }
  destruct H1 as (Hs1 & Hd1 & Hp1 & Hv1).
  destruct (tslibBlock_run p1 (snd (emit (LogDebug "Writing package.json") w)))
    as (p' & w' & Hrun & _ & Hv & Hs & _ & Hinject & Hmove).
  rewrite Hrun in H. injection H as <- <-.
  rewrite Hs, Hv, Hs1, Hv1. rewrite Hd1, Hp1 in *.
  split; [reflexivity|]. split; [reflexivity|]. split; assumption.
Qed.

(** The outcome of a write that returns: the manifest on disk. *)
Lemma written_manifest (e : NgEntryPoint) (pkg : NgPackage) (add : AdditionalProperties)
      (isWatchMode : bool) (mode : option CompilationMode) (w : World) :
  fst (writePackageJson e pkg add isWatchMode mode w) = Return tt ->
  exists m p2 w2,
    beforeGate e add isWatchMode w = (Return p2, w2)
    /\ fs (snd (writePackageJson e pkg add isWatchMode mode w)) !! Fs.key w (manifestPath e)
       = Some (File (Json m))
    /\ fsops (snd (writePackageJson e pkg add isWatchMode mode w))
       = fsops w ++ [OpWriteFile (manifestPath e) (Json m)]
    /\ (forall ev, In ev (events w2) ->
                   In ev (events (snd (writePackageJson e pkg add isWatchMode mode w))))
    /\ name m = Some (moduleId e)
    /\ version m = version p2
    /\ dependencies m = dependencies p2
    /\ peerDependencies m = peerDependencies p2
    /\ scripts m =
       scripts (guardBlock mode
                  (setScripts (if keepLifecycleScripts pkg then scripts p2 else None) p2)).
Proof.
  intros Hret.
  destruct (writePackageJson_run e pkg add isWatchMode mode w
              (writePackageJson_compiled e pkg add isWatchMode mode w Hret))
    as (p2 & w2 & Hbefore & Hext2 & [Hfail|Hok]).
  - destruct Hfail as (pre & d & post & w3 & _ & _ & _ & _ & _ & Hrun).
    rewrite Hrun in Hret. discriminate Hret.
  - destruct Hok as (m & w3 & _ & Hext3 & Hrun & Hn & Hv & Hd & Hp & Hs).
    pose proof (extends_trans _ _ _ Hext2 Hext3) as (Hcwd & _ & Hfs & Hops & _).
    exists m, p2, w2. rewrite Hrun. simpl.
    split; [exact Hbefore|]. split.
    { unfold Fs.key. rewrite Hcwd. apply lookup_insert_eq. }
    split; [rewrite Hops; reflexivity|].
    split; [intros ev Hev; apply (extends_event w2 w3 ev Hext3 Hev)|].
    repeat split; assumption.
Qed.

(** C6. When [writePackageJson] returns, the manifest it has written has
    the failing [prepublishOnly] guard whenever the compilation mode is
    not partial. The guard is the shell command that has [node] print,
    with [console.error], that the package was compiled in full
    compilation mode and is to be deleted and rebuilt with partial
    compilation mode before publishing, followed by [&& exit 1]: the
    script ends with a status other than zero whether or not [node] ran.
    In partial mode [writePackageJson] injects nothing: the scripts of
    the written manifest are the declared ones when lifecycle scripts are
    kept and are absent otherwise, so the manifest has a guard only if
    the declared one had it. *)
Theorem prepublishOnly_guard
        (e : NgEntryPoint) (pkg : NgPackage) (add : AdditionalProperties)
        (isWatchMode : bool) (mode : option CompilationMode) (w : World) :
  let message :=
    "ERROR: Trying to publish a package that has been compiled in full compilation mode. This is not allowed."
    +:+ String (ascii_of_nat 92) "n"
    +:+ "Please delete and rebuild the package with partial compilation mode, before attempting to publish."
    +:+ String (ascii_of_nat 92) "n" in
  let command :=
    "node --eval " +:+ String (ascii_of_nat 34) "console.error('" +:+ message
    +:+ "')" +:+ String (ascii_of_nat 34) EmptyString in
  let guard := command +:+ " && exit 1" in
  fst (writePackageJson e pkg add isWatchMode mode w) = Return tt ->
  exists m,
    fs (snd (writePackageJson e pkg add isWatchMode mode w)) !! Fs.key w (manifestPath e)
    = Some (File (Json m))
    /\ (mode <> Some Partial ->
        Obj.optGet "prepublishOnly" (scripts m) = Some guard)
    /\ (mode = Some Partial ->
        scripts m = (if keepLifecycleScripts pkg then scripts (packageJson e) else None)
        /\ (Obj.optGet "prepublishOnly" (scripts (packageJson e)) <> Some guard ->
            Obj.optGet "prepublishOnly" (scripts m) <> Some guard)).
Proof.
  intros message command guard Hret.
  change guard with prepublishOnlyGuard. clear message command guard.
  destruct (written_manifest e pkg add isWatchMode mode w Hret)
    as (m & p2 & w2 & Hbefore & Hfile & _ & _ & _ & _ & _ & _ & Hs).
  destruct (beforeGate_sections e add isWatchMode w w2 p2 Hbefore) as (Hs2 & _).
  exists m. split; [exact Hfile|]. rewrite Hs, Hs2. split.
  - intros Hmode. destruct mode as [[|]|]; [congruence| |]; simpl; apply get_set_eq.
  - intros ->. simpl. split; [reflexivity|].
    destruct (keepLifecycleScripts pkg); [tauto|]. simpl. discriminate.
Qed.

(** C10. With lifecycle scripts kept and a compilation mode other than
    partial, a declared [prepublishOnly] script does not survive: the
    written manifest has the guard in its place, and every other declared
    script unchanged. *)
Theorem guard_replaces_declared_script
        (e : NgEntryPoint) (pkg : NgPackage) (add : AdditionalProperties)
        (isWatchMode : bool) (mode : option CompilationMode) (w : World) (declared : string) :
  mode <> Some Partial ->
  keepLifecycleScripts pkg = true ->
  Obj.optGet "prepublishOnly" (scripts (packageJson e)) = Some declared ->
  fst (writePackageJson e pkg add isWatchMode mode w) = Return tt ->
  exists m,
    fs (snd (writePackageJson e pkg add isWatchMode mode w)) !! Fs.key w (manifestPath e)
    = Some (File (Json m))
    /\ Obj.optGet "prepublishOnly" (scripts m) = Some prepublishOnlyGuard
    /\ forall k, k <> "prepublishOnly" ->
                 Obj.optGet k (scripts m) = Obj.optGet k (scripts (packageJson e)).
Proof.
  intros Hmode Hkeep Hdecl Hret.
  destruct (written_manifest e pkg add isWatchMode mode w Hret)
    as (m & p2 & w2 & Hbefore & Hfile & _ & _ & _ & _ & _ & _ & Hs).
  destruct (beforeGate_sections e add isWatchMode w w2 p2 Hbefore) as (Hs2 & _).
  exists m. split; [exact Hfile|]. rewrite Hs, Hs2, Hkeep.
  destruct (scripts (packageJson e)) as [sc|]; [|discriminate Hdecl].
  destruct mode as [[|]|]; [congruence| |]; simpl.
  - split; [apply get_set_eq|]. intros k Hk. apply get_set_ne. congruence.
  - split; [apply get_set_eq|]. intros k Hk. apply get_set_ne. congruence.
Qed.

Lemma compilerTslibVersion_peer (v : string) :
  Obj.optGet "tslib" (angularPeerDependencies compilerPackageJson) = Some v ->
  Str.nonEmpty v = true ->
  compilerTslibVersion = Some v.
Proof.
  intros Hv Hne. unfold compilerTslibVersion, orElse.
  destruct (angularPeerDependencies compilerPackageJson) as [peer|]; [|discriminate Hv].
  simpl in *. rewrite Hv. simpl. rewrite Hne. reflexivity.
Qed.

Lemma compilerTslibVersion_dependency (v : string) :
  (forall pv, Obj.optGet "tslib" (angularPeerDependencies compilerPackageJson) = Some pv ->
              pv = EmptyString) ->
  Obj.optGet "tslib" (angularDependencies compilerPackageJson) = Some v ->
  compilerTslibVersion = Some v.
Proof.
  intros Hpeer Hv. unfold compilerTslibVersion, orElse.
  assert (Hfalsy : truthy (Obj.get "tslib"
                             (default [] (angularPeerDependencies compilerPackageJson)))
                   = false).
  { destruct (angularPeerDependencies compilerPackageJson) as [peer|]; [|reflexivity].
    simpl in *. destruct (Obj.get "tslib" peer) as [pv|]; [|reflexivity].
    rewrite (Hpeer pv eq_refl). reflexivity. }
  rewrite Hfalsy.
  destruct (angularDependencies compilerPackageJson) as [deps|]; [|discriminate Hv].
  exact Hv.
Qed.

(** C8. When [writePackageJson] returns, the written manifest has [tslib]
    among its dependencies. When the declared manifest has [tslib]
    neither as dependency nor as peer dependency, the version is that of
    the manifest of [@angular/compiler]: its [peerDependencies.tslib]
    when it declares one, and its [dependencies.tslib] when it declares
    none as peer dependency. When [tslib] is declared as peer dependency,
    the version is the declared peer version, [tslib] is gone from the
    peer dependencies and the migration warning has been issued. To
    declare a version is, for the code, to give a non-empty one. *)
Theorem tslib_becomes_dependency
        (e : NgEntryPoint) (pkg : NgPackage) (add : AdditionalProperties)
        (isWatchMode : bool) (mode : option CompilationMode) (w : World) :
  fst (writePackageJson e pkg add isWatchMode mode w) = Return tt ->
  exists m,
    fs (snd (writePackageJson e pkg add isWatchMode mode w)) !! Fs.key w (manifestPath e)
    = Some (File (Json m))
    /\ (Obj.optGet "tslib" (peerDependencies (packageJson e)) = None ->
        Obj.optGet "tslib" (dependencies (packageJson e)) = None ->
        (forall v, Obj.optGet "tslib" (angularPeerDependencies compilerPackageJson) = Some v ->
                   Str.nonEmpty v = true ->
                   Obj.optGet "tslib" (dependencies m) = Some v)
        /\ (forall v,
               (forall pv, Obj.optGet "tslib" (angularPeerDependencies compilerPackageJson)
                           = Some pv -> pv = EmptyString) ->
               Obj.optGet "tslib" (angularDependencies compilerPackageJson) = Some v ->
               Str.nonEmpty v = true ->
               Obj.optGet "tslib" (dependencies m) = Some v))
    /\ (forall v, Obj.optGet "tslib" (peerDependencies (packageJson e)) = Some v ->
                  Str.nonEmpty v = true ->
                  Obj.optGet "tslib" (dependencies m) = Some v
                  /\ Obj.optGet "tslib" (peerDependencies m) = None
                  /\ In (SpinnerWarn tslibMovedWarning)
                        (events (snd (writePackageJson e pkg add isWatchMode mode w)))).
Proof.
  intros Hret.
  destruct (written_manifest e pkg add isWatchMode mode w Hret)
    as (m & p2 & w2 & Hbefore & Hfile & _ & Hev & _ & _ & Hd & Hp & _).
  destruct (beforeGate_sections e add isWatchMode w w2 p2 Hbefore)
    as (_ & _ & Hinject & Hmove).
  exists m. split; [exact Hfile|]. rewrite Hd, Hp. split.
  { intros Hpeer Hdep. split.
    - intros v Hv Hne.
      exact (Hinject Hpeer Hdep v (compilerTslibVersion_peer v Hv Hne) Hne).
    - intros v Hnone Hv Hne.
      exact (Hinject Hpeer Hdep v (compilerTslibVersion_dependency v Hnone Hv) Hne). }
  intros v Hv Hne. destruct (Hmove v Hv Hne) as (H1 & H2 & H3).
  split; [exact H1|]. split; [exact H2|]. apply Hev, H3.
Qed.

End WrittenManifest.

(** ** Secondary entry points *)

Section SecondaryEntryPoints.

Context {host : Host}.

(** C4, as the code has it. For a secondary entry point the transform
    always writes the [{module}] stub as that entry point's manifest, in
    watch mode too, and never a full manifest. Outside watch mode the
    stub is the only write. In watch mode, when the primary manifest is
    on disk, it is first rewritten with its version replaced by the
    pseudo-version of the current time; when nothing is on disk at the
    primary manifest's path, the stub is again the only write. *)
Theorem secondary_entry_point_writes
        (options : NgPackagrOptions) (entryPoints : list EntryPointNode)
        (ngPackage : NgPackage) (w : World) (node : EntryPointNode) :
  List.find inProgress entryPoints = Some node ->
  isSecondaryEntryPoint (entryPoint node) = true ->
  let run := writePackageTransform options entryPoints ngPackage w in
  let stubPath := manifestPath (entryPoint node) in
  let primaryPath := manifestPath (primary ngPackage) in
  (watch options = false ->
   fst run = Return tt
   /\ fsops (snd run) = fsops w ++ [OpWriteFile stubPath (stubOf w node)]
   /\ fs (snd run) !! Fs.key w stubPath = Some (File (stubOf w node)))
  /\ (watch options = true ->
      forall m, fs w !! Fs.key w primaryPath = Some (File (Json m)) ->
      fst run = Return tt
      /\ fsops (snd run)
         = fsops w ++ [OpWriteFile primaryPath
                                   (Json (setVersion (Some (watchVersionOf (clock w))) m));
                       OpWriteFile stubPath (stubOf w node)]
      /\ fs (snd run) !! Fs.key w stubPath = Some (File (stubOf w node)))
  /\ (watch options = true ->
      fs w !! Fs.key w primaryPath = None ->
      fst run = Return tt
      /\ fsops (snd run) = fsops w ++ [OpWriteFile stubPath (stubOf w node)]
      /\ fs (snd run) !! Fs.key w stubPath = Some (File (stubOf w node))).
Proof.
  intros Hfind Hsec run stubPath primaryPath.
  unfold run, stubPath, primaryPath, manifestPath, stubOf, writePackageTransform.
  rewrite Hfind, Hsec. simpl.
  split; [|split].
  - intros ->. simpl. split; [reflexivity|]. split; [reflexivity|].
    apply lookup_insert_eq.
  - intros -> m Hm. unfold bind, ret, getWorld, Fs.exists_, Fs.readFile. simpl.
    rewrite Hm. simpl. rewrite Hm. simpl.
    split; [reflexivity|]. split; [rewrite <- app_assoc; reflexivity|].
    apply lookup_insert_eq.
  - intros -> Hnone. unfold bind, ret, getWorld, Fs.exists_. simpl.
    rewrite Hnone. simpl.
    split; [reflexivity|]. split; [reflexivity|]. apply lookup_insert_eq.
Qed.

End SecondaryEntryPoints.

Lemma secondary_entry_point_writes_witness :
  let run := @writePackageTransform Sample.host {| watch := true |}
               [Sample.primaryNode false; Sample.secondaryNode true]
               (Sample.package [] []) (Sample.world 1700000000000 Sample.builtDisk) in
  fst run = Return tt
  /\ fsops (snd run)
     = [OpWriteFile "/repo/dist/package.json"
                    (Json (setVersion (Some "0.0.0-watch+1700000000000") Sample.manifest));
        OpWriteFile "/repo/dist/testing/package.json"
                    (moduleStub "../fesm2022/lib-testing.mjs")]
  /\ fs (snd run) !! ["repo"; "dist"; "testing"; "package.json"]
     = Some (File (moduleStub "../fesm2022/lib-testing.mjs")).
Proof.
  destruct (@secondary_entry_point_writes Sample.host {| watch := true |}
              [Sample.primaryNode false; Sample.secondaryNode true]
              (Sample.package [] []) (Sample.world 1700000000000 Sample.builtDisk)
              (Sample.secondaryNode true) eq_refl eq_refl) as (_ & H & _).
  exact (H eq_refl Sample.manifest eq_refl).
Defined.

(** C4 as the specification words it fails: in watch mode the manifest
    written for a secondary entry point is the stub, which lacks even the
    package name that every full manifest carries. *)
Lemma watch_mode_secondary_gets_stub :
  ~ (forall (host : Host) (options : NgPackagrOptions) (entryPoints : list EntryPointNode)
            (ngPackage : NgPackage) (w : World) (node : EntryPointNode),
        List.find inProgress entryPoints = Some node ->
        isSecondaryEntryPoint (entryPoint node) = true ->
        watch options = true ->
        exists m,
          fs (snd (writePackageTransform options entryPoints ngPackage w))
             !! Fs.key w (manifestPath (entryPoint node)) = Some (File (Json m))
          /\ name m = Some (moduleId (entryPoint node))).
Proof.
  intros stated.
  destruct (stated Sample.host {| watch := true |}
              [Sample.primaryNode false; Sample.secondaryNode true]
              (Sample.package [] []) (Sample.world 1700000000000 Sample.builtDisk)
              (Sample.secondaryNode true) eq_refl eq_refl eq_refl) as (m & Hfile & Hname).
  vm_compute in Hfile. injection Hfile as <-. discriminate Hname.
Qed.

(** A full manifest does carry the name. *)
Lemma full_manifest_has_name {host : Host}
      (e : NgEntryPoint) (pkg : NgPackage) (add : AdditionalProperties)
      (isWatchMode : bool) (mode : option CompilationMode) (w : World) :
  fst (writePackageJson e pkg add isWatchMode mode w) = Return tt ->
  exists m,
    fs (snd (writePackageJson e pkg add isWatchMode mode w)) !! Fs.key w (manifestPath e)
    = Some (File (Json m))
    /\ name m = Some (moduleId e).
Proof.
  intros Hret.
  destruct (written_manifest e pkg add isWatchMode mode w Hret)
    as (m & p2 & w2 & _ & Hfile & _ & _ & Hname & _).
  exists m. split; assumption.
Qed.

(** ** The worker pool *)

(** C9. By default the pool waits with [Atomics] (['sync']), and has it
    disabled when the process runs in a web container; an [atomics]
    option of the caller replaces either default. When [RUNFILES] is not set and the runtime reports a
    compile-cache directory, the environment given to the workers has
    [NODE_COMPILE_CACHE] set to it; when [RUNFILES] is set, the
    environment option is the caller's, untouched. *)
Theorem worker_pool_configuration (process : WorkerPool.Process)
        (options : WorkerPool.WorkerPoolOptions) :
  let pool := WorkerPool.constructor process options in
  (WorkerPool.atomics options = None ->
   WorkerPool.atomics pool
   = Some (if truthy (WorkerPool.webcontainer process)
           then WorkerPool.AtomicsDisabled else WorkerPool.AtomicsSync))
  /\ (forall a, WorkerPool.atomics options = Some a -> WorkerPool.atomics pool = Some a)
  /\ (forall dir,
        truthy (Obj.get "RUNFILES" (WorkerPool.processEnv process)) = false ->
        WorkerPool.getCompileCacheDir process = Some (Some dir) ->
        Str.nonEmpty dir = true ->
        exists vars,
          WorkerPool.env pool = Some (WorkerPool.EnvObject vars)
          /\ Obj.get "NODE_COMPILE_CACHE" vars = Some dir)
  /\ (truthy (Obj.get "RUNFILES" (WorkerPool.processEnv process)) = true ->
      WorkerPool.env pool = WorkerPool.env options).
Proof.
  intros pool. unfold pool, WorkerPool.constructor. split; [|split; [|split]].
  - intros Hnone. rewrite Hnone.
    destruct (truthy (Obj.get "RUNFILES" (WorkerPool.processEnv process)));
      [reflexivity|].
    destruct (WorkerPool.getCompileCacheDir process) as [[dir|]|]; try reflexivity.
    destruct (Str.nonEmpty dir); reflexivity.
  - intros a Ha. rewrite Ha.
    destruct (truthy (Obj.get "RUNFILES" (WorkerPool.processEnv process)));
      [reflexivity|].
    destruct (WorkerPool.getCompileCacheDir process) as [[dir|]|]; try reflexivity.
    destruct (Str.nonEmpty dir); reflexivity.
  - intros dir Hrun Hdir Hne. rewrite Hrun, Hdir, Hne. simpl.
    destruct (WorkerPool.env options) as [[|vars]|]; eexists;
      (split; [reflexivity|apply get_set_eq]).
  - intros Hrun. rewrite Hrun. reflexivity.
Qed.

(** ** Decimal numerals and the watch version *)

Section Numerals.

Local Open Scope N_scope.

Lemma digitChar_code (d : N) : d < 10 -> N_of_ascii (Dec.digitChar d) = 48 + d.
Proof.
  intros H. unfold Dec.digitChar. apply N_ascii_embedding. lia.
Qed.

Lemma append_nil_l (t : string) : "" +:+ t = t.
Proof. reflexivity. Qed.

Lemma append_assoc_one (s : string) (c : ascii) (t : string) :
  (s +:+ String c "") +:+ t = s +:+ String c t.
Proof.
  induction s as [|a s IH]; [reflexivity|]. rewrite !append_cons, IH. reflexivity.
Qed.

Lemma length_snoc (s : string) (c : ascii) :
  String.length (s +:+ String c "") = S (String.length s).
Proof.
  induction s as [|a s IH]; [reflexivity|]. rewrite append_cons. simpl. rewrite IH. reflexivity.
Qed.

Lemma numeral_snoc (s : string) (c : ascii) :
  Dec.numeral (s +:+ String c "") = 10 * Dec.numeral s + (N_of_ascii c - 48).
Proof.
  induction s as [|a s IH].
  - rewrite append_nil_l. simpl. lia.
  - rewrite append_cons. simpl. rewrite IH, length_snoc.
    rewrite Nat2N.inj_succ, N.pow_succ_r'. lia.
Qed.

Lemma allDigits_snoc (s : string) (c : ascii) :
  Dec.allDigits s -> 48 <= N_of_ascii c <= 57 -> Dec.allDigits (s +:+ String c "").
Proof.
  induction s as [|a s IH]; intros Hs Hc.
  - rewrite append_nil_l. split; [exact Hc|exact I].
  - rewrite append_cons. destruct Hs as [Ha Hs]. split; [exact Ha|apply IH; assumption].
Qed.

Lemma digits_spec (fuel : nat) (n : N) (acc : string) :
  n < 2 ^ N.of_nat fuel ->
  exists ds, Dec.digits fuel n acc = ds +:+ acc
             /\ Dec.allDigits ds /\ Dec.numeral ds = n.
Proof.
  revert n acc. induction fuel as [|fuel IH]; intros n acc Hn.
  - simpl in Hn. assert (n = 0) by lia. subst. exists "". repeat split.
  - simpl. destruct (N.ltb_spec n 10) as [Hlt|Hge].
    + exists (String (Dec.digitChar (n mod 10)) "").
      rewrite N.mod_small by exact Hlt.
      split; [reflexivity|]. simpl. rewrite (digitChar_code n Hlt).
      split; [split; [lia|exact I]|].
      change (N.of_nat 0) with 0. rewrite N.pow_0_r. lia.
    + assert (Hdiv : n / 10 < 2 ^ N.of_nat fuel).
      { rewrite Nat2N.inj_succ, N.pow_succ_r' in Hn.
        apply N.Div0.div_lt_upper_bound. lia. }
      destruct (IH (n / 10) (String (Dec.digitChar (n mod 10)) acc) Hdiv)
        as (ds & Hrun & Hall & Hval).
      exists (ds +:+ String (Dec.digitChar (n mod 10)) "").
      assert (Hm : n mod 10 < 10) by (apply N.mod_lt; lia).
      split; [rewrite Hrun, append_assoc_one; reflexivity|].
      split.
      * apply allDigits_snoc; [exact Hall|]. rewrite (digitChar_code _ Hm).
        clear - Hm. generalize dependent (n mod 10). intros. lia.
      * rewrite numeral_snoc, Hval, (digitChar_code _ Hm).
        pose proof (N.div_mod n 10) as Hdm. clear - Hdm Hm.
        generalize dependent (n mod 10). generalize dependent (n / 10). intros. lia.
Qed.

Lemma ofN_spec (n : N) : Dec.allDigits (Dec.ofN n) /\ Dec.numeral (Dec.ofN n) = n.
Proof.
  unfold Dec.ofN.
  destruct (digits_spec (S (N.to_nat (N.log2 n))) n "") as (ds & Hrun & Hall & Hval).
  - rewrite Nat2N.inj_succ, N2Nat.id.
    destruct (N.eq_dec n 0) as [->|Hne]; [reflexivity|].
    apply N.log2_spec. lia.
  - rewrite Hrun.
    rewrite append_nil_r. split; assumption.
Qed.

Lemma numeral_bound (s : string) :
  Dec.allDigits s -> Dec.numeral s < 10 ^ N.of_nat (String.length s).
Proof.
  induction s as [|c s IH]; simpl; intros H.
  - lia.
  - destruct H as [Hc Hs]. specialize (IH Hs).
    rewrite Nat2N.inj_succ, N.pow_succ_r'. nia.
Qed.

Lemma compare_digits (a b : string) :
  Dec.allDigits a -> Dec.allDigits b -> String.length a = String.length b ->
  Dec.numeral a < Dec.numeral b -> String.compare a b = Lt.
Proof.
  revert b. induction a as [|x a IH]; intros [|y b] Ha Hb Hlen Hlt;
    simpl in *; try discriminate; try lia.
  destruct Ha as [Hx Ha], Hb as [Hy Hb]. injection Hlen as Hlen.
  pose proof (numeral_bound a Ha) as Hba.
  pose proof (numeral_bound b Hb) as Hbb.
  rewrite <- Hlen in *.
  unfold Ascii.compare.
  destruct (N.compare_spec (N_of_ascii x) (N_of_ascii y)) as [Heq|Hxy|Hxy].
  - apply IH; try assumption. rewrite Heq in Hlt. lia.
  - reflexivity.
  - exfalso. nia.
Qed.

Lemma compare_append (p a b : string) :
  String.compare (p +:+ a) (p +:+ b) = String.compare a b.
Proof.
  induction p as [|c p IH]; [reflexivity|]. rewrite !append_cons. simpl.
  unfold Ascii.compare. rewrite N.compare_refl. exact IH.
Qed.

(** Versions of different times differ, and the later one is the greater
    string, in the order of the characters, whenever the two timestamps
    have equally many decimal digits. *)
Lemma watchVersionOf_order (t1 t2 : N) :
  t1 < t2 ->
  watchVersionOf t1 <> watchVersionOf t2
  /\ (String.length (Dec.ofN t1) = String.length (Dec.ofN t2) ->
      String.ltb (watchVersionOf t1) (watchVersionOf t2) = true).
Proof.
  intros Hlt.
  destruct (ofN_spec t1) as [Ha1 Hv1]. destruct (ofN_spec t2) as [Ha2 Hv2].
  split.
  - unfold watchVersionOf. intros Heq.
    assert (Hof : Dec.ofN t1 = Dec.ofN t2).
    { cbv [String.append] in Heq. congruence. }
    rewrite Hof in Hv1. lia.
  - intros Hlen. unfold String.ltb, watchVersionOf.
    rewrite compare_append.
    rewrite (compare_digits _ _ Ha1 Ha2 Hlen) by lia. reflexivity.
Qed.

End Numerals.

(** C7, as far as it holds. Two watch-mode writes at times [t1 < t2]
    leave the pseudo-versions of [t1] and [t2] in the manifests, and these
    differ; the later one is the greater string, in the order of the
    characters, whenever the two timestamps have equally many decimal
    digits, as all timestamps from September 2001 to November 2286 do. *)
Theorem watch_writes_versions {host : Host}
        (e1 e2 : NgEntryPoint) (pkg1 pkg2 : NgPackage) (add1 add2 : AdditionalProperties)
        (mode1 mode2 : option CompilationMode) (w1 w2 : World) :
  (clock w1 < clock w2)%N ->
  fst (writePackageJson e1 pkg1 add1 true mode1 w1) = Return tt ->
  fst (writePackageJson e2 pkg2 add2 true mode2 w2) = Return tt ->
  exists m1 m2,
    fs (snd (writePackageJson e1 pkg1 add1 true mode1 w1)) !! Fs.key w1 (manifestPath e1)
    = Some (File (Json m1))
    /\ fs (snd (writePackageJson e2 pkg2 add2 true mode2 w2)) !! Fs.key w2 (manifestPath e2)
       = Some (File (Json m2))
    /\ version m1 = Some (watchVersionOf (clock w1))
    /\ version m2 = Some (watchVersionOf (clock w2))
    /\ version m1 <> version m2
    /\ (String.length (Dec.ofN (clock w1)) = String.length (Dec.ofN (clock w2)) ->
        String.ltb (watchVersionOf (clock w1)) (watchVersionOf (clock w2)) = true).
Proof.
  intros Hlt H1 H2.
  destruct (written_manifest e1 pkg1 add1 true mode1 w1 H1)
    as (m1 & p1 & u1 & Hb1 & Hf1 & _ & _ & _ & Hv1 & _).
  destruct (written_manifest e2 pkg2 add2 true mode2 w2 H2)
    as (m2 & p2 & u2 & Hb2 & Hf2 & _ & _ & _ & Hv2 & _).
  destruct (beforeGate_sections e1 add1 true w1 u1 p1 Hb1) as (_ & Hp1 & _).
  destruct (beforeGate_sections e2 add2 true w2 u2 p2 Hb2) as (_ & Hp2 & _).
  destruct (watchVersionOf_order (clock w1) (clock w2) Hlt) as [Hne Hord].
  exists m1, m2. rewrite Hv1, Hv2, Hp1, Hp2.
  split; [exact Hf1|]. split; [exact Hf2|]. split; [reflexivity|]. split; [reflexivity|].
  split; [congruence|exact Hord].
Qed.

Lemma watch_writes_versions_witness :
  exists m1 m2,
    fs (snd (@writePackageJson Sample.host Sample.primaryEntry (Sample.package [] ["tslib"])
               Sample.additional true (Some Partial)
               (Sample.world 1700000000000 Sample.disk)))
       !! ["repo"; "dist"; "package.json"] = Some (File (Json m1))
    /\ fs (snd (@writePackageJson Sample.host Sample.primaryEntry (Sample.package [] ["tslib"])
                  Sample.additional true (Some Partial)
                  (Sample.world 1700000000001 Sample.disk)))
          !! ["repo"; "dist"; "package.json"] = Some (File (Json m2))
    /\ version m1 = Some "0.0.0-watch+1700000000000"
    /\ version m2 = Some "0.0.0-watch+1700000000001"
    /\ version m1 <> version m2
    /\ String.ltb "0.0.0-watch+1700000000000" "0.0.0-watch+1700000000001" = true.
Proof.
  destruct (@watch_writes_versions Sample.host Sample.primaryEntry Sample.primaryEntry
              (Sample.package [] ["tslib"]) (Sample.package [] ["tslib"])
              Sample.additional Sample.additional (Some Partial) (Some Partial)
              (Sample.world 1700000000000 Sample.disk)
              (Sample.world 1700000000001 Sample.disk))
    as (m1 & m2 & H1 & H2 & H3 & H4 & H5 & H6).
  - reflexivity.
  - vm_compute. reflexivity.
  - vm_compute. reflexivity.
  - exists m1, m2. split; [exact H1|]. split; [exact H2|]. split; [exact H3|].
    split; [exact H4|]. split; [exact H5|]. apply H6. reflexivity.
Defined.

(** C7 as the specification words it fails: the version written at
    1000 ms is, as a string, below the one written at 999 ms. *)
Lemma watch_version_not_monotonic :
  ~ (forall (host : Host) (e : NgEntryPoint) (pkg : NgPackage) (add : AdditionalProperties)
            (mode : option CompilationMode) (w1 w2 : World) (m1 m2 : PackageJson)
            (v1 v2 : string),
        (clock w1 < clock w2)%N ->
        fs (snd (writePackageJson e pkg add true mode w1)) !! Fs.key w1 (manifestPath e)
        = Some (File (Json m1)) ->
        fs (snd (writePackageJson e pkg add true mode w2)) !! Fs.key w2 (manifestPath e)
        = Some (File (Json m2)) ->
        version m1 = Some v1 -> version m2 = Some v2 ->
        String.ltb v1 v2 = true).
Proof.
  intros stated.
  specialize (stated Sample.host Sample.primaryEntry (Sample.package [] ["tslib"])
                Sample.additional (Some Partial)
                (Sample.world 999 Sample.disk) (Sample.world 1000 Sample.disk)
                _ _ "0.0.0-watch+999" "0.0.0-watch+1000"
                eq_refl eq_refl eq_refl eq_refl eq_refl).
  vm_compute in stated. discriminate stated.
Qed.

Example watch_version_999 : watchVersionOf 999 = "0.0.0-watch+999".
Proof. reflexivity. Qed.
Example watch_version_1000 : watchVersionOf 1000 = "0.0.0-watch+1000".
Proof. reflexivity. Qed.

(** ** The theorems at work on the sample package *)

(** [left-pad] is not allowed: the write fails, the destination directory
    and the manifest in it are gone, the sources are still there. *)
Lemma dependency_gate_rolls_back_witness :
  exists w',
    @writePackageJson Sample.host
      (Sample.entryWith (Sample.manifestWith (Some [("left-pad", "^1.0.0")]) None None))
      (Sample.package [] ["tslib"]) Sample.additional false (Some Partial)
      (Sample.world 0 Sample.builtDisk)
    = (Throw ("Dependency left-pad must be explicitly allowed using the "
              +:+ String (ascii_of_nat 34) "allowedNonPeerDependencies"
              +:+ String (ascii_of_nat 34) " option."), w')
    /\ fsops w' = [OpRmdir "/repo/dist"]
    /\ fs w' !! ["repo"; "dist"] = None
    /\ fs w' !! ["repo"; "dist"; "package.json"] = None
    /\ fs w' !! ["repo"; "src"; "README.md"] = Some (File (Text "# lib")).
Proof.
  destruct (@dependency_gate_rolls_back Sample.host
              (Sample.entryWith (Sample.manifestWith (Some [("left-pad", "^1.0.0")]) None None))
              (Sample.package [] ["tslib"]) Sample.additional false (Some Partial)
              (Sample.world 0 Sample.builtDisk) "left-pad")
    as (pre & d & post & w' & Hrun & Hsplit & _ & _ & _ & _ & Hops & Hgone & Hmanifest & Hkept).
  - intros value [<-|[]]. reflexivity.
  - simpl. left. reflexivity.
  - reflexivity.
  - assert (Hd : d = "left-pad").
    { destruct pre as [|c pre]; simpl in Hsplit.
      - injection Hsplit as <- _. reflexivity.
      - destruct pre; discriminate Hsplit. }
    subst d. exists w'. split; [exact Hrun|]. split; [exact Hops|].
    split; [apply Hgone; reflexivity|]. split; [exact Hmanifest|].
    rewrite Hkept; [reflexivity|].
    apply (bool_decide_eq_false_1 _). vm_compute. reflexivity.
Defined.

(** A package compiled in full mode gets the guard. *)
Lemma prepublishOnly_guard_witness :
  exists m,
    fs (snd (@writePackageJson Sample.host Sample.primaryEntry (Sample.package [] ["tslib"])
               Sample.additional false (Some Full) (Sample.world 0 Sample.disk)))
       !! ["repo"; "dist"; "package.json"] = Some (File (Json m))
    /\ Obj.optGet "prepublishOnly" (scripts m)
       = Some ("node --eval " +:+ String (ascii_of_nat 34) "console.error('"
               +:+ "ERROR: Trying to publish a package that has been compiled in full compilation mode. This is not allowed."
               +:+ String (ascii_of_nat 92) "n"
               +:+ "Please delete and rebuild the package with partial compilation mode, before attempting to publish."
               +:+ String (ascii_of_nat 92) "n"
               +:+ "')" +:+ String (ascii_of_nat 34) " && exit 1").
Proof.
  destruct (@prepublishOnly_guard Sample.host Sample.primaryEntry (Sample.package [] ["tslib"])
              Sample.additional false (Some Full) (Sample.world 0 Sample.disk))
    as (m & Hfile & Hguard & _).
  - vm_compute. reflexivity.
  - exists m. split; [exact Hfile|]. apply Hguard. discriminate.
Defined.

(** The same package in partial mode has no scripts at all. *)
Example partial_mode_no_guard :
  exists m,
    fs (snd (@writePackageJson Sample.host Sample.primaryEntry (Sample.package [] ["tslib"])
               Sample.additional false (Some Partial) (Sample.world 0 Sample.disk)))
       !! ["repo"; "dist"; "package.json"] = Some (File (Json m))
    /\ scripts m = None.
Proof. eexists. split; vm_compute; reflexivity. Qed.

(** A kept [prepublishOnly] script gives way to the guard; the build
    script stays. *)
Lemma guard_replaces_declared_script_witness :
  exists m,
    fs (snd (@writePackageJson Sample.host
               (Sample.entryWith
                  (Sample.manifestWith None None
                     (Some [("prepublishOnly", "npm test"); ("build", "ng build")])))
               (Sample.keepingPackage ["tslib"])
               Sample.additional false (Some Full) (Sample.world 0 Sample.disk)))
       !! ["repo"; "dist"; "package.json"] = Some (File (Json m))
    /\ Obj.optGet "prepublishOnly" (scripts m) = Some prepublishOnlyGuard
    /\ Obj.optGet "build" (scripts m) = Some "ng build".
Proof.
  destruct (@guard_replaces_declared_script Sample.host
              (Sample.entryWith
                 (Sample.manifestWith None None
                    (Some [("prepublishOnly", "npm test"); ("build", "ng build")])))
              (Sample.keepingPackage ["tslib"])
              Sample.additional false (Some Full) (Sample.world 0 Sample.disk) "npm test")
    as (m & Hfile & Hguard & Hrest).
  - discriminate.
  - reflexivity.
  - reflexivity.
  - vm_compute. reflexivity.
  - exists m. split; [exact Hfile|]. split; [exact Hguard|].
    rewrite Hrest by discriminate. reflexivity.
Defined.

(** Without a declared [tslib] the compiler's version is injected: the
    one of its peer dependencies when the compiler has [tslib] there and
    among its dependencies, the one of its dependencies when it has
    [tslib] only there. A declared peer version is moved. *)
Lemma tslib_becomes_dependency_witness :
  (exists m,
      fs (snd (@writePackageJson
                 (Sample.hostWith {| angularPeerDependencies := Some [("tslib", "^2.8.0")];
                                     angularDependencies := Some [("tslib", "^2.3.0")] |})
                 Sample.primaryEntry (Sample.package [] ["tslib"])
                 Sample.additional false (Some Partial) (Sample.world 0 Sample.disk)))
         !! ["repo"; "dist"; "package.json"] = Some (File (Json m))
      /\ Obj.optGet "tslib" (dependencies m) = Some "^2.8.0")
  /\ (exists m,
      fs (snd (@writePackageJson Sample.host Sample.primaryEntry (Sample.package [] ["tslib"])
                 Sample.additional false (Some Partial) (Sample.world 0 Sample.disk)))
         !! ["repo"; "dist"; "package.json"] = Some (File (Json m))
      /\ Obj.optGet "tslib" (dependencies m) = Some "^2.3.0")
  /\ (exists m,
         fs (snd (@writePackageJson Sample.host
                    (Sample.entryWith
                       (Sample.manifestWith None (Some [("tslib", "^2.6.0")]) None))
                    (Sample.package [] ["tslib"])
                    Sample.additional false (Some Partial) (Sample.world 0 Sample.disk)))
            !! ["repo"; "dist"; "package.json"] = Some (File (Json m))
         /\ Obj.optGet "tslib" (dependencies m) = Some "^2.6.0"
         /\ Obj.optGet "tslib" (peerDependencies m) = None
         /\ In (SpinnerWarn tslibMovedWarning)
               (events (snd (@writePackageJson Sample.host
                               (Sample.entryWith
                                  (Sample.manifestWith None (Some [("tslib", "^2.6.0")]) None))
                               (Sample.package [] ["tslib"])
                               Sample.additional false (Some Partial)
                               (Sample.world 0 Sample.disk))))).
Proof.
  split; [|split].
  - destruct (@tslib_becomes_dependency
                (Sample.hostWith {| angularPeerDependencies := Some [("tslib", "^2.8.0")];
                                    angularDependencies := Some [("tslib", "^2.3.0")] |})
                Sample.primaryEntry (Sample.package [] ["tslib"])
                Sample.additional false (Some Partial) (Sample.world 0 Sample.disk))
      as (m & Hfile & Hinject & _).
    + vm_compute. reflexivity.
    + exists m. split; [exact Hfile|].
      destruct (Hinject eq_refl eq_refl) as [Hpeer _]. apply Hpeer; reflexivity.
  - destruct (@tslib_becomes_dependency Sample.host Sample.primaryEntry
                (Sample.package [] ["tslib"])
                Sample.additional false (Some Partial) (Sample.world 0 Sample.disk))
      as (m & Hfile & Hinject & _).
    + vm_compute. reflexivity.
    + exists m. split; [exact Hfile|].
      destruct (Hinject eq_refl eq_refl) as [_ Hdeps].
      apply Hdeps; [|reflexivity|reflexivity].
      intros pv Hpv. discriminate Hpv.
  - destruct (@tslib_becomes_dependency Sample.host
                (Sample.entryWith
                   (Sample.manifestWith None (Some [("tslib", "^2.6.0")]) None))
                (Sample.package [] ["tslib"])
                Sample.additional false (Some Partial) (Sample.world 0 Sample.disk))
      as (m & Hfile & _ & Hmove).
    + vm_compute. reflexivity.
    + exists m. split; [exact Hfile|]. apply Hmove; reflexivity.
Defined.

(** The sample process: atomic waiting, and the compile cache in the
    workers' environment next to the variables of the process. *)
Lemma worker_pool_configuration_witness :
  WorkerPool.atomics (WorkerPool.constructor Sample.process Sample.noOptions)
  = Some WorkerPool.AtomicsSync
  /\ exists vars,
      WorkerPool.env (WorkerPool.constructor Sample.process Sample.noOptions)
      = Some (WorkerPool.EnvObject vars)
      /\ Obj.get "NODE_COMPILE_CACHE" vars = Some "/tmp/node-compile-cache"
      /\ Obj.get "PATH" vars = Some "/usr/bin".
Proof.
  destruct (worker_pool_configuration Sample.process Sample.noOptions)
    as (Hdefault & _ & Hcache & _).
  split; [exact (Hdefault eq_refl)|].
  destruct (Hcache "/tmp/node-compile-cache" eq_refl eq_refl eq_refl) as (vars & Henv & Hget).
  exists vars. split; [exact Henv|]. split; [exact Hget|].
  vm_compute in Henv. injection Henv as <-. reflexivity.
Defined.

(** Under Bazel nothing is propagated; in a web container waiting with
    [Atomics] is disabled. *)
Example worker_pool_restricted_hosts :
  WorkerPool.env
    (WorkerPool.constructor
       {| WorkerPool.webcontainer := Some "1.1.0";
          WorkerPool.processEnv := [("RUNFILES", "/bazel/runfiles")];
          WorkerPool.getCompileCacheDir := Some (Some "/tmp/node-compile-cache") |}
       Sample.noOptions) = None
  /\ WorkerPool.atomics
       (WorkerPool.constructor
          {| WorkerPool.webcontainer := Some "1.1.0";
             WorkerPool.processEnv := [("RUNFILES", "/bazel/runfiles")];
             WorkerPool.getCompileCacheDir := Some (Some "/tmp/node-compile-cache") |}
          Sample.noOptions) = Some WorkerPool.AtomicsDisabled.
Proof. split; reflexivity. Qed.

(** The three ways a bare string resolves on the sample disk. *)
Example bare_string_directory :
  fst (resolveAssetPattern (Sample.package [] []) (AssetString "assets")
         (Sample.world 0 Sample.disk))
  = Return (plainAsset "**/*" "assets" "assets").
Proof. vm_compute. reflexivity. Qed.

Example bare_string_file :
  fst (resolveAssetPattern (Sample.package [] []) (AssetString "assets/logo.svg")
         (Sample.world 0 Sample.disk))
  = Return (plainAsset "logo.svg" "assets" "assets").
Proof. vm_compute. reflexivity. Qed.

Example bare_string_pattern :
  fst (resolveAssetPattern (Sample.package [] []) (AssetString "**/*.md")
         (Sample.world 0 Sample.disk))
  = Return (plainAsset "**/*.md" "/" "/").
Proof. vm_compute. reflexivity. Qed.

(** The primary entry point of the sample package, built outside watch
    mode: the README is copied (once as declared, once by default), the
    ignore file and the manifest are written. *)
Example primary_end_to_end :
  let run := @writePackageTransform Sample.host {| watch := false |}
               [Sample.primaryNode true; Sample.secondaryNode false]
               (Sample.package [AssetObject (plainAsset "README.md" "." ".")] ["tslib"])
               (Sample.world 0 Sample.disk) in
  fst run = Return tt
  /\ fsops (snd run)
     = [OpCopyFile "/repo/src/README.md" "/repo/dist/README.md";
        OpCopyFile "/repo/src/README.md" "/repo/dist/README.md";
        OpWriteFile "/repo/dist/.npmignore" (Text npmignoreText);
        OpWriteFile "/repo/dist/package.json"
          (Json {| name := Some "lib"; version := Some "1.2.3";
                   module_ := Some "fesm2022/lib.mjs"; typings := Some "index.d.ts";
                   exports :=
                     Some [("./package.json", [("default", "./package.json")]);
                           (".", [("types", "./index.d.ts");
                                  ("default", "./fesm2022/lib.mjs")]);
                           ("./testing", [("types", "./testing/index.d.ts");
                                          ("default", "./fesm2022/lib-testing.mjs")])];
                   sideEffects := Some (SideEffectsFlag false);
                   dependencies := Some [("tslib", "^2.3.0")];
                   peerDependencies := None; scripts := None; ngPackage := None;
                   other := [] |})]
  /\ elements (nodes (graph (snd run))) = ["file:///repo/src/README.md"].
Proof. vm_compute. repeat split. Qed.

(** * Further properties *)

(** ** Containment, exactly *)

Lemma stripCommon_app (from rest : list string) :
  Path.stripCommon from (from ++ rest) = ([], rest).
Proof.
  induction from as [|f from IH]; simpl.
  - destruct rest; reflexivity.
  - rewrite String.eqb_refl. exact IH.
Qed.

Lemma string_prefix_cons (a b : ascii) (s1 s2 : string) :
  String.prefix (String a s1) (String b s2)
  = if ascii_dec a b then String.prefix s1 s2 else false.
Proof. reflexivity. Qed.

Lemma string_prefix_nil (s : string) : String.prefix "" s = true.
Proof. destruct s; reflexivity. Qed.

Lemma prefix_dotdot_head (seg tail : string) :
  String.prefix ".." (seg +:+ "/" +:+ tail) = String.prefix ".." seg.
Proof.
  destruct seg as [|c1 [|c2 r]].
  - reflexivity.
  - rewrite append_cons, ?string_prefix_cons.
    destruct (ascii_dec "." c1); reflexivity.
  - rewrite !append_cons, ?string_prefix_cons.
    destruct (ascii_dec "." c1); [|reflexivity].
    destruct (ascii_dec "." c2); [|reflexivity].
    rewrite !string_prefix_nil. reflexivity.
Qed.

Lemma prefix_dotdot_concat (seg : string) (rest : list string) :
  String.prefix ".." (String.concat "/" (seg :: rest)) = String.prefix ".." seg.
Proof.
  destruct rest as [|r rest]; [reflexivity|].
  change (String.concat "/" (seg :: r :: rest))
    with (seg +:+ "/" +:+ String.concat "/" (r :: rest)).
  apply prefix_dotdot_head.
Qed.

Lemma isAncestorPath_dotted (cwd0 target datum seg : string) (rest : list string) :
  Path.resolveSegs cwd0 target = Path.resolveSegs cwd0 datum ++ seg :: rest ->
  String.prefix ".." seg = true ->
  isAncestorPath cwd0 target datum = true.
Proof.
  intros Hsplit Hseg. unfold isAncestorPath, Str.startsWith, Path.relative.
  destruct (String.eqb_spec datum target) as [->|_].
  - exfalso. apply (f_equal (@length string)) in Hsplit.
    rewrite length_app in Hsplit. simpl in Hsplit. lia.
  - rewrite Hsplit, stripCommon_app. cbn -[String.concat String.prefix].
    rewrite prefix_dotdot_concat. exact Hseg.
Qed.

Lemma isAncestorPath_false_within (cwd0 target datum : string) :
  isAncestorPath cwd0 target datum = false -> withinRoot cwd0 datum target.
Proof.
  intros H. destruct (decide (withinRoot cwd0 datum target)) as [Hin|Hout]; [exact Hin|].
  rewrite (isAncestorPath_outside cwd0 target datum Hout) in H. discriminate H.
Qed.

(** X1. [isAncestorPath] flags exactly the targets outside the root and
    those inside it whose first segment below the root begins with two
    dots. *)
Theorem isAncestorPath_exactly (cwd0 target datum : string) :
  isAncestorPath cwd0 target datum = true
  <-> (~ withinRoot cwd0 datum target
       \/ exists seg rest,
            Path.resolveSegs cwd0 target = Path.resolveSegs cwd0 datum ++ seg :: rest
            /\ String.prefix ".." seg = true).
Proof.
  split.
  - intros Hflag.
    destruct (decide (withinRoot cwd0 datum target)) as [Hin|Hout]; [right|left; exact Hout].
    unfold isAncestorPath, Str.startsWith, Path.relative in Hflag.
    destruct (String.eqb datum target); [discriminate Hflag|].
    destruct Hin as (k & Hk). rewrite Hk, stripCommon_app in Hflag. simpl in Hflag.
    destruct k as [|seg rest]; [discriminate Hflag|].
    rewrite prefix_dotdot_concat in Hflag. exists seg, rest. split; assumption.
  - intros [Hout|(seg & rest & Hsplit & Hseg)].
    + apply isAncestorPath_outside, Hout.
    + eapply isAncestorPath_dotted; eassumption.
Qed.

Section MoreAssets.

Context {host : Host}.

Lemma copiesOnly_refl (ep : EntryPointNode) (w : World) : copiesOnly ep w w [].
Proof.
  unfold copiesOnly. simpl. rewrite app_nil_r.
  split_and!; try done.
Qed.

Lemma destination_cases (w : World) (l : list (string * string)) (k : list string) :
  (exists c, In c l /\ Fs.key w (snd c) = k) \/ (forall c, In c l -> Fs.key w (snd c) <> k).
Proof.
  induction l as [|c l IH].
  - right. intros c [].
  - destruct (decide (Fs.key w (snd c) = k)) as [Heq|Hne].
    + left. exists c. split; [left; reflexivity|exact Heq].
    + destruct IH as [(c' & Hin & Heq)|Hall].
      * left. exists c'. split; [right; exact Hin|exact Heq].
      * right. intros c' [<-|Hin]; [exact Hne|apply Hall, Hin].
Qed.

Lemma copiesOnly_trans (ep : EntryPointNode) (w1 w2 w3 : World)
      (l1 l2 : list (string * string)) :
  copiesOnly ep w1 w2 l1 -> copiesOnly ep w2 w3 l2 -> copiesOnly ep w1 w3 (l1 ++ l2).
Proof.
  intros (a1 & a2 & a3 & a4 & a5 & a6 & a7 & a8 & a9) (b1 & b2 & b3 & b4 & b5 & b6 & b7 & b8 & b9).
  unfold copiesOnly.
  split; [congruence|]. split; [congruence|]. split; [congruence|].
  split; [rewrite b4, a4, map_app, app_assoc; reflexivity|].
  split; [etrans; eassumption|]. split; [etrans; eassumption|].
  assert (Hkey : forall p, Fs.key w2 p = Fs.key w1 p).
  { intros p. unfold Fs.key. rewrite a1. reflexivity. }
  split; [|split].
  - intros x Hx. apply in_app_or in Hx as [Hx|Hx].
    + destruct (a7 x Hx) as [Hn He]. split; [apply b5, Hn|apply b6, He].
    + apply b7, Hx.
  - intros x Hx. apply in_app_or in Hx as [Hx|Hx].
    + destruct (destination_cases w2 l2 (Fs.key w1 (snd x)))
        as [(c & Hin & Heq)|Hall].
      * rewrite <- Heq. apply b8, Hin.
      * rewrite (b9 _ Hall). apply a8, Hx.
    + rewrite <- Hkey. apply b8, Hx.
  - intros k Hk. rewrite b9, a9; [reflexivity| |].
    + intros x Hx. apply Hk, in_or_app. left. exact Hx.
    + intros x Hx. rewrite Hkey. apply Hk, in_or_app. right. exact Hx.
Qed.

Lemma copyFiles_effect (ep : EntryPointNode) (asset : AssetEntry)
      (filePaths : list string) (w : World) :
  exists copies, copiesOnly ep w (snd (copyFiles ep asset filePaths w)) copies.
Proof.
  revert w. induction filePaths as [|filePath rest IH]; intros w.
  - exists []. apply copiesOnly_refl.
  - simpl.
    set (from := Path.join [input asset; filePath]).
    set (to := Path.join [output asset; filePath]).
    set (uri := fileUrl (ensureUnixPath from)).
    set (w1 := snd (dependsOn ep uri (snd (graphEnsure uri w)))).
    assert (Hstep : (graphEnsure uri;; dependsOn ep uri;; Fs.copyFile from to;;
                     copyFiles ep asset rest) w
                    = (Fs.copyFile from to;; copyFiles ep asset rest) w1) by reflexivity.
    rewrite Hstep. clear Hstep.
    assert (Hgraph : copiesOnly ep w w1 []).
    { unfold copiesOnly, w1. simpl. rewrite app_nil_r.
      split; [reflexivity|]. split; [reflexivity|]. split; [reflexivity|].
      split; [reflexivity|].
      split; [apply union_subseteq_r|]. split; [apply union_subseteq_r|].
      split; [intros c []|]. split; [intros c []|reflexivity]. }
    unfold bind, Fs.copyFile.
    destruct (fs w1 !! Fs.key w1 from) as [[c| |]|] eqn:E; try (exists []; exact Hgraph).
    set (w2 := setFs (<[Fs.key w1 to := File c]> (fs w1)) (OpCopyFile from to) w1).
    destruct (IH w2) as (copies & Hrest).
    exists ([(from, to)] ++ copies).
    eapply copiesOnly_trans; [|exact Hrest].
    unfold copiesOnly, w2, w1. simpl.
    split; [reflexivity|]. split; [reflexivity|]. split; [reflexivity|].
    split; [reflexivity|].
    split; [apply union_subseteq_r|]. split; [apply union_subseteq_r|].
    split; [|split].
    + intros x [<-|[]]. simpl. fold uri.
      split; [apply elem_of_union_l, elem_of_singleton; reflexivity|].
      apply elem_of_union_l, elem_of_singleton. reflexivity.
    + intros x [<-|[]]. exists c. apply lookup_insert_eq.
    + intros k Hk. apply lookup_insert_ne. apply (Hk (from, to)). left. reflexivity.
Qed.

Lemma copyResolved_effect (pkg : NgPackage) (ep : EntryPointNode)
      (l : list AssetEntry) (w : World) :
  exists copies, copiesOnly ep w (snd (copyResolved pkg ep l w)) copies.
Proof.
  revert w. induction l as [|asset rest IH]; intros w.
  - exists []. apply copiesOnly_refl.
  - simpl. unfold bind at 1. unfold getWorld at 1.
    set (filePaths := globFiles _ _ w).
    destruct (copyFiles_effect ep asset filePaths w) as (c1 & H1).
    unfold bind. destruct (copyFiles ep asset filePaths w) as [[[]|e] w1] eqn:E; simpl in H1.
    + destruct (IH w1) as (c2 & H2). exists (c1 ++ c2).
      eapply copiesOnly_trans; eassumption.
    + exists c1. exact H1.
Qed.

Lemma resolveAssets_world (pkg : NgPackage) (declared : list AssetPattern)
      (acc : list AssetEntry) (w : World) :
  snd (resolveAssets pkg declared acc w) = w.
Proof.
  revert acc. induction declared as [|a rest IH]; intros acc; [reflexivity|].
  simpl. unfold bind at 1. rewrite resolveAssetPattern_run.
  unfold bind at 1. unfold getWorld at 1.
  destruct (isAncestorPath _ _ (src pkg)); [reflexivity|].
  destruct (isAncestorPath _ _ (dest pkg)); [reflexivity|]. apply IH.
Qed.

Lemma copyAssets_effect (ep : EntryPointNode) (pkg : NgPackage)
      (entryPoints : list EntryPointNode) (w : World) :
  exists copies, copiesOnly ep w (snd (copyAssets ep pkg entryPoints w)) copies.
Proof.
  unfold copyAssets, bind.
  pose proof (resolveAssets_world pkg (declaredAssets pkg entryPoints) [] w) as Hw.
  destruct (resolveAssets pkg (declaredAssets pkg entryPoints) [] w) as [[l|e] w1].
  - simpl in Hw. subst w1. apply copyResolved_effect.
  - simpl in Hw. subst w1. exists []. apply copiesOnly_refl.
Qed.

(** X2. Whether it returns or throws, [copyAssets] does nothing but copy
    files. *)
Theorem copyAssets_only_copies (ep : EntryPointNode) (pkg : NgPackage)
        (entryPoints : list EntryPointNode) (w : World) :
  exists copies, copiesOnly ep w (snd (copyAssets ep pkg entryPoints w)) copies.
Proof.
  unfold copyAssets, bind.
  pose proof (resolveAssets_world pkg (declaredAssets pkg entryPoints) [] w) as Hw.
  destruct (resolveAssets pkg (declaredAssets pkg entryPoints) [] w) as [[l|e] w1];
    simpl in Hw; subst w1.
  - (* every declaration passed the checks: the copy loop runs *)
    apply copyResolved_effect.
  - (* a declaration was refused: nothing has been done *)
    exists []. apply copiesOnly_refl.
Qed.

End MoreAssets.

(** Joining continues the walk of the directory with the segments of the
    path joined to it. *)
Lemma resolveSegs_join_walk (cwd0 d x : string) :
  Str.nonEmpty d = true -> Str.nonEmpty x = true ->
  Path.resolveSegs cwd0 (Path.join [d; x])
  = rev (fold_left (Path.normStep false) (Str.split_slash x) (rev (Path.resolveSegs cwd0 d))).
Proof.
  intros Hd Hx. unfold Path.join. simpl. rewrite Hd, Hx.
  change (String.concat "/" [d; x]) with (d +:+ "/" +:+ x).
  assert (Hj : Str.nonEmpty (d +:+ "/" +:+ x) = true).
  { destruct d; [discriminate|reflexivity]. }
  rewrite Hj. simpl. rewrite resolveSegs_normalize by exact Hj.
  unfold Path.resolveSegs.
  assert (Ha : Path.isAbsolute (d +:+ "/" +:+ x) = Path.isAbsolute d).
  { destruct d as [|c d]; [discriminate|].
    rewrite append_cons, !isAbsolute_cons. reflexivity. }
  rewrite Ha, split_slash_app. unfold Path.normalizeString.
  destruct (Path.isAbsolute d).
  - rewrite fold_left_app, rev_involutive. reflexivity.
  - rewrite app_assoc, fold_left_app, rev_involutive. reflexivity.
Qed.

(** Joining the separator alone to a directory leads to the directory. *)
Lemma resolveSegs_join_root (cwd0 d : string) :
  Str.nonEmpty d = true ->
  Path.resolveSegs cwd0 (Path.join [d; "/"]) = Path.resolveSegs cwd0 d.
Proof.
  intros Hd. rewrite resolveSegs_join_walk by (exact Hd || reflexivity).
  simpl. apply rev_involutive.
Qed.

Lemma stripCommon_same (l : list string) : Path.stripCommon l l = ([], []).
Proof.
  induction l as [|x l IH]; [reflexivity|]. simpl. rewrite String.eqb_refl. exact IH.
Qed.

Lemma isAncestorPath_same (cwd0 target datum : string) :
  Path.resolveSegs cwd0 target = Path.resolveSegs cwd0 datum ->
  isAncestorPath cwd0 target datum = false.
Proof.
  intros H. unfold isAncestorPath, Str.startsWith, Path.relative.
  destruct (String.eqb datum target); [reflexivity|].
  rewrite H, stripCommon_same. reflexivity.
Qed.

Section MoreValidation.

Context {host : Host}.

Lemma resolveAssets_sound (pkg : NgPackage) (w : World) (declared : list AssetPattern)
      (acc l : list AssetEntry) :
  fst (resolveAssets pkg declared acc w) = Return l ->
  l = acc ++ List.map (fun a => rootAsset pkg (resolvedEntry pkg w a)) declared
  /\ forall a, In a declared ->
               flagged pkg w (rootAsset pkg (resolvedEntry pkg w a)) = false.
Proof.
  revert acc. induction declared as [|a rest IH]; intros acc; simpl.
  - intros H. injection H as <-. rewrite app_nil_r. split; [reflexivity|intros a []].
  - unfold bind at 1. rewrite resolveAssetPattern_run.
    unfold bind at 1. unfold getWorld at 1.
    destruct (isAncestorPath (cwd w) _ (src pkg)) eqn:Hi; [discriminate|].
    destruct (isAncestorPath (cwd w) _ (dest pkg)) eqn:Ho; [discriminate|].
    intros H. destruct (IH _ H) as (-> & Hrest).
    split; [rewrite <- app_assoc; reflexivity|].
    intros b [<-|Hb]; [|apply Hrest, Hb].
    unfold flagged. simpl. rewrite Hi, Ho. reflexivity.
Qed.

(** X3. Validation is sound: when [copyAssets] returns, every declared
    asset, user-given or default, reads from within the source root and
    writes within the destination root. *)
Theorem copied_assets_are_contained
        (ep : EntryPointNode) (pkg : NgPackage) (entryPoints : list EntryPointNode)
        (w : World) (a : AssetPattern) (e0 : AssetEntry) :
  fst (copyAssets ep pkg entryPoints w) = Return tt ->
  In a (declaredAssets pkg entryPoints) ->
  resolveAssetPattern pkg a w = (Return e0, w) ->
  withinRoot (cwd w) (src pkg) (input (rootAsset pkg e0))
  /\ withinRoot (cwd w) (dest pkg) (output (rootAsset pkg e0)).
Proof.
  intros Hret Hin Hres.
  rewrite resolveAssetPattern_run in Hres. injection Hres as <-.
  unfold copyAssets, bind in Hret.
  destruct (resolveAssets pkg (declaredAssets pkg entryPoints) [] w) as [[l|e] w1] eqn:E;
    [|discriminate Hret].
  destruct (resolveAssets_sound pkg w (declaredAssets pkg entryPoints) [] l) as (_ & Hclean);
    [rewrite E; reflexivity|].
  specialize (Hclean a Hin). unfold flagged in Hclean.
  apply orb_false_iff in Hclean as [Hi Ho].
  split; apply isAncestorPath_false_within; assumption.
Qed.

(** X4. A directory of the source root whose name begins with two dots is
    refused as if it were outside: the asset reads from within the source
    root, and yet [copyAssets] throws a containment error and copies
    nothing. *)
Theorem dotted_directory_is_refused
        (ep : EntryPointNode) (pkg : NgPackage) (entryPoints : list EntryPointNode)
        (w : World) (a : AssetPattern) (e0 : AssetEntry) :
  In a (declaredAssets pkg entryPoints) ->
  resolveAssetPattern pkg a w = (Return e0, w) ->
  plain (input e0) -> slashFree (input e0) -> String.prefix ".." (input e0) = true ->
  withinRoot (cwd w) (src pkg) (input (rootAsset pkg e0))
  /\ exists message,
       copyAssets ep pkg entryPoints w = (Throw message, w)
       /\ (message = inputOutsideMessage \/ message = outputOutsideMessage).
Proof.
  intros Hin Hres Hplain Hfree Hdots.
  rewrite resolveAssetPattern_run in Hres. injection Hres as <-.
  set (e0 := resolvedEntry pkg w a) in *.
  assert (Hsegs : Path.resolveSegs (cwd w) (input (rootAsset pkg e0))
                  = Path.resolveSegs (cwd w) (src pkg) ++ [input e0]).
  { simpl. apply resolveSegs_join_name; assumption. }
  split.
  { unfold withinRoot. rewrite Hsegs. apply prefix_app_r. reflexivity. }
  assert (Hflag : flagged pkg w (rootAsset pkg e0) = true).
  { unfold flagged. apply orb_true_iff. left.
    eapply isAncestorPath_dotted; [exact Hsegs|exact Hdots]. }
  destruct (first_split
              (fun c => flagged pkg w (rootAsset pkg (resolvedEntry pkg w c)))
              _ a Hin Hflag) as (pre & y & post & Hsplit & Hpre & Hy).
  exists (containmentMessage pkg w (rootAsset pkg (resolvedEntry pkg w y))).
  split.
  - unfold copyAssets, bind. rewrite Hsplit.
    rewrite (resolveAssets_flagged pkg w pre y post [] Hpre Hy). reflexivity.
  - unfold containmentMessage. destruct (isAncestorPath _ _ _); [left|right]; reflexivity.
Qed.

(** X5. A bare string that names nothing under the source root is taken
    as a pattern to be matched from the roots themselves, and is never
    refused, whatever the pattern is: the containment checks see the
    roots only. *)
Theorem unmatched_string_is_never_refused (pkg : NgPackage) (assetPath : string) (w : World) :
  Str.nonEmpty (src pkg) = true -> Str.nonEmpty (dest pkg) = true ->
  fs w !! Fs.key w (Path.join [src pkg; assetPath]) = None ->
  resolveAssets pkg [AssetString assetPath] [] w
  = (Return [{| glob := assetPath;
                input := Path.join [src pkg; "/"];
                output := Path.join [dest pkg; "/"];
                ignore := None; followSymlinks := None |}], w)
  /\ Path.resolveSegs (cwd w) (Path.join [src pkg; "/"]) = Path.resolveSegs (cwd w) (src pkg)
  /\ Path.resolveSegs (cwd w) (Path.join [dest pkg; "/"]) = Path.resolveSegs (cwd w) (dest pkg).
Proof.
  intros Hsrc Hdest Hnone.
  pose proof (resolveSegs_join_root (cwd w) (src pkg) Hsrc) as Hi.
  pose proof (resolveSegs_join_root (cwd w) (dest pkg) Hdest) as Ho.
  split; [|split; assumption].
  rewrite (resolveAssets_clean pkg w [AssetString assetPath] []).
  - simpl. unfold probed. rewrite Hnone. reflexivity.
  - intros a [<-|[]]. simpl. unfold probed. rewrite Hnone.
    unfold flagged. simpl.
    rewrite (isAncestorPath_same _ _ _ Hi), (isAncestorPath_same _ _ _ Ho). reflexivity.
Qed.

End MoreValidation.

(** ** The transform, phase by phase *)

Section TransformProperties.

Context {host : Host}.


End TransformProperties.

Section PrimaryTransform.

Context {host : Host}.

Lemma generatePackageExports_returns (e : NgEntryPoint) (entryPoints : list EntryPointNode)
      (w : World) :
  exists result w', generatePackageExports e entryPoints w = (Return result, w')
                    /\ extends w w'.
Proof.
  unfold generatePackageExports.
  destruct (insertMappingOrError_run "./package.json" [("default", "./package.json")]
              (default [] (exports (packageJson e))) w)
    as (e1 & w1 & Hrun1 & Hext1 & _).
  destruct (insertEntryPoints_run (cwd w) (destinationPath e) entryPoints e1 w1)
    as (result & w' & Hrun & Hext & _).
  exists result, w'. split; [|eapply extends_trans; eassumption].
  rewrite (bind_return _ _ w w w) by reflexivity.
  rewrite (bind_return _ _ w w1 e1 Hrun1). exact Hrun.
Qed.

(** The transform of a primary entry point, phase by phase. *)
Lemma transform_primary (options : NgPackagrOptions) (entryPoints : list EntryPointNode)
      (ngPackage : NgPackage) (w : World) (node : EntryPointNode) :
  List.find inProgress entryPoints = Some node ->
  isSecondaryEntryPoint (entryPoint node) = false ->
  writePackageTransform options entryPoints ngPackage w =
  match copyAssets node ngPackage entryPoints (snd (emit (SpinnerStart "Copying assets") w)) with
  | (Throw e, w2) => (Throw e, snd (emit SpinnerFail w2))
  | (Return _, w2) =>
      match generatePackageExports (entryPoint node) entryPoints
              (manifestStart options ngPackage w2) with
      | (Throw e, w5) => (Throw e, snd (emit SpinnerFail w5))
      | (Return generated, w5) =>
          match writePackageJson (entryPoint node) ngPackage (additionalOf w2 node generated)
                  (watch options) (compilationMode node) w5 with
          | (Throw e, w6) => (Throw e, snd (emit SpinnerFail w6))
          | (Return _, w6) => (Return tt, finished node w6)
          end
      end
  end.
Proof.
  intros Hfind Hsec. unfold writePackageTransform. rewrite Hfind, Hsec. simpl.
  unfold bind at 1. unfold bind at 1. unfold bind at 1.
  change (emit (SpinnerStart "Copying assets") w)
    with (Return tt, snd (emit (SpinnerStart "Copying assets") w)).
  cbv beta iota.
  unfold bind at 1. unfold tryCatch at 1.
  destruct (copyAssets node ngPackage entryPoints _) as [[[]|e] w2]; [|reflexivity].
  cbv beta iota.
  change (emit (SpinnerSucceed None) w2) with (Return tt, snd (emit (SpinnerSucceed None) w2)).
  cbv beta iota.
  unfold bind at 1. unfold getWorld at 1. cbv beta iota.
  unfold bind at 1. unfold bind at 1. unfold tryCatch at 1.
  unfold bind at 1.
  change (emit (SpinnerStart "Writing package manifest") (snd (emit (SpinnerSucceed None) w2)))
    with (Return tt, snd (emit (SpinnerStart "Writing package manifest")
                               (snd (emit (SpinnerSucceed None) w2)))).
  cbv beta iota.
  unfold bind at 1.
  assert (Hstart :
            (if negb (watch options)
             then Fs.writeFile (Path.join [destinationPath (primary ngPackage); ".npmignore"])
                               (Text npmignoreText)
             else ret tt)
              (snd (emit (SpinnerStart "Writing package manifest")
                         (snd (emit (SpinnerSucceed None) w2))))
            = (Return tt, manifestStart options ngPackage w2)).
  { unfold manifestStart, npmignorePath. destruct (watch options); reflexivity. }
  rewrite Hstart. cbv beta iota.
  unfold bind at 1.
  destruct (generatePackageExports (entryPoint node) entryPoints _) as [[generated|e] w5];
    [|reflexivity].
  cbv beta iota.
  change (cwd (snd (emit (SpinnerSucceed None) w2))) with (cwd w2).
  fold (additionalOf w2 node generated).
  destruct (writePackageJson _ _ _ _ _ w5) as [[[]|e] w6]; reflexivity.
Qed.

Lemma manifestStart_facts (options : NgPackagrOptions) (ngPackage : NgPackage) (w2 : World) :
  cwd (manifestStart options ngPackage w2) = cwd w2
  /\ fsops (manifestStart options ngPackage w2)
     = fsops w2 ++ (if watch options then []
                    else [OpWriteFile (npmignorePath ngPackage) (Text npmignoreText)])
  /\ fs (manifestStart options ngPackage w2)
     = (if watch options then fs w2
        else <[Fs.key w2 (npmignorePath ngPackage) := File (Text npmignoreText)]> (fs w2))
  /\ events (manifestStart options ngPackage w2)
     = events w2 ++ [SpinnerSucceed None; SpinnerStart "Writing package manifest"].
Proof.
  unfold manifestStart. destruct (watch options); simpl.
  - rewrite app_nil_r, <- app_assoc. repeat split.
  - rewrite <- app_assoc. repeat split.
Qed.

(** A file of a given name in one directory and a file of another name in
    a directory are at different places. *)
Lemma join_name_ne (cwd0 d1 d2 n1 n2 : string) :
  plain n1 -> slashFree n1 -> plain n2 -> slashFree n2 -> n1 <> n2 ->
  Path.resolveSegs cwd0 (Path.join [d1; n1]) <> Path.resolveSegs cwd0 (Path.join [d2; n2]).
Proof.
  intros Hp1 Hs1 Hp2 Hs2 Hne.
  rewrite !resolveSegs_join_name by assumption.
  intros E. apply app_inj_tail in E as [_ E]. contradiction.
Qed.

(** X7. When copying the assets of a primary entry point fails, the
    transform reports the failure and throws the same error: apart from
    the files copied before the failure, nothing reaches the disk, neither
    [.npmignore] nor a manifest. *)
Theorem asset_failure_aborts_transform
        (options : NgPackagrOptions) (entryPoints : list EntryPointNode)
        (ngPackage : NgPackage) (w : World) (node : EntryPointNode) (message : string) :
  List.find inProgress entryPoints = Some node ->
  isSecondaryEntryPoint (entryPoint node) = false ->
  fst (copyAssets node ngPackage entryPoints (snd (emit (SpinnerStart "Copying assets") w)))
  = Throw message ->
  let run := writePackageTransform options entryPoints ngPackage w in
  exists copies,
    fst run = Throw message
    /\ events (snd run) = events w ++ [SpinnerStart "Copying assets"; SpinnerFail]
    /\ fsops (snd run) = fsops w ++ List.map copyOp copies
    /\ (forall k, (forall c, In c copies -> Fs.key w (snd c) <> k) ->
                  fs (snd run) !! k = fs w !! k).
Proof.
  intros Hfind Hsec Hfail run. unfold run.
  rewrite (transform_primary options entryPoints ngPackage w node Hfind Hsec).
  destruct (copyAssets_effect node ngPackage entryPoints
              (snd (emit (SpinnerStart "Copying assets") w)))
    as (copies & Hcwd & _ & Hev & Hops & _ & _ & _ & _ & Hfs).
  destruct (copyAssets node ngPackage entryPoints _) as [[[]|e] w2];
    simpl in Hfail; [discriminate Hfail|].
  injection Hfail as ->. exists copies. simpl in *.
  split; [reflexivity|]. split; [rewrite Hev, <- app_assoc; reflexivity|].
  split; [exact Hops|exact Hfs].
Qed.

(** X8. Whenever the transform of a primary entry point returns, what it
    has done to the disk is, in this order: the asset copies, the write
    of [.npmignore] unless in watch mode, and the write of the manifest,
    which carries the module id as name. Both files are on disk, and the
    last reports are the two successes. *)
Theorem primary_transform_operations
        (options : NgPackagrOptions) (entryPoints : list EntryPointNode)
        (ngPackage : NgPackage) (w : World) (node : EntryPointNode) :
  List.find inProgress entryPoints = Some node ->
  isSecondaryEntryPoint (entryPoint node) = false ->
  let run := writePackageTransform options entryPoints ngPackage w in
  fst run = Return tt ->
  exists copies m earlier,
    fsops (snd run)
    = fsops w ++ List.map copyOp copies
      ++ (if watch options then []
          else [OpWriteFile (npmignorePath ngPackage) (Text npmignoreText)])
      ++ [OpWriteFile (manifestPath (entryPoint node)) (Json m)]
    /\ name m = Some (moduleId (entryPoint node))
    /\ fs (snd run) !! Fs.key w (manifestPath (entryPoint node)) = Some (File (Json m))
    /\ (watch options = false ->
        fs (snd run) !! Fs.key w (npmignorePath ngPackage) = Some (File (Text npmignoreText)))
    /\ events (snd run)
       = events w ++ [SpinnerStart "Copying assets"; SpinnerSucceed None;
                      SpinnerStart "Writing package manifest"]
         ++ earlier
         ++ [SpinnerSucceed None;
             SpinnerSucceed (Some ("Built " +:+ moduleId (entryPoint node)))].
Proof.
  intros Hfind Hsec run. unfold run.
  rewrite (transform_primary options entryPoints ngPackage w node Hfind Hsec).
  destruct (copyAssets_effect node ngPackage entryPoints
              (snd (emit (SpinnerStart "Copying assets") w)))
    as (copies & Hcwd2 & _ & Hev2 & Hops2 & _ & _ & _ & _ & _).
  destruct (copyAssets node ngPackage entryPoints _) as [[[]|e] w2];
    [|intros H; discriminate H].
  simpl in Hcwd2, Hev2, Hops2.
  destruct (manifestStart_facts options ngPackage w2) as (Hcwd4 & Hops4 & Hfs4 & Hev4).
  destruct (generatePackageExports_returns (entryPoint node) entryPoints
              (manifestStart options ngPackage w2))
    as (generated & w5 & Hgen & (Hcwd5 & _ & Hfs5 & Hops5 & _ & more5 & Hev5)).
  rewrite Hgen.
  destruct (first_invalid (allowedNonPeerDependencies ngPackage))
    as [Hvalid|(pre & bad & post & message & Hsplit & Hpre & Hbad)].
  2:{ destruct (writePackageJson_invalid (entryPoint node) ngPackage
                  (additionalOf w2 node generated) (watch options) (compilationMode node)
                  w5 pre bad post message Hsplit Hpre Hbad) as (p2 & w6 & _ & _ & Hrun).
      rewrite Hrun. intros H. discriminate H. }
  destruct (writePackageJson_run (entryPoint node) ngPackage (additionalOf w2 node generated)
              (watch options) (compilationMode node) w5 Hvalid)
    as (p2 & w6 & _ & Hext6 & [Hfail|Hok]).
  { destruct Hfail as (pre & d & post & w7 & _ & _ & _ & _ & _ & Hrun).
    rewrite Hrun. intros H. discriminate H. }
  destruct Hok as (m & w7 & _ & Hext7 & Hrun & Hname & _).
  rewrite Hrun. intros _.
  destruct (extends_trans _ _ _ Hext6 Hext7) as (Hcwd7 & _ & Hfs7 & Hops7 & _ & more7 & Hev7).
  assert (Hkey : forall p, Fs.key w7 p = Fs.key w p).
  { intros p. unfold Fs.key. rewrite Hcwd7, Hcwd5, Hcwd4, Hcwd2. reflexivity. }
  assert (Hkey2 : forall p, Fs.key w2 p = Fs.key w p).
  { intros p. unfold Fs.key. rewrite Hcwd2. reflexivity. }
  exists copies, m, (more5 ++ more7). simpl.
  split.
  { rewrite Hops7, Hops5, Hops4, Hops2, <- !app_assoc. reflexivity. }
  split; [exact Hname|].
  split; [rewrite Hkey; apply lookup_insert_eq|].
  split.
  - intros Hwatch. rewrite Hkey, lookup_insert_ne.
    + rewrite Hfs7, Hfs5, Hfs4, Hwatch, Hkey2. apply lookup_insert_eq.
    + unfold Fs.key, manifestPath, npmignorePath.
      apply join_name_ne; try (repeat split; discriminate); simpl; tauto.
  - rewrite Hev7, Hev5, Hev4, Hev2, <- !app_assoc. reflexivity.
Qed.

(** X9. When the allow-list is one of regular expressions and a declared
    dependency matches none of them, the transform of
    a primary entry point whose assets were copied reports the failure
    and throws the gate's error, and the destination directory of the
    entry point is gone with all that the run had put there: the copied
    assets, [.npmignore], and whatever else was at or below it. *)
Theorem gate_failure_empties_destination
        (options : NgPackagrOptions) (entryPoints : list EntryPointNode)
        (ngPackage : NgPackage) (w : World) (node : EntryPointNode) (dep : string) :
  List.find inProgress entryPoints = Some node ->
  isSecondaryEntryPoint (entryPoint node) = false ->
  fst (copyAssets node ngPackage entryPoints (snd (emit (SpinnerStart "Copying assets") w)))
  = Return tt ->
  (forall value, In value (allowedNonPeerDependencies ngPackage) ->
                 regexpSyntaxError value = None) ->
  In dep (Obj.keys (default [] (dependencies (packageJson (entryPoint node))))) ->
  isAllowed (allowedNonPeerDependencies ngPackage) dep = false ->
  let run := writePackageTransform options entryPoints ngPackage w in
  exists d copies earlier,
    fst run = Throw (notAllowedMessage d)
    /\ In d (Obj.keys (default [] (dependencies (packageJson (entryPoint node)))))
    /\ isAllowed (allowedNonPeerDependencies ngPackage) d = false
    /\ fsops (snd run)
       = fsops w ++ List.map copyOp copies
         ++ (if watch options then []
             else [OpWriteFile (npmignorePath ngPackage) (Text npmignoreText)])
         ++ [OpRmdir (destinationPath (entryPoint node))]
    /\ (forall k, Fs.key w (destinationPath (entryPoint node)) `prefix_of` k ->
                  fs (snd run) !! k = None)
    /\ (forall c, In c copies ->
                  Fs.key w (destinationPath (entryPoint node)) `prefix_of` Fs.key w (snd c) ->
                  fs (snd run) !! Fs.key w (snd c) = None)
    /\ (destinationPath (primary ngPackage) = destinationPath (entryPoint node) ->
        fs (snd run) !! Fs.key w (npmignorePath ngPackage) = None)
    /\ events (snd run) = earlier ++ [SpinnerFail].
Proof.
  intros Hfind Hsec Hassets Hvalid Hin Hno run. unfold run.
  rewrite (transform_primary options entryPoints ngPackage w node Hfind Hsec).
  destruct (copyAssets_effect node ngPackage entryPoints
              (snd (emit (SpinnerStart "Copying assets") w)))
    as (copies & Hcwd2 & _ & Hev2 & Hops2 & _ & _ & _ & _ & _).
  destruct (copyAssets node ngPackage entryPoints _) as [[[]|e] w2];
    [|discriminate Hassets].
  simpl in Hcwd2, Hev2, Hops2.
  destruct (manifestStart_facts options ngPackage w2) as (Hcwd4 & Hops4 & Hfs4 & Hev4).
  destruct (generatePackageExports_returns (entryPoint node) entryPoints
              (manifestStart options ngPackage w2))
    as (generated & w5 & Hgen & (Hcwd5 & _ & Hfs5 & Hops5 & _ & more5 & Hev5)).
  rewrite Hgen.
  destruct (writePackageJson_run (entryPoint node) ngPackage (additionalOf w2 node generated)
              (watch options) (compilationMode node) w5 Hvalid)
    as (p2 & w6 & Hbefore & Hext6 & Hcases).
  destruct (beforeGate_keys _ _ _ _ _ _ Hbefore) as (extra & Hkeys & _).
  destruct Hcases as [Hfail|Hok].
  - destruct Hfail as (pre & d & post & w7 & Hsplit & Hpre & Hd & Hext7 & _ & Hrun).
    rewrite Hrun. rewrite Hkeys in Hsplit.
    destruct (first_failure_in_prefix _ _ _ _ _ _ _ Hsplit Hpre Hd Hin Hno) as (post' & Hdecl).
    destruct (extends_trans _ _ _ Hext6 Hext7) as (Hcwd7 & _ & Hfs7 & Hops7 & _ & more7 & Hev7).
    assert (Hkey : forall p, Fs.key w7 p = Fs.key w p).
    { intros p. unfold Fs.key. rewrite Hcwd7, Hcwd5, Hcwd4, Hcwd2. reflexivity. }
    assert (Hgone : forall k, Fs.key w (destinationPath (entryPoint node)) `prefix_of` k ->
                              fs (rolledBack (entryPoint node) w7) !! k = None).
    { intros k Hk. apply rmdir_removes. rewrite Hkey. exact Hk. }
    exists d, copies, (events w7). simpl.
    split; [reflexivity|].
    split; [rewrite Hdecl; apply in_or_app; right; left; reflexivity|].
    split; [exact Hd|].
    split; [rewrite Hops7, Hops5, Hops4, Hops2, <- !app_assoc; reflexivity|].
    split; [exact Hgone|]. split; [intros c _ Hc; apply Hgone, Hc|].
    split; [|reflexivity].
    intros Hsame. apply Hgone. unfold Fs.key, npmignorePath. rewrite Hsame.
    rewrite resolveSegs_join_name; [apply prefix_app_r; reflexivity| |].
    + repeat split; discriminate.
    + simpl. tauto.
  - exfalso. destruct Hok as (m & w7 & Hall & _).
    rewrite Hkeys in Hall.
    rewrite (Hall dep) in Hno; [discriminate|]. apply in_or_app. left. exact Hin.
Qed.

End PrimaryTransform.

(** ** The written manifest, property by property *)

Lemma del_absent {V} (k : string) (o : Obj.t V) : Obj.has k o = false -> Obj.del k o = o.
Proof.
  unfold Obj.has. induction o as [|[k' v'] r IH]; simpl; [reflexivity|].
  destruct (String.eqb k' k); [discriminate|]. intros H. rewrite IH by exact H. reflexivity.
Qed.

Lemma keys_del {V} (k : string) (o : Obj.t V) :
  Obj.keys (Obj.del k o) = List.filter (fun k' => negb (String.eqb k' k)) (Obj.keys o).
Proof.
  induction o as [|[k' v'] r IH]; simpl; [reflexivity|].
  destruct (String.eqb k' k); simpl; [exact IH|]. rewrite <- IH. reflexivity.
Qed.

Lemma get_stripped_in (props : list string) (o : Obj.t string) (k : string) :
  In k props -> Obj.get k (stripped props o) = None.
Proof.
  unfold stripped. revert o. induction props as [|prop props IH]; intros o; [intros []|].
  simpl. intros [->|Hin]; [|apply IH, Hin].
  assert (Hkeep : forall (l : list string) (o' : Obj.t string), Obj.get k o' = None ->
                               Obj.get k (fold_left (fun o'' prop => Obj.del prop o'') l o') = None).
  { induction l as [|x l IHl]; intros o' H; [exact H|]. simpl. apply IHl.
    destruct (String.eqb_spec x k) as [->|Hne]; [apply get_del_eq|].
    rewrite get_del_ne by exact Hne. exact H. }
  apply Hkeep, get_del_eq.
Qed.

Lemma get_stripped_out (props : list string) (o : Obj.t string) (k : string) :
  ~ In k props -> Obj.get k (stripped props o) = Obj.get k o.
Proof.
  unfold stripped. revert o. induction props as [|prop props IH]; intros o Hout; [reflexivity|].
  simpl. rewrite IH by (intros H; apply Hout; right; exact H).
  apply get_del_ne. intros ->. apply Hout. left. reflexivity.
Qed.

Lemma keys_stripped (props : list string) (o : Obj.t string) :
  Obj.keys (stripped props o)
  = List.filter (fun k => negb (existsb (String.eqb k) props)) (Obj.keys o).
Proof.
  unfold stripped. revert o. induction props as [|prop props IH]; intros o; simpl.
  - induction (Obj.keys o) as [|k ks IHk]; [reflexivity|]. simpl. rewrite <- IHk. reflexivity.
  - rewrite IH, keys_del. induction (Obj.keys o) as [|k ks IHk]; [reflexivity|].
    simpl. destruct (String.eqb k prop); simpl; [exact IHk|].
    destruct (existsb (String.eqb k) props); simpl; [exact IHk|]. rewrite IHk. reflexivity.
Qed.

Section ManifestProperties.

Context {host : Host}.

Lemma sameProperties_refl (p : PackageJson) : sameProperties p p.
Proof. repeat split. Qed.

Lemma sameProperties_trans (p1 p2 p3 : PackageJson) :
  sameProperties p1 p2 -> sameProperties p2 p3 -> sameProperties p1 p3.
Proof.
  unfold sameProperties. intros (?&?&?&?&?&?&?) (?&?&?&?&?&?&?). repeat split; congruence.
Qed.

(** The [tslib] block touches [tslib] alone. *)
Lemma tslibBlock_frame (p p' : PackageJson) (w w' : World) :
  tslibBlock p w = (Return p', w') ->
  sameProperties p p'
  /\ (forall k, k <> "tslib" ->
                Obj.optGet k (dependencies p') = Obj.optGet k (dependencies p))
  /\ (forall k, k <> "tslib" ->
                Obj.optGet k (peerDependencies p') = Obj.optGet k (peerDependencies p))
  /\ (truthy (Obj.optGet "tslib" (peerDependencies p)) = false ->
      peerDependencies p' = peerDependencies p
      /\ w' = w
      /\ (truthy (Obj.optGet "tslib" (dependencies p)) = true ->
          dependencies p' = dependencies p)).
Proof.
  assert (Hset : forall v k, k <> "tslib" ->
             Obj.get k (Obj.set "tslib" v (default [] (dependencies p)))
             = Obj.optGet k (dependencies p)).
  { intros v k Hk. rewrite get_set_ne by congruence.
    destruct (dependencies p); reflexivity. }
  assert (Hdel : forall k, k <> "tslib" ->
             Obj.get k (Obj.del "tslib" (default [] (peerDependencies p)))
             = Obj.optGet k (peerDependencies p)).
  { intros k Hk. rewrite get_del_ne by congruence.
    destruct (peerDependencies p); reflexivity. }
  unfold tslibBlock.
  destruct (truthy (Obj.optGet "tslib" (peerDependencies p))) eqn:Epeer; simpl.
  - destruct (Obj.optGet "tslib" (peerDependencies p)) as [pv|]; [|discriminate Epeer].
    simpl in Epeer. rewrite Epeer. intros H. injection H as <- <-. simpl.
    split; [repeat split|]. split; [intros k Hk; apply Hset, Hk|].
    split; [intros k Hk; apply Hdel, Hk|]. intros H. discriminate H.
  - destruct (truthy (Obj.optGet "tslib" (dependencies p))) eqn:Edep; simpl.
    + assert (Hsame : tslibBlock p w = (Return p, w)
                      -> (Return p, w) = (Return p', w') -> p' = p /\ w' = w).
      { intros _ H. injection H as <- <-. split; reflexivity. }
      destruct (Obj.optGet "tslib" (peerDependencies p)) as [pv|].
      * simpl in Epeer. rewrite Epeer. intros H. injection H as <- <-.
        split; [repeat split|]. repeat split; reflexivity.
      * intros H. injection H as <- <-.
        split; [repeat split|]. repeat split; reflexivity.
    + destruct compilerTslibVersion as [cv|].
      * destruct (Str.nonEmpty cv).
        -- intros H. injection H as <- <-. simpl.
           split; [repeat split|]. split; [intros k Hk; apply Hset, Hk|].
           split; [reflexivity|]. intros _. split; [reflexivity|]. split; [reflexivity|].
           intros H. discriminate H.
        -- intros H. injection H as <- <-.
           split; [repeat split|]. repeat split; reflexivity.
      * intros H. injection H as <- <-.
        split; [repeat split|]. repeat split; reflexivity.
Qed.

Lemma scriptsBlock_frame (pkg : NgPackage) (p p' : PackageJson) (w w' : World) :
  scriptsBlock pkg p w = (Return p', w') ->
  sameProperties p p'
  /\ (scripts p <> None ->
      In (if keepLifecycleScripts pkg then SpinnerWarn keepScriptsWarning
          else SpinnerInfo removingScriptsInfo) (events w')).
Proof.
  unfold scriptsBlock. destruct (scripts p) as [sc|].
  - destruct (keepLifecycleScripts pkg); simpl; intros H; injection H as <- <-.
    + split; [repeat split|]. intros _. simpl. apply in_or_app. right. left. reflexivity.
    + split; [repeat split|]. intros _. simpl. apply in_or_app. right. left. reflexivity.
  - intros H. injection H as <- <-. split; [repeat split|]. intros H. congruence.
Qed.

Lemma guardBlock_frame (mode : option CompilationMode) (p : PackageJson) :
  sameProperties p (guardBlock mode p).
Proof. destruct mode as [[|]|]; repeat split. Qed.

(** The strip loop deletes the listed properties and nothing else, and
    reports each one it finds. *)
Lemma stripProperties_frame (props : list string) (p p' : PackageJson) (w w' : World) :
  stripProperties props p w = (Return p', w') ->
  other p' = stripped props (other p)
  /\ name p' = name p /\ module_ p' = module_ p /\ typings p' = typings p
  /\ exports p' = exports p /\ sideEffects p' = sideEffects p
  /\ ngPackage p' = ngPackage p
  /\ (forall k, In k props -> Obj.has k (other p) = true -> In (removingInfo k) (events w'))
  /\ (forall ev, In ev (events w') ->
                 In ev (events w)
                 \/ exists k, In k props /\ Obj.has k (other p) = true /\ ev = removingInfo k).
Proof.
  revert p w. induction props as [|prop props IH]; intros p w; simpl.
  - intros H. injection H as <- <-. repeat split; try reflexivity.
    + intros k [].
    + intros ev Hev. left. exact Hev.
  - destruct (Obj.has prop (other p)) eqn:Ehas.
    + intros H.
      destruct (stripProperties_run props (setOther (Obj.del prop (other p)) p)
                  (snd (emit (removingInfo prop) w))) as (q & wq & Hq & Hext & _).
      change (stripProperties props (setOther (Obj.del prop (other p)) p)
                (snd (emit (removingInfo prop) w)) = (Return p', w')) in H.
      destruct (IH _ _ H) as (Ho & Hn & Hm & Ht & He & Hs & Hg & Hlog & Honly).
      simpl in Ho, Hn, Hm, Ht, He, Hs, Hg.
      rewrite Hq in H. injection H as -> ->.
      split; [exact Ho|]. repeat (split; [assumption|]).
      split.
      * intros k [<-|Hk] Hhas.
        -- apply (extends_event _ _ _ Hext). simpl. apply in_or_app. right. left. reflexivity.
        -- destruct (String.eqb_spec prop k) as [->|Hne].
           ++ apply (extends_event _ _ _ Hext). simpl. apply in_or_app. right. left. reflexivity.
           ++ apply Hlog; [exact Hk|]. simpl. unfold Obj.has in *.
              rewrite get_del_ne by exact Hne. exact Hhas.
      * intros ev Hev. destruct (Honly ev Hev) as [Hold|(k & Hk & Hhas & ->)].
        -- simpl in Hold. apply in_app_or in Hold as [Hold|[<-|[]]]; [left; exact Hold|].
           right. exists prop. split; [left; reflexivity|]. split; [exact Ehas|reflexivity].
        -- right. exists k. split; [right; exact Hk|]. split; [|reflexivity].
           simpl in Hhas. unfold Obj.has in *.
           destruct (String.eqb_spec prop k) as [->|Hne]; [exact Ehas|].
           rewrite get_del_ne in Hhas by exact Hne. exact Hhas.
    + intros H. destruct (IH _ _ H) as (Ho & Hn & Hm & Ht & He & Hs & Hg & Hlog & Honly).
      split; [rewrite Ho; unfold stripped; simpl;
              rewrite (del_absent prop (other p) Ehas); reflexivity|].
      repeat (split; [assumption|]).
      split.
      * intros k [<-|Hk] Hhas; [congruence|]. apply Hlog; assumption.
      * intros ev Hev. destruct (Honly ev Hev) as [Hold|(k & Hk & Hhas & ->)];
          [left; exact Hold|].
        right. exists k. split; [right; exact Hk|]. split; [exact Hhas|reflexivity].
Qed.

(** What a write that returns has put on disk, property by property. *)
Lemma written_properties (e : NgEntryPoint) (pkg : NgPackage) (add : AdditionalProperties)
      (isWatchMode : bool) (mode : option CompilationMode) (w : World) :
  fst (writePackageJson e pkg add isWatchMode mode w) = Return tt ->
  exists m p2 w2,
    beforeGate e add isWatchMode w = (Return p2, w2)
    /\ fs (snd (writePackageJson e pkg add isWatchMode mode w))
       = <[Fs.key w (manifestPath e) := File (Json m)]> (fs w)
    /\ sameProperties (mergeProperties (packageJson e) add) p2
    /\ name m = Some (moduleId e)
    /\ module_ m = Some (add_module add) /\ typings m = Some (add_typings add)
    /\ exports m = Some (add_exports add) /\ sideEffects m = Some (add_sideEffects add)
    /\ ngPackage m = None
    /\ other m = stripped packageJsonPropertiesToDelete (other (packageJson e))
    /\ dependencies m = dependencies p2
    /\ peerDependencies m = peerDependencies p2
    /\ scripts m =
       scripts (guardBlock mode
                  (setScripts (if keepLifecycleScripts pkg then scripts p2 else None) p2))
    /\ (forall k, In k packageJsonPropertiesToDelete ->
                  Obj.has k (other (packageJson e)) = true ->
                  In (removingInfo k)
                     (events (snd (writePackageJson e pkg add isWatchMode mode w))))
    /\ (scripts p2 <> None ->
        In (if keepLifecycleScripts pkg then SpinnerWarn keepScriptsWarning
            else SpinnerInfo removingScriptsInfo)
           (events (snd (writePackageJson e pkg add isWatchMode mode w))))
    /\ version m = version p2.
Proof.
  intros Hret.
  pose proof (writePackageJson_compiled e pkg add isWatchMode mode w Hret) as Hvalid.
  revert Hret.
  unfold beforeGate, writePackageJson.
  set (p0 := mergeProperties (packageJson e) add).
  set (p1 := if isWatchMode then setVersion (Some (watchVersionOf (clock w))) p0 else p0).
  set (w1 := snd (emit (LogDebug "Writing package.json") w)).
  assert (H01 : sameProperties p0 p1).
  { unfold p1. destruct isWatchMode; repeat split. }
  destruct (tslibBlock_run p1 w1) as (p2 & w2 & Hts & Hext2 & _).
  destruct (tslibBlock_frame p1 p2 w1 w2 Hts) as (H12 & _).
  assert (Hhead : forall K : PackageJson -> list string -> M unit,
             (emit (LogDebug "Writing package.json") ;;
              let* packageJson0 :=
                (if isWatchMode
                 then let* v := generateWatchVersion in ret (setVersion (Some v) p0)
                 else ret p0) in
              let* packageJson1 := tslibBlock packageJson0 in
              let* allowedList := mapM newRegExp (allowedNonPeerDependencies pkg) in
              K packageJson1 allowedList) w
             = K p2 (allowedNonPeerDependencies pkg) w2).
  { intros K. rewrite (bind_return _ _ w w1 tt) by reflexivity.
    rewrite (bind_return _ _ w1 w1 p1) by (unfold p1; destruct isWatchMode; reflexivity).
    rewrite (bind_return _ _ w1 w2 p2 Hts).
    rewrite (bind_return _ _ w2 w2 (allowedNonPeerDependencies pkg))
      by (apply mapM_newRegExp_valid; exact Hvalid).
    reflexivity. }
  rewrite Hhead. clear Hhead.
  destruct (checkNonPeerDependencies_run p2 (allowedNonPeerDependencies pkg) w2)
    as [(w3 & Hrun & Hext3 & Hall)|(pre & d & post & w3 & Hsplit & Hpre & Hd & Hrun & Hext3 & Hin)].
  - destruct (scriptsBlock_run pkg p2 w3) as (p3 & w4 & Hsc & Hext4 & Hs3 & Hv3 & Hd3 & Hp3).
    destruct (scriptsBlock_frame pkg p2 p3 w3 w4 Hsc) as (H23 & Hscev).
    destruct (stripProperties_run packageJsonPropertiesToDelete
                (setNgPackage None (guardBlock mode p3)) w4)
      as (p4 & w5 & Hst & Hext5 & (Hv4 & Hs4 & Hd4 & Hp4)).
    destruct (stripProperties_frame _ _ _ _ _ Hst)
      as (Ho & Hn & Hm & Ht & He & Hse & Hg & Hlog & _).
    rewrite (bind_return _ _ w2 w3 tt) by (apply tryCatch_return; exact Hrun).
    rewrite (bind_return _ _ w3 w4 p3 Hsc).
    rewrite (bind_return _ _ w4 w5 p4 Hst).
    intros _. exists (setName (Some (moduleId e)) p4), p2, w2.
    pose proof (sameProperties_trans _ _ _ H01 H12) as H02.
    pose proof (sameProperties_trans _ _ _ H02 H23) as H03.
    pose proof (guardBlock_frame mode p3) as H3g.
    pose proof (sameProperties_trans _ _ _ H03 H3g) as (Gn & Gm & Gt & Ge & Gs & Gg & Go).
    destruct (extends_trans _ _ _ (extends_emit (LogDebug "Writing package.json") w)
                (extends_trans _ _ _ Hext2
                   (extends_trans _ _ _ Hext3 (extends_trans _ _ _ Hext4 Hext5))))
      as (Hcwd & _ & Hfs & _).
    split; [exact Hts|].
    split; [simpl; unfold Fs.key; rewrite Hcwd, Hfs; reflexivity|].
    split; [exact H02|]. split; [reflexivity|].
    split; [simpl; rewrite Hm; exact Gm|]. split; [simpl; rewrite Ht; exact Gt|].
    split; [simpl; rewrite He; exact Ge|]. split; [simpl; rewrite Hse; exact Gs|].
    split; [exact Hg|].
    split; [simpl; rewrite Ho; exact (f_equal (stripped packageJsonPropertiesToDelete) Go)|].
    split. { simpl. rewrite Hd4. destruct mode as [[|]|]; simpl; exact Hd3. }
    split. { simpl. rewrite Hp4. destruct mode as [[|]|]; simpl; exact Hp3. }
    split.
    { simpl. rewrite Hs4. destruct mode as [[|]|]; simpl; rewrite ?Hs3; reflexivity. }
    split.
    { intros k Hk Hhas. apply Hlog; [exact Hk|].
      change (Obj.has k (other (guardBlock mode p3)) = true). rewrite Go. exact Hhas. }
    split; [intros Hsome; apply (extends_event w4 w5 _ Hext5), Hscev, Hsome|].
    simpl. rewrite Hv4. destruct mode as [[|]|]; simpl; exact Hv3.
  - rewrite (bind_throw _ _ w2 (rolledBack e w3) (notAllowedMessage d)).
    + intros H. discriminate H.
    + rewrite (tryCatch_throw _ _ w2 w3 _ Hrun). reflexivity.
Qed.

(** What the manifest seen by the gate owes to the declared one. *)
Lemma beforeGate_frame (e : NgEntryPoint) (add : AdditionalProperties) (isWatchMode : bool)
      (w w2 : World) (p2 : PackageJson) :
  beforeGate e add isWatchMode w = (Return p2, w2) ->
  (forall k, k <> "tslib" ->
             Obj.optGet k (dependencies p2) = Obj.optGet k (dependencies (packageJson e)))
  /\ (forall k, k <> "tslib" ->
                Obj.optGet k (peerDependencies p2)
                = Obj.optGet k (peerDependencies (packageJson e)))
  /\ (truthy (Obj.optGet "tslib" (peerDependencies (packageJson e))) = false ->
      peerDependencies p2 = peerDependencies (packageJson e)
      /\ events w2 = events w ++ [LogDebug "Writing package.json"]
      /\ (truthy (Obj.optGet "tslib" (dependencies (packageJson e))) = true ->
          dependencies p2 = dependencies (packageJson e))).
Proof.
  unfold beforeGate. intros H.
  set (p1 := if isWatchMode
             then setVersion (Some (watchVersionOf (clock w)))
                             (mergeProperties (packageJson e) add)
             else mergeProperties (packageJson e) add) in H.
  assert (H1 : dependencies p1 = dependencies (packageJson e)
               /\ peerDependencies p1 = peerDependencies (packageJson e)).
  { unfold p1. destruct isWatchMode; repeat split. }
  destruct H1 as (Hd1 & Hp1).
  destruct (tslibBlock_frame _ _ _ _ H) as (_ & Hdeps & Hpeers & Hquiet).
  rewrite Hd1, Hp1 in *.
  split; [exact Hdeps|]. split; [exact Hpeers|].
  intros Hno. destruct (Hquiet Hno) as (Hp & -> & Hd).
  split; [exact Hp|]. split; [reflexivity|exact Hd].
Qed.

(** X10. The manifest that [writePackageJson] writes is named after the
    module id and has the module, typings, export map and side-effects
    flag the transform computed, whatever the declared manifest says of
    them; the [ngPackage] configuration is not in it; outside watch mode
    the version is the declared one; and the manifest is the only path
    of the disk that the write changes. *)
Theorem computed_properties_replace_declared
        (e : NgEntryPoint) (pkg : NgPackage) (add : AdditionalProperties)
        (isWatchMode : bool) (mode : option CompilationMode) (w : World) :
  fst (writePackageJson e pkg add isWatchMode mode w) = Return tt ->
  exists m,
    fs (snd (writePackageJson e pkg add isWatchMode mode w))
    = <[Fs.key w (manifestPath e) := File (Json m)]> (fs w)
    /\ name m = Some (moduleId e)
    /\ module_ m = Some (add_module add) /\ typings m = Some (add_typings add)
    /\ exports m = Some (add_exports add) /\ sideEffects m = Some (add_sideEffects add)
    /\ ngPackage m = None
    /\ (isWatchMode = false -> version m = version (packageJson e)).
Proof.
  intros Hret.
  destruct (written_properties e pkg add isWatchMode mode w Hret)
    as (m & p2 & w2 & Hbefore & Hfs & _ & Hn & Hm & Ht & He & Hs & Hg
        & _ & _ & _ & _ & _ & _ & Hv).
  destruct (beforeGate_sections e add isWatchMode w w2 p2 Hbefore) as (_ & Hv2 & _).
  exists m. repeat (split; [assumption|]).
  intros ->. rewrite Hv. exact Hv2.
Qed.

(** X11. The sections [stylelint], [prettier], [browserslist],
    [devDependencies], [jest], [workspaces] and [husky] are not in the
    written manifest, and each one that was declared is reported as
    removed; every other property outside the sections the transform
    computes is written as declared, in the declared order. *)
Theorem development_sections_are_stripped
        (e : NgEntryPoint) (pkg : NgPackage) (add : AdditionalProperties)
        (isWatchMode : bool) (mode : option CompilationMode) (w : World) :
  fst (writePackageJson e pkg add isWatchMode mode w) = Return tt ->
  exists m,
    fs (snd (writePackageJson e pkg add isWatchMode mode w)) !! Fs.key w (manifestPath e)
    = Some (File (Json m))
    /\ (forall k, In k packageJsonPropertiesToDelete -> Obj.get k (other m) = None)
    /\ (forall k, ~ In k packageJsonPropertiesToDelete ->
                  Obj.get k (other m) = Obj.get k (other (packageJson e)))
    /\ Obj.keys (other m)
       = List.filter (fun k => negb (existsb (String.eqb k) packageJsonPropertiesToDelete))
                     (Obj.keys (other (packageJson e)))
    /\ (forall k, In k packageJsonPropertiesToDelete ->
                  Obj.has k (other (packageJson e)) = true ->
                  In (SpinnerInfo ("Removing " +:+ k +:+ " section in package.json."))
                     (events (snd (writePackageJson e pkg add isWatchMode mode w)))).
Proof.
  intros Hret.
  destruct (written_properties e pkg add isWatchMode mode w Hret)
    as (m & p2 & w2 & _ & Hfs & _ & _ & _ & _ & _ & _ & _ & Ho & _ & _ & _ & Hlog & _).
  exists m. split; [rewrite Hfs; apply lookup_insert_eq|]. rewrite Ho.
  split; [intros k Hk; apply get_stripped_in, Hk|].
  split; [intros k Hk; apply get_stripped_out, Hk|].
  split; [apply keys_stripped|exact Hlog].
Qed.

(** X12. Unless lifecycle scripts are kept, no declared script reaches the
    written manifest: in partial mode it has no scripts at all, otherwise
    the [prepublishOnly] guard is its only script. When scripts were
    declared, their removal is reported. *)
Theorem declared_scripts_are_removed
        (e : NgEntryPoint) (pkg : NgPackage) (add : AdditionalProperties)
        (isWatchMode : bool) (mode : option CompilationMode) (w : World) :
  keepLifecycleScripts pkg = false ->
  fst (writePackageJson e pkg add isWatchMode mode w) = Return tt ->
  exists m,
    fs (snd (writePackageJson e pkg add isWatchMode mode w)) !! Fs.key w (manifestPath e)
    = Some (File (Json m))
    /\ scripts m = match mode with
                   | Some Partial => None
                   | _ => Some [("prepublishOnly", prepublishOnlyGuard)]
                   end
    /\ (scripts (packageJson e) <> None ->
        In (SpinnerInfo removingScriptsInfo)
           (events (snd (writePackageJson e pkg add isWatchMode mode w)))).
Proof.
  intros Hkeep Hret.
  destruct (written_properties e pkg add isWatchMode mode w Hret)
    as (m & p2 & w2 & Hbefore & Hfs & _ & _ & _ & _ & _ & _ & _ & _ & _ & _ & Hs & _ & Hev & _).
  destruct (beforeGate_sections e add isWatchMode w w2 p2 Hbefore) as (Hs2 & _).
  rewrite Hkeep in Hs, Hev. rewrite Hs2 in Hev.
  exists m. split; [rewrite Hfs; apply lookup_insert_eq|].
  split; [|exact Hev]. rewrite Hs. destruct mode as [[|]|]; reflexivity.
Qed.

(** X13. The [tslib] block touches [tslib] alone: every other dependency
    and peer dependency is written as declared. When [tslib] is not a
    declared peer dependency the peer dependencies are written as they
    are, and when it is moreover a declared dependency so are the
    dependencies: the declared version is not replaced by the compiler's. *)
Theorem other_dependencies_are_untouched
        (e : NgEntryPoint) (pkg : NgPackage) (add : AdditionalProperties)
        (isWatchMode : bool) (mode : option CompilationMode) (w : World) :
  fst (writePackageJson e pkg add isWatchMode mode w) = Return tt ->
  exists m,
    fs (snd (writePackageJson e pkg add isWatchMode mode w)) !! Fs.key w (manifestPath e)
    = Some (File (Json m))
    /\ (forall k, k <> "tslib" ->
                  Obj.optGet k (dependencies m)
                  = Obj.optGet k (dependencies (packageJson e)))
    /\ (forall k, k <> "tslib" ->
                  Obj.optGet k (peerDependencies m)
                  = Obj.optGet k (peerDependencies (packageJson e)))
    /\ (truthy (Obj.optGet "tslib" (peerDependencies (packageJson e))) = false ->
        peerDependencies m = peerDependencies (packageJson e)
        /\ (truthy (Obj.optGet "tslib" (dependencies (packageJson e))) = true ->
            dependencies m = dependencies (packageJson e))).
Proof.
  intros Hret.
  destruct (written_properties e pkg add isWatchMode mode w Hret)
    as (m & p2 & w2 & Hbefore & Hfs & _ & _ & _ & _ & _ & _ & _ & _ & Hd & Hp & _).
  destruct (beforeGate_frame e add isWatchMode w w2 p2 Hbefore) as (Hdeps & Hpeers & Hquiet).
  exists m. split; [rewrite Hfs; apply lookup_insert_eq|]. rewrite Hd, Hp.
  split; [exact Hdeps|]. split; [exact Hpeers|].
  intros Hno. destruct (Hquiet Hno) as (H1 & _ & H2). split; assumption.
Qed.

(** The block injects the compiler's [tslib] when none is declared. *)
Lemma tslibBlock_injects (p : PackageJson) (w : World) (v : string) :
  truthy (Obj.optGet "tslib" (peerDependencies p)) = false ->
  truthy (Obj.optGet "tslib" (dependencies p)) = false ->
  compilerTslibVersion = Some v -> Str.nonEmpty v = true ->
  tslibBlock p w
  = (Return (setDependencies (Some (Obj.set "tslib" v (default [] (dependencies p)))) p), w).
Proof.
  intros Hp Hd Hv Hne. unfold tslibBlock. rewrite Hp, Hd, Hv, Hne. reflexivity.
Qed.

(** X14. The [tslib] that the transform itself injects goes through the
    dependency gate like a declared dependency: when the allow-list is
    one of regular expressions that match every declared dependency but
    not [tslib], a manifest that declares no [tslib] at all makes the
    write fail on [tslib], with the destination directory removed. *)
Theorem injected_tslib_must_be_allowed
        (e : NgEntryPoint) (pkg : NgPackage) (add : AdditionalProperties)
        (isWatchMode : bool) (mode : option CompilationMode) (w : World) (v : string) :
  (forall value, In value (allowedNonPeerDependencies pkg) ->
                 regexpSyntaxError value = None) ->
  truthy (Obj.optGet "tslib" (peerDependencies (packageJson e))) = false ->
  truthy (Obj.optGet "tslib" (dependencies (packageJson e))) = false ->
  compilerTslibVersion = Some v -> Str.nonEmpty v = true ->
  (forall d, In d (Obj.keys (default [] (dependencies (packageJson e)))) ->
             isAllowed (allowedNonPeerDependencies pkg) d = true) ->
  isAllowed (allowedNonPeerDependencies pkg) "tslib" = false ->
  exists w',
    writePackageJson e pkg add isWatchMode mode w = (Throw (notAllowedMessage "tslib"), w')
    /\ In (SpinnerWarn (notRecommendedWarning "dependencies" "tslib")) (events w')
    /\ fsops w' = fsops w ++ [OpRmdir (destinationPath e)]
    /\ (forall k, Fs.key w (destinationPath e) `prefix_of` k -> fs w' !! k = None).
Proof.
  intros Hvalid Hpeer Hdep Hv Hne Hall Hno.
  destruct (writePackageJson_run e pkg add isWatchMode mode w Hvalid)
    as (p2 & w2 & Hbefore & Hext2 & Hcases).
  destruct (beforeGate_keys e add isWatchMode w w2 p2 Hbefore) as (extra & Hkeys & Hextra).
  assert (Hin : In "tslib" (Obj.keys (default [] (dependencies p2)))).
  { unfold beforeGate in Hbefore.
    rewrite (tslibBlock_injects _ _ v) in Hbefore;
      try (destruct isWatchMode; assumption).
    injection Hbefore as <- _.
    assert (Hd : dependencies (if isWatchMode
                               then setVersion (Some (watchVersionOf (clock w)))
                                               (mergeProperties (packageJson e) add)
                               else mergeProperties (packageJson e) add)
                 = dependencies (packageJson e)) by (destruct isWatchMode; reflexivity).
    simpl. rewrite Hd. eapply get_some_in_keys, get_set_eq. }
  destruct Hcases as [Hfail|Hok].
  - destruct Hfail as (pre & d & post & w3 & Hsplit & Hpre & Hd & Hext3 & Hwarn & Hrun).
    assert (Hd' : In d (Obj.keys (default [] (dependencies (packageJson e))) ++ extra)).
    { rewrite <- Hkeys, Hsplit. apply in_or_app. right. left. reflexivity. }
    assert (Heq : d = "tslib").
    { apply in_app_or in Hd' as [Hd'|Hd'].
      - rewrite (Hall d Hd') in Hd. discriminate Hd.
      - destruct Hextra as [-> | ->]; [destruct Hd'|].
        destruct Hd' as [<-|[]]. reflexivity. }
    subst d.
    pose proof (extends_trans _ _ _ Hext2 Hext3) as (Hcwd & _ & Hfs & Hops & _).
    exists (rolledBack e w3). split; [exact Hrun|]. split; [exact Hwarn|].
    split; [simpl; rewrite Hops; reflexivity|].
    intros k Hk. apply rmdir_removes. unfold Fs.key in *. rewrite Hcwd. exact Hk.
  - exfalso. destruct Hok as (m & w3 & Hallowed & _).
    rewrite (Hallowed "tslib" Hin) in Hno. discriminate Hno.
Qed.

(** X24. An allow-list entry that is no regular expression stops the
    write before the dependency gate: [writePackageJson] throws the
    SyntaxError that [new RegExp] has for the first such entry, whatever
    the dependencies are, and has done nothing to the disk by then. The
    destination directory is not removed, and what it holds stays. *)
Theorem invalid_pattern_stops_before_gate
        (e : NgEntryPoint) (pkg : NgPackage) (add : AdditionalProperties)
        (isWatchMode : bool) (mode : option CompilationMode) (w : World)
        (pre : list string) (bad : string) (post : list string) (message : string) :
  allowedNonPeerDependencies pkg = pre ++ bad :: post ->
  (forall value, In value pre -> regexpSyntaxError value = None) ->
  regexpSyntaxError bad = Some message ->
  exists w',
    writePackageJson e pkg add isWatchMode mode w = (Throw message, w')
    /\ fsops w' = fsops w
    /\ fs w' = fs w.
Proof.
  intros Hsplit Hpre Hbad.
  destruct (writePackageJson_invalid e pkg add isWatchMode mode w pre bad post message
              Hsplit Hpre Hbad) as (p2 & w2 & _ & Hext & Hrun).
  exists w2. split; [exact Hrun|].
  destruct Hext as (_ & _ & Hfs & Hops & _).
  split; [exact Hops|exact Hfs].
Qed.

End ManifestProperties.

(** ** The gate, when it lets a manifest pass *)

Section GateLog.

Context {host : Host}.

Lemma checkDeps_log (property : string) (allowed deps : list string) (w : World) :
  (forall d, In d deps -> isAllowed allowed d = true) ->
  exists w',
    checkDeps property allowed deps w = (Return tt, w')
    /\ extends w w'
    /\ events w'
       = events w
         ++ List.map (fun d => LogDebug ("Dependency " +:+ d +:+ " is allowed in '"
                                         +:+ property +:+ "'")) deps.
Proof.
  revert w. induction deps as [|d deps IH]; intros w Hall; simpl.
  - exists w. split; [reflexivity|]. split; [apply extends_refl|].
    rewrite app_nil_r. reflexivity.
  - rewrite (Hall d (or_introl eq_refl)).
    destruct (IH (snd (emit (LogDebug ("Dependency " +:+ d +:+ " is allowed in '"
                                       +:+ property +:+ "'")) w)))
      as (w' & Hrun & Hext & Hev); [intros; apply Hall; right; assumption|].
    exists w'. split; [exact Hrun|].
    split; [eapply extends_trans; [apply extends_emit|exact Hext]|].
    rewrite Hev. simpl. rewrite <- app_assoc. reflexivity.
Qed.

(** X15. A section whose every dependency matches a pattern of the
    allow-list passes the gate: the check returns having logged one
    debug line per dependency, in key order, and nothing else; a manifest
    without the section passes with no line at all. *)
Theorem allowed_dependencies_pass_the_gate
        (p : PackageJson) (property : string) (allowed : list string) (w : World) :
  (forall deps d, section p property = Some deps -> In d (Obj.keys deps) ->
                  isAllowed allowed d = true) ->
  exists w',
    checkNonPeerDependencies p property allowed w = (Return tt, w')
    /\ extends w w'
    /\ events w'
       = events w
         ++ List.map (fun d => LogDebug ("Dependency " +:+ d +:+ " is allowed in '"
                                         +:+ property +:+ "'"))
                     (Obj.keys (default [] (section p property))).
Proof.
  intros Hall. unfold checkNonPeerDependencies.
  destruct (section p property) as [deps|].
  - apply checkDeps_log. intros d Hd. apply (Hall deps d eq_refl Hd).
  - exists w. split; [reflexivity|]. split; [apply extends_refl|].
    simpl. rewrite app_nil_r. reflexivity.
Qed.

End GateLog.


(** ** The export map: order, silence, and the undeclared case *)

Lemma keys_set_prefix {V} (k : string) (v : V) (o : Obj.t V) :
  Obj.keys o `prefix_of` Obj.keys (Obj.set k v o).
Proof.
  rewrite keys_set. destruct (Obj.has k o); [reflexivity|apply prefix_app_r; reflexivity].
Qed.

Lemma set_absent {V} (k : string) (v : V) (o : Obj.t V) :
  Obj.get k o = None -> Obj.set k v o = o ++ [(k, v)].
Proof.
  induction o as [|[k' v'] r IH]; simpl; [reflexivity|].
  destruct (String.eqb k' k); [discriminate|]. intros H. rewrite IH by exact H. reflexivity.
Qed.

Lemma set_last {V} (k : string) (v v0 : V) (o : Obj.t V) :
  Obj.get k o = None -> Obj.set k v (o ++ [(k, v0)]) = o ++ [(k, v)].
Proof.
  induction o as [|[k' v'] r IH]; simpl.
  - rewrite String.eqb_refl. reflexivity.
  - destruct (String.eqb k' k); [discriminate|]. intros H. rewrite IH by exact H. reflexivity.
Qed.

Lemma get_app_absent {V} (k k0 : string) (v : V) (o : Obj.t V) :
  k0 <> k -> Obj.get k (o ++ [(k0, v)]) = Obj.get k o.
Proof.
  intros Hne. induction o as [|[k' v'] r IH]; simpl.
  - destruct (String.eqb_spec k0 k); [contradiction|reflexivity].
  - destruct (String.eqb k' k); [reflexivity|exact IH].
Qed.

Section MoreExports.

Context {host : Host}.

(** The loop over the generated conditions keeps what is under the
    subpath in place, and is silent when none of them is there. *)
Lemma insertConditions_frame (subpath : string) (mapping : ConditionalExport)
      (names : list string) (se : ConditionalExport) (w : World) :
  exists se' w',
    insertConditions subpath mapping names se w = (Return se', w')
    /\ Obj.keys se `prefix_of` Obj.keys se'
    /\ (forall k, ~ In k names -> Obj.get k se' = Obj.get k se)
    /\ (List.NoDup names -> (forall k, In k names -> Obj.has k se = false) -> w' = w).
Proof.
  revert se w. induction names as [|n names IH]; intros se w; simpl.
  - exists se, w. split; [reflexivity|]. split; [reflexivity|].
    split; [reflexivity|]. reflexivity.
  - set (se1 := match Obj.get n mapping with
                | Some target => Obj.set n target se
                | None => se
                end).
    set (w1 := if Obj.has n se then snd (emit (LogWarn (conflictWarning subpath n)) w) else w).
    assert (Hstep : forall (K : M ConditionalExport),
               ((if Obj.has n se then emit (LogWarn (conflictWarning subpath n)) else ret tt) ;; K) w
               = K w1).
    { intros K. unfold bind, w1. destruct (Obj.has n se); reflexivity. }
    rewrite Hstep.
    destruct (IH se1 w1) as (se' & w' & Hrun & Hpre & Hget & Hsilent).
    exists se', w'. split; [exact Hrun|].
    split.
    { etrans; [|exact Hpre]. unfold se1. destruct (Obj.get n mapping); [|reflexivity].
      apply keys_set_prefix. }
    split.
    { intros k Hk. rewrite Hget by (intros H; apply Hk; right; exact H).
      unfold se1. destruct (Obj.get n mapping); [|reflexivity].
      apply get_set_ne. intros ->. apply Hk. left. reflexivity. }
    intros Hnd Hfree. inversion Hnd as [|? ? Hn Hnd']; subst.
    rewrite Hsilent.
    + unfold w1. rewrite (Hfree n (or_introl eq_refl)). reflexivity.
    + exact Hnd'.
    + intros k Hk. unfold se1. destruct (Obj.get n mapping); [|apply Hfree; right; exact Hk].
      unfold Obj.has. rewrite get_set_ne by (intros ->; contradiction).
      apply (Hfree k). right. exact Hk.
Qed.

Lemma insertMappingOrError_frame
      (subpath : string) (mapping : ConditionalExport) (current : PackageExports)
      (w : World) :
  exists result w',
    insertMappingOrError subpath mapping current w = (Return result, w')
    /\ Obj.keys current `prefix_of` Obj.keys result
    /\ (forall s, Obj.keys (default [] (Obj.get s current))
                  `prefix_of` Obj.keys (default [] (Obj.get s result)))
    /\ (forall s k, ~ In k (Obj.keys mapping) ->
                    Obj.get k (default [] (Obj.get s result))
                    = Obj.get k (default [] (Obj.get s current)))
    /\ (forall s, s <> subpath -> Obj.get s result = Obj.get s current)
    /\ (List.NoDup (Obj.keys mapping) ->
        (forall k, In k (Obj.keys mapping) ->
                   Obj.has k (default [] (Obj.get subpath current)) = false) ->
        w' = w).
Proof.
  unfold insertMappingOrError.
  set (exports1 := match Obj.get subpath current with
                   | Some _ => current
                   | None => Obj.set subpath [] current
                   end).
  assert (Hse : default [] (Obj.get subpath exports1) = default [] (Obj.get subpath current)).
  { unfold exports1. destruct (Obj.get subpath current) eqn:E.
    - rewrite E. reflexivity.
    - rewrite get_set_eq. reflexivity. }
  assert (Hother : forall s, s <> subpath -> Obj.get s exports1 = Obj.get s current).
  { intros s Hs. unfold exports1. destruct (Obj.get subpath current); [reflexivity|].
    apply get_set_ne. congruence. }
  assert (Hkeys1 : Obj.keys current `prefix_of` Obj.keys exports1).
  { unfold exports1. destruct (Obj.get subpath current); [reflexivity|apply keys_set_prefix]. }
  rewrite Hse.
  destruct (insertConditions_frame subpath mapping (Obj.keys mapping)
              (default [] (Obj.get subpath current)) w)
    as (se' & w' & Hrun & Hpre & Hget & Hsilent).
  exists (Obj.set subpath se' exports1), w'.
  split; [unfold bind; rewrite Hrun; reflexivity|].
  split; [etrans; [exact Hkeys1|apply keys_set_prefix]|].
  split; [|split; [|split]].
  - intros s. destruct (String.eqb_spec s subpath) as [->|Hne].
    + rewrite get_set_eq. exact Hpre.
    + rewrite get_set_ne by congruence. rewrite Hother by exact Hne. reflexivity.
  - intros s k Hk. destruct (String.eqb_spec s subpath) as [->|Hne].
    + rewrite get_set_eq. simpl. apply Hget, Hk.
    + rewrite get_set_ne by congruence. rewrite Hother by exact Hne. reflexivity.
  - intros s Hs. rewrite get_set_ne by congruence. apply Hother, Hs.
  - exact Hsilent.
Qed.

Lemma generatedMapping_keys (cwd0 destinationPath0 : string) (node : EntryPointNode) :
  Obj.keys (generatedMapping cwd0 destinationPath0 node) = ["types"; "default"].
Proof. reflexivity. Qed.

Lemma insertEntryPoints_frame (cwd0 destinationPath0 : string)
      (entryPoints : list EntryPointNode) (current : PackageExports) (w : World) :
  exists result w',
    insertEntryPoints cwd0 destinationPath0 entryPoints current w = (Return result, w')
    /\ Obj.keys current `prefix_of` Obj.keys result
    /\ (forall s, Obj.keys (default [] (Obj.get s current))
                  `prefix_of` Obj.keys (default [] (Obj.get s result)))
    /\ (forall s k, k <> "types" -> k <> "default" ->
                    Obj.get k (default [] (Obj.get s result))
                    = Obj.get k (default [] (Obj.get s current)))
    /\ (List.NoDup (List.map (fun n => exportSubpath (entryPoint n)) entryPoints) ->
        (forall n k, In n entryPoints -> k = "types" \/ k = "default" ->
                     Obj.has k (default [] (Obj.get (exportSubpath (entryPoint n)) current))
                     = false) ->
        w' = w).
Proof.
  revert current w. induction entryPoints as [|node0 rest IH]; intros current w; simpl.
  - exists current, w. split; [reflexivity|]. split; [reflexivity|].
    split; [reflexivity|]. split; reflexivity.
  - destruct (insertMappingOrError_frame (exportSubpath (entryPoint node0))
                (generatedMapping cwd0 destinationPath0 node0) current w)
      as (e1 & w1 & Hrun1 & Hk1 & Hc1 & Hg1 & Ho1 & Hs1).
    destruct (IH e1 w1) as (result & w' & Hrun & Hk & Hc & Hg & Hs).
    exists result, w'.
    split; [rewrite (bind_return _ _ w w1 e1 Hrun1); exact Hrun|].
    split; [etrans; eassumption|].
    split; [intros s; etrans; [apply Hc1|apply Hc]|].
    split.
    { intros s k Ht Hd. rewrite Hg by assumption. apply Hg1.
      rewrite generatedMapping_keys. intros [<-|[<-|[]]]; congruence. }
    intros Hnd Hfree. inversion Hnd as [|? ? Hn Hnd']; subst.
    rewrite Hs.
    + apply Hs1.
      * rewrite generatedMapping_keys. repeat constructor; simpl; intuition discriminate.
      * rewrite generatedMapping_keys. intros k [<-|[<-|[]]].
        -- apply (Hfree node0); [left; reflexivity|left; reflexivity].
        -- apply (Hfree node0); [left; reflexivity|right; reflexivity].
    + exact Hnd'.
    + intros n k Hin Hkk. rewrite Ho1.
      * apply Hfree; [right; exact Hin|exact Hkk].
      * intros E. apply Hn. rewrite <- E.
        apply (in_map (fun n => exportSubpath (entryPoint n))), Hin.
Qed.

(** X16. What the manifest declares in its export map keeps its place:
    the declared subpaths come first and in their order, under every
    subpath the declared conditions come first and in their order, and a
    condition other than [types] and [default] keeps its target. *)
Theorem declared_exports_keep_their_place (e : NgEntryPoint)
        (entryPoints : list EntryPointNode) (w : World) :
  let declared := default [] (exports (packageJson e)) in
  exists result w',
    generatePackageExports e entryPoints w = (Return result, w')
    /\ Obj.keys declared `prefix_of` Obj.keys result
    /\ (forall s, Obj.keys (default [] (Obj.get s declared))
                  `prefix_of` Obj.keys (default [] (Obj.get s result)))
    /\ (forall s k, k <> "types" -> k <> "default" ->
                    Obj.get k (default [] (Obj.get s result))
                    = Obj.get k (default [] (Obj.get s declared))).
Proof.
  intros declared. unfold generatePackageExports. fold declared.
  destruct (insertMappingOrError_frame "./package.json" [("default", "./package.json")]
              declared w)
    as (e1 & w1 & Hrun1 & Hk1 & Hc1 & Hg1 & _).
  destruct (insertEntryPoints_frame (cwd w) (destinationPath e) entryPoints e1 w1)
    as (result & w' & Hrun & Hk & Hc & Hg & _).
  exists result, w'.
  split.
  { rewrite (bind_return _ _ w w w) by reflexivity.
    rewrite (bind_return _ _ w w1 e1 Hrun1). exact Hrun. }
  split; [etrans; eassumption|].
  split; [intros s; etrans; [apply Hc1|apply Hc]|].
  intros s k Ht Hd. rewrite Hg by assumption. apply Hg1.
  simpl. intros [<-|[]]. congruence.
Qed.

(** X17. Generation is silent when nothing it sets is there before: with
    entry points of distinct subpaths, none of them [./package.json], and
    a declared map that has neither [types] nor [default] under their
    subpaths nor [default] under [./package.json], the world is left as
    it was, with no warning logged. *)
Theorem exports_without_conflict_are_silent (e : NgEntryPoint)
        (entryPoints : list EntryPointNode) (w : World) :
  let declared := default [] (exports (packageJson e)) in
  let subpaths := List.map (fun n => exportSubpath (entryPoint n)) entryPoints in
  List.NoDup subpaths ->
  ~ In "./package.json" subpaths ->
  Obj.has "default" (default [] (Obj.get "./package.json" declared)) = false ->
  (forall s k, In s subpaths -> k = "types" \/ k = "default" ->
               Obj.has k (default [] (Obj.get s declared)) = false) ->
  snd (generatePackageExports e entryPoints w) = w.
Proof.
  intros declared subpaths Hnd Hself Hpkg Hfree.
  unfold generatePackageExports. fold declared.
  destruct (insertMappingOrError_frame "./package.json" [("default", "./package.json")]
              declared w)
    as (e1 & w1 & Hrun1 & _ & _ & _ & Ho1 & Hs1).
  destruct (insertEntryPoints_frame (cwd w) (destinationPath e) entryPoints e1 w1)
    as (result & w' & Hrun & _ & _ & _ & Hs).
  rewrite (bind_return _ _ w w w) by reflexivity.
  rewrite (bind_return _ _ w w1 e1 Hrun1). rewrite Hrun. simpl.
  rewrite Hs.
  - apply Hs1.
    + repeat constructor. simpl. tauto.
    + intros k [<-|[]]. exact Hpkg.
  - exact Hnd.
  - intros n k Hin Hk.
    assert (Hsub : In (exportSubpath (entryPoint n)) subpaths).
    { apply (in_map (fun n => exportSubpath (entryPoint n))), Hin. }
    rewrite Ho1.
    + apply Hfree; assumption.
    + intros E. apply Hself. rewrite <- E. exact Hsub.
Qed.

Lemma get_absent_keys {V} (k : string) (o : Obj.t V) :
  ~ In k (Obj.keys o) -> Obj.get k o = None.
Proof.
  intros H. destruct (Obj.get k o) as [v|] eqn:E; [|reflexivity].
  exfalso. apply H. eapply get_some_in_keys, E.
Qed.

Lemma get_app_here {V} (k : string) (v : V) (o r : Obj.t V) :
  ~ In k (Obj.keys o) -> Obj.get k (o ++ (k, v) :: r) = Some v.
Proof.
  induction o as [|[k' v'] o IH]; simpl.
  - intros _. rewrite String.eqb_refl. reflexivity.
  - intros H. destruct (String.eqb_spec k' k) as [->|Hne]; [exfalso; apply H; left; reflexivity|].
    apply IH. intros Hin. apply H. right. exact Hin.
Qed.

(** Under a subpath that has nothing yet, the conditions of a mapping
    are inserted as they are, silently. *)
Lemma insertConditions_fresh (subpath : string) (done todo : ConditionalExport) (w : World) :
  List.NoDup (Obj.keys (done ++ todo)) ->
  insertConditions subpath (done ++ todo) (Obj.keys todo) done w = (Return (done ++ todo), w).
Proof.
  revert done. induction todo as [|[k v] todo IH]; intros done Hnd.
  - simpl. rewrite app_nil_r. reflexivity.
  - assert (Hk : ~ In k (Obj.keys done)).
    { unfold Obj.keys in *. rewrite map_app in Hnd. simpl in Hnd.
      apply NoDup_remove_2 in Hnd. intros H. apply Hnd, in_or_app. left. exact H. }
    simpl. unfold Obj.has. rewrite (get_absent_keys k done Hk).
    rewrite (get_app_here k v done todo Hk).
    rewrite (set_absent k v done (get_absent_keys k done Hk)).
    unfold bind, ret.
    replace (done ++ (k, v) :: todo) with ((done ++ [(k, v)]) ++ todo)
      by (rewrite <- app_assoc; reflexivity).
    apply IH. rewrite <- app_assoc. exact Hnd.
Qed.

Lemma insertMappingOrError_fresh (subpath : string) (mapping : ConditionalExport)
      (current : PackageExports) (w : World) :
  List.NoDup (Obj.keys mapping) -> Obj.get subpath current = None ->
  insertMappingOrError subpath mapping current w
  = (Return (current ++ [(subpath, mapping)]), w).
Proof.
  intros Hnd Hnone. unfold insertMappingOrError. rewrite Hnone.
  rewrite get_set_eq. simpl.
  pose proof (insertConditions_fresh subpath [] mapping w Hnd) as Hc. simpl in Hc.
  unfold bind. rewrite Hc. simpl.
  rewrite (set_absent subpath [] current Hnone).
  unfold ret. f_equal. f_equal. apply set_last, Hnone.
Qed.

Lemma insertEntryPoints_fresh (cwd0 destinationPath0 : string)
      (entryPoints : list EntryPointNode) (current : PackageExports) (w : World) :
  List.NoDup (List.map (fun n => exportSubpath (entryPoint n)) entryPoints) ->
  (forall n, In n entryPoints -> Obj.get (exportSubpath (entryPoint n)) current = None) ->
  insertEntryPoints cwd0 destinationPath0 entryPoints current w
  = (Return (current
             ++ List.map (fun n => (exportSubpath (entryPoint n),
                                    generatedMapping cwd0 destinationPath0 n))
                         entryPoints), w).
Proof.
  revert current. induction entryPoints as [|node0 rest IH]; intros current Hnd Hfree; simpl.
  - rewrite app_nil_r. reflexivity.
  - inversion Hnd as [|? ? Hn Hnd']; subst.
    unfold bind. rewrite insertMappingOrError_fresh.
    + rewrite IH.
      * rewrite <- app_assoc. reflexivity.
      * exact Hnd'.
      * intros n Hin. rewrite get_app_absent.
        -- apply Hfree. right. exact Hin.
        -- intros E. apply Hn. rewrite E.
           apply (in_map (fun n => exportSubpath (entryPoint n))), Hin.
    + rewrite generatedMapping_keys. repeat constructor; simpl; intuition discriminate.
    + apply Hfree. left. reflexivity.
Qed.

(** X18. For a manifest that declares no export map and entry points of
    distinct subpaths, none of them [./package.json], the generated map
    is the self-reference of [./package.json] followed by one subpath per
    entry point, in their order, each with its [types] and then its
    [default] target; nothing is logged. *)
Theorem undeclared_exports_are_generated (e : NgEntryPoint)
        (entryPoints : list EntryPointNode) (w : World) :
  let subpaths := List.map (fun n => exportSubpath (entryPoint n)) entryPoints in
  exports (packageJson e) = None ->
  List.NoDup subpaths ->
  ~ In "./package.json" subpaths ->
  generatePackageExports e entryPoints w
  = (Return (("./package.json", [("default", "./package.json")])
             :: List.map (fun n => (exportSubpath (entryPoint n),
                                    generatedMapping (cwd w) (destinationPath e) n))
                         entryPoints), w).
Proof.
  intros subpaths Hnone Hnd Hself.
  unfold generatePackageExports. rewrite Hnone. simpl.
  rewrite (bind_return _ _ w w w) by reflexivity.
  rewrite (bind_return _ _ w w [("./package.json", [("default", "./package.json")])])
    by reflexivity.
  rewrite insertEntryPoints_fresh; [reflexivity|exact Hnd|].
  intros n Hin. apply get_absent_keys. intros [E|[]].
  change ("./package.json" = exportSubpath (entryPoint n)) in E.
  apply Hself. rewrite E.
  apply (in_map (fun n => exportSubpath (entryPoint n))), Hin.
Qed.

End MoreExports.

(** ** The environment of the workers *)

(** X19. With the compile cache on, the workers of a caller who gave an
    environment object see the caller's variables and no other, with
    [NODE_COMPILE_CACHE] set to the cache directory in place of any value
    the caller gave it; the variables of the process are not merged in.
    Without such an object, also when the caller asked to share the
    environment, the workers get a copy of the variables of the process
    with [NODE_COMPILE_CACHE] set. *)
Theorem worker_environment_variables (process : WorkerPool.Process)
        (options : WorkerPool.WorkerPoolOptions) (dir : string) :
  truthy (Obj.get "RUNFILES" (WorkerPool.processEnv process)) = false ->
  WorkerPool.getCompileCacheDir process = Some (Some dir) ->
  Str.nonEmpty dir = true ->
  exists vars,
    WorkerPool.env (WorkerPool.constructor process options) = Some (WorkerPool.EnvObject vars)
    /\ Obj.get "NODE_COMPILE_CACHE" vars = Some dir
    /\ (forall given, WorkerPool.env options = Some (WorkerPool.EnvObject given) ->
                      Obj.keys given `prefix_of` Obj.keys vars
                      /\ forall k, k <> "NODE_COMPILE_CACHE" -> Obj.get k vars = Obj.get k given)
    /\ (WorkerPool.env options = None \/ WorkerPool.env options = Some WorkerPool.ShareEnv ->
        Obj.keys (WorkerPool.processEnv process) `prefix_of` Obj.keys vars
        /\ forall k, k <> "NODE_COMPILE_CACHE" ->
                     Obj.get k vars = Obj.get k (WorkerPool.processEnv process)).
Proof.
  intros Hrun Hdir Hne. unfold WorkerPool.constructor. rewrite Hrun, Hdir, Hne. simpl.
  destruct (WorkerPool.env options) as [[|given]|]; eexists; (split; [reflexivity|]);
    (split; [apply get_set_eq|]).
  - split; [intros given H; discriminate H|]. intros _.
    split; [apply keys_set_prefix|]. intros k Hk. apply get_set_ne. congruence.
  - split.
    + intros g H. injection H as <-.
      split; [apply keys_set_prefix|]. intros k Hk. apply get_set_ne. congruence.
    + intros [H|H]; discriminate H.
  - split; [intros given H; discriminate H|]. intros _.
    split; [apply keys_set_prefix|]. intros k Hk. apply get_set_ne. congruence.
Qed.

(** X20. The pool runs with a minimum of one thread, an idle timeout of 1000
    and no timing records unless the caller's options say otherwise,
    whatever the process; and when the runtime has no compile cache to
    report, be it that it lacks the function, that the function reports
    nothing or an empty directory, the environment option is the
    caller's. *)
Theorem worker_pool_defaults (process : WorkerPool.Process)
        (options : WorkerPool.WorkerPoolOptions) :
  let pool := WorkerPool.constructor process options in
  WorkerPool.minThreads pool = Some (default 1%N (WorkerPool.minThreads options))
  /\ WorkerPool.idleTimeout pool = Some (default 1000%N (WorkerPool.idleTimeout options))
  /\ WorkerPool.recordTiming pool = Some (default false (WorkerPool.recordTiming options))
  /\ (WorkerPool.getCompileCacheDir process = None
      \/ WorkerPool.getCompileCacheDir process = Some None
      \/ WorkerPool.getCompileCacheDir process = Some (Some "") ->
      WorkerPool.env pool = WorkerPool.env options).
Proof.
  intros pool. unfold pool, WorkerPool.constructor.
  destruct (truthy (Obj.get "RUNFILES" (WorkerPool.processEnv process))).
  - simpl. repeat split; try (destruct options as [[?|] [?|] ? [?|] ?]; reflexivity).
  - destruct (WorkerPool.getCompileCacheDir process) as [[dir|]|] eqn:E.
    + destruct (Str.nonEmpty dir) eqn:Hd; simpl;
        (split; [destruct (WorkerPool.minThreads options); reflexivity|]);
        (split; [destruct (WorkerPool.idleTimeout options); reflexivity|]);
        (split; [destruct (WorkerPool.recordTiming options); reflexivity|]).
      * intros [H|[H|H]]; try discriminate H. injection H as ->. discriminate Hd.
      * intros _. reflexivity.
    + simpl. split; [destruct (WorkerPool.minThreads options); reflexivity|].
      split; [destruct (WorkerPool.idleTimeout options); reflexivity|].
      split; [destruct (WorkerPool.recordTiming options); reflexivity|]. reflexivity.
    + simpl. split; [destruct (WorkerPool.minThreads options); reflexivity|].
      split; [destruct (WorkerPool.idleTimeout options); reflexivity|].
      split; [destruct (WorkerPool.recordTiming options); reflexivity|]. reflexivity.
Qed.

(** ** The post-build script *)

(** A relative path of plain segments leads below the working directory. *)
Lemma resolveSegs_below (cwd0 p : string) :
  Path.isAbsolute p = false -> Forall plain (Str.split_slash p) ->
  Path.resolveSegs cwd0 p = Path.resolveSegs cwd0 "" ++ Str.split_slash p.
Proof.
  intros Hrel Hplain. unfold Path.resolveSegs. rewrite Hrel. simpl.
  unfold Path.normalizeString. rewrite !fold_left_app. simpl.
  rewrite fold_plain by exact Hplain. rewrite rev_app_distr, rev_involutive. reflexivity.
Qed.

Section PostbuildProperties.

Import Postbuild.

Context {json : JsonParse}.

Variable cwd0 : string.

Lemma key_of (p : string) (segs : list string) :
  Path.isAbsolute p = false -> Str.split_slash p = segs -> Forall plain segs ->
  Path.resolveSegs cwd0 p
     = Path.resolveSegs cwd0 "" ++ segs.
Proof. intros Hrel <- Hplain. apply resolveSegs_below; assumption. Qed.

Lemma andThen_returns {A B} (m : Run A) (k : A -> Run B) (d : gmap (list string) fsnode) (b : B) :
  fst (andThen m k d) = Return b ->
  exists a d', m d = (Return a, d') /\ andThen m k d = k a d'.
Proof.
  unfold andThen. destruct (m d) as [[a|e] d']; [|discriminate].
  intros _. exists a, d'. split; reflexivity.
Qed.

Lemma copyFileSync_returns (src dest : string) (d d' : gmap (list string) fsnode) (a : unit) :
  copyFileSync cwd0 src dest d = (Return a, d') ->
  exists c, d !! Path.resolveSegs cwd0 src = Some (File c)
            /\ d' = <[Path.resolveSegs cwd0 dest := File c]> d.
Proof.
  unfold copyFileSync. destruct (d !! Path.resolveSegs cwd0 src) as [[c| |]|]; try discriminate.
  destruct (isDirectory d (Path.resolveSegs cwd0 dest)); [discriminate|].
  destruct (isDirectory d (removelast (Path.resolveSegs cwd0 dest))); [|discriminate].
  simpl. intros H. injection H as _ <-. exists c. split; reflexivity.
Qed.

Lemma copyFileSync_elsewhere (src dest : string) (d : gmap (list string) fsnode) (k : list string) :
  k <> Path.resolveSegs cwd0 dest ->
  snd (copyFileSync cwd0 src dest d) !! k = d !! k.
Proof.
  intros Hne. unfold copyFileSync.
  destruct (d !! Path.resolveSegs cwd0 src) as [[c| |]|]; try reflexivity.
  destruct (isDirectory d (Path.resolveSegs cwd0 dest)); [reflexivity|].
  destruct (isDirectory d (removelast (Path.resolveSegs cwd0 dest))); [|reflexivity].
  simpl. apply lookup_insert_ne. congruence.
Qed.

(** Making directories adds directories where nothing was, on the way to
    the path, and changes nothing else. *)
Lemma mkdirs_effect (segs above : list string) (d d' : gmap (list string) fsnode) :
  mkdirs above segs d = Some d' ->
  forall k, d' !! k = d !! k
            \/ (d !! k = None /\ d' !! k = Some Dir /\ k `prefix_of` above ++ segs).
Proof.
  revert above d. induction segs as [|seg rest IH]; intros above d H k; simpl in H.
  - injection H as <-. left. reflexivity.
  - assert (Hpath : (above ++ [seg]) ++ rest = above ++ seg :: rest)
      by (rewrite <- app_assoc; reflexivity).
    destruct (d !! (above ++ [seg])) as [[c| |]|] eqn:E; try discriminate.
    + destruct (IH _ _ H k) as [Hsame|(Hnone & Hdir & Hpre)]; [left; exact Hsame|].
      right. rewrite Hpath in Hpre. split; [exact Hnone|]. split; assumption.
    + destruct (IH _ _ H k) as [Hsame|(Hnone & Hdir & Hpre)].
      * destruct (decide (k = above ++ [seg])) as [->|Hne].
        -- right. split; [exact E|]. split.
           ++ rewrite Hsame. apply lookup_insert_eq.
           ++ rewrite <- Hpath. apply prefix_app_r. reflexivity.
        -- left. rewrite Hsame. apply lookup_insert_ne. congruence.
      * destruct (decide (k = above ++ [seg])) as [->|Hne].
        -- rewrite lookup_insert_eq in Hnone. discriminate Hnone.
        -- rewrite lookup_insert_ne in Hnone by congruence.
           right. rewrite Hpath in Hpre. split; [exact Hnone|]. split; assumption.
Qed.

Lemma mkdirSync_effect (p : string) (d : gmap (list string) fsnode) (k : list string) :
  snd (mkdirSync cwd0 p d) !! k = d !! k
  \/ (d !! k = None /\ snd (mkdirSync cwd0 p d) !! k = Some Dir
      /\ k `prefix_of` Path.resolveSegs cwd0 p).
Proof.
  unfold mkdirSync. destruct (mkdirs [] (Path.resolveSegs cwd0 p) d) as [d'|] eqn:E.
  - exact (mkdirs_effect _ _ _ _ E k).
  - left. reflexivity.
Qed.

Lemma readFileSync_returns (p : string) (d d' : gmap (list string) fsnode) (c : content) :
  readFileSync cwd0 p d = (Return c, d') ->
  d !! Path.resolveSegs cwd0 p = Some (File c) /\ d' = d.
Proof.
  unfold readFileSync. destruct (d !! Path.resolveSegs cwd0 p) as [[c'| |]|]; try discriminate.
  intros H. injection H as <- <-. split; reflexivity.
Qed.

Lemma parse_returns (c : content) (d d' : gmap (list string) fsnode) (v : jsonValue) :
  parse c d = (Return v, d') ->
  d' = d
  /\ match c with
     | Json m => v = Object m
     | Text s => jsonParse s = Some v
     end.
Proof.
  unfold parse. destruct c as [s|m].
  - destruct (jsonParse s) as [v'|]; [|discriminate].
    intros H. injection H as <- <-. split; reflexivity.
  - intros H. injection H as <- <-. split; reflexivity.
Qed.

(** The seven deletions: they clean a manifest, fail on [null], and
    leave any other value as it is. *)
Lemma deletions_run (v : jsonValue) (K : jsonValue -> Run unit)
      (d : gmap (list string) fsnode) :
  andThen (deleteKey "devDependencies" v) (fun v1 =>
  andThen (deleteKey "scripts" v1) (fun v2 =>
  andThen (deleteKey "private" v2) (fun v3 =>
  andThen (deleteKey "pnpm" v3) (fun v4 =>
  andThen (deleteKey "packageManager" v4) (fun v5 =>
  andThen (deleteKey "husky" v5) (fun v6 =>
  andThen (deleteKey "overrides" v6) K)))))) d
  = match v with
    | Object m => K (Object (published m)) d
    | Null => (Throw "TypeError: Cannot convert undefined or null to object", d)
    | Plain _ => K v d
    end.
Proof. destruct v; reflexivity. Qed.

Lemma writeFileSync_outcome (p : string) (c : content) (d : gmap (list string) fsnode) :
  writeFileSync cwd0 p c d = (Return tt, <[Path.resolveSegs cwd0 p := File c]> d)
  \/ exists e, writeFileSync cwd0 p c d = (Throw e, d).
Proof.
  unfold writeFileSync. destruct (isDirectory d (Path.resolveSegs cwd0 p)); [right; eauto|].
  destruct (isDirectory d (removelast (Path.resolveSegs cwd0 p))); [left|right; eauto].
  reflexivity.
Qed.

(** The places the script reads and writes. *)
Lemma script_keys :
  Path.resolveSegs cwd0 "LICENSE"
     = Path.resolveSegs cwd0 "" ++ ["LICENSE"]
  /\ Path.resolveSegs cwd0 "README.md"
     = Path.resolveSegs cwd0 "" ++ ["README.md"]
  /\ Path.resolveSegs cwd0 ".browserslistrc"
     = Path.resolveSegs cwd0 "" ++ [".browserslistrc"]
  /\ Path.resolveSegs cwd0 "src/ng-package.schema.json"
     = Path.resolveSegs cwd0 "" ++ ["src"; "ng-package.schema.json"]
  /\ Path.resolveSegs cwd0 "src/ng-entrypoint.schema.json"
     = Path.resolveSegs cwd0 "" ++ ["src"; "ng-entrypoint.schema.json"]
  /\ Path.resolveSegs cwd0 "src/lib/ts/conf/tsconfig.ngc.json"
     = Path.resolveSegs cwd0 "" ++ ["src"; "lib"; "ts"; "conf"; "tsconfig.ngc.json"]
  /\ Path.resolveSegs cwd0 "package.json"
     = Path.resolveSegs cwd0 "" ++ ["package.json"]
  /\ Path.resolveSegs cwd0 "dist/LICENSE"
     = Path.resolveSegs cwd0 "" ++ ["dist"; "LICENSE"]
  /\ Path.resolveSegs cwd0 "dist/README.md"
     = Path.resolveSegs cwd0 "" ++ ["dist"; "README.md"]
  /\ Path.resolveSegs cwd0 "dist/.browserslistrc"
     = Path.resolveSegs cwd0 "" ++ ["dist"; ".browserslistrc"]
  /\ Path.resolveSegs cwd0 "dist/ng-package.schema.json"
     = Path.resolveSegs cwd0 "" ++ ["dist"; "ng-package.schema.json"]
  /\ Path.resolveSegs cwd0 "dist/ng-entrypoint.schema.json"
     = Path.resolveSegs cwd0 "" ++ ["dist"; "ng-entrypoint.schema.json"]
  /\ Path.resolveSegs cwd0 "dist/src/lib/ts/conf"
     = Path.resolveSegs cwd0 "" ++ ["dist"; "src"; "lib"; "ts"; "conf"]
  /\ Path.resolveSegs cwd0 "dist/src/lib/ts/conf/tsconfig.ngc.json"
     = Path.resolveSegs cwd0 "" ++ ["dist"; "src"; "lib"; "ts"; "conf"; "tsconfig.ngc.json"]
  /\ Path.resolveSegs cwd0 "dist/package.json"
     = Path.resolveSegs cwd0 "" ++ ["dist"; "package.json"].
Proof.
  repeat split; (apply key_of; [reflexivity|reflexivity|]);
    repeat (constructor; [repeat split; discriminate|]); constructor.
Qed.

Lemma copyFileSync_other (src dest : string) (d d' : gmap (list string) fsnode) (a : unit)
      (k : list string) :
  copyFileSync cwd0 src dest d = (Return a, d') ->
  k <> Path.resolveSegs cwd0 dest -> d' !! k = d !! k.
Proof.
  intros H Hne. pose proof (copyFileSync_elsewhere src dest d k Hne) as E.
  rewrite H in E. exact E.
Qed.

Lemma mkdirSync_keeps (p : string) (d d' : gmap (list string) fsnode) (a : unit)
      (k : list string) (x : fsnode) :
  mkdirSync cwd0 p d = (Return a, d') -> d !! k = Some x -> d' !! k = Some x.
Proof.
  intros H Hx. destruct (mkdirSync_effect p d k) as [E|(Hnone & _)].
  - rewrite H in E. simpl in E. rewrite E. exact Hx.
  - rewrite Hnone in Hx. discriminate Hx.
Qed.

Lemma mkdirSync_file (p : string) (d d' : gmap (list string) fsnode) (a : unit)
      (k : list string) (c : content) :
  mkdirSync cwd0 p d = (Return a, d') -> d' !! k = Some (File c) -> d !! k = Some (File c).
Proof.
  intros H Hx. destruct (mkdirSync_effect p d k) as [E|(_ & Hdir & _)].
  - rewrite H in E. simpl in E. rewrite <- E. exact Hx.
  - rewrite H in Hdir. simpl in Hdir. rewrite Hdir in Hx. discriminate Hx.
Qed.

End PostbuildProperties.

Ltac apart :=
  let E := fresh in
  intros E; rewrite <- ?app_assoc in E; apply app_inv_head in E; discriminate E.

Section PostbuildTheorems.

Import Postbuild.

Context {json : JsonParse}.

(** What the script deletes from the manifest and what it keeps. *)
Lemma published_properties (m : PackageJson) :
  scripts (published m) = None
  /\ (forall k, In k ["devDependencies"; "private"; "pnpm"; "packageManager"; "husky";
                      "overrides"] ->
                Obj.get k (other (published m)) = None)
  /\ (forall k, ~ In k propertiesToDelete ->
                Obj.get k (other (published m)) = Obj.get k (other m))
  /\ name (published m) = name m /\ version (published m) = version m
  /\ dependencies (published m) = dependencies m
  /\ peerDependencies (published m) = peerDependencies m
  /\ exports (published m) = exports m
  /\ module_ (published m) = module_ m /\ typings (published m) = typings m
  /\ sideEffects (published m) = sideEffects m /\ ngPackage (published m) = ngPackage m.
Proof.
  assert (Ho : other (published m)
               = stripped ["devDependencies"; "private"; "pnpm"; "packageManager"; "husky";
                           "overrides"] (other m)) by reflexivity.
  split; [reflexivity|]. rewrite Ho.
  split; [intros k Hk; apply get_stripped_in, Hk|].
  split; [|repeat split].
  intros k Hk. apply get_stripped_out. intros Hin. apply Hk.
  unfold propertiesToDelete. simpl in Hin |- *. tauto.
Qed.

(** X21. When the post-build script completes, [package.json] of the
    working directory was a file that [JSON.parse] accepts, with a value
    other than [null]. When that value is an object, the manifest put in
    [dist] is it without its [devDependencies], [scripts], [private],
    [pnpm], [packageManager], [husky] and [overrides]: every other
    property is published as it is. When it is a number, a string, a
    boolean or an array, the script publishes that value as it is: it
    does not ask for a manifest. The licence, the readme, the browser
    list, the two schemas and the compiler configuration are in [dist]
    with the content they had. *)
Theorem postbuild_publishes_clean_manifest (cwd0 : string) (d : gmap (list string) fsnode) :
  fst (script cwd0 d) = Return tt ->
  (exists c v,
      d !! Path.resolveSegs cwd0 "package.json" = Some (File c)
      /\ fst (parse c d) = Return v
      /\ match v with
         | Object m =>
             snd (script cwd0 d) !! Path.resolveSegs cwd0 "dist/package.json"
             = Some (File (Json (published m)))
         | Null => False
         | Plain stringified =>
             snd (script cwd0 d) !! Path.resolveSegs cwd0 "dist/package.json"
             = Some (File (Text stringified))
         end)
  /\ (forall m,
        d !! Path.resolveSegs cwd0 "package.json" = Some (File (Json m)) ->
        snd (script cwd0 d) !! Path.resolveSegs cwd0 "dist/package.json"
        = Some (File (Json (published m)))
        /\ scripts (published m) = None
        /\ (forall k, In k ["devDependencies"; "private"; "pnpm"; "packageManager"; "husky";
                            "overrides"] ->
                      Obj.get k (other (published m)) = None)
        /\ (forall k, ~ In k propertiesToDelete ->
                      Obj.get k (other (published m)) = Obj.get k (other m))
        /\ name (published m) = name m /\ version (published m) = version m
        /\ dependencies (published m) = dependencies m
        /\ peerDependencies (published m) = peerDependencies m
        /\ exports (published m) = exports m
        /\ module_ (published m) = module_ m /\ typings (published m) = typings m
        /\ sideEffects (published m) = sideEffects m
        /\ ngPackage (published m) = ngPackage m)
  /\ (forall from to, In (from, to) copied ->
        exists c, d !! Path.resolveSegs cwd0 from = Some (File c)
                  /\ snd (script cwd0 d) !! Path.resolveSegs cwd0 to = Some (File c)).
Proof.
  intros H. unfold script in *.
  destruct (andThen_returns _ _ _ _ H) as (a1 & d1 & H1 & E1).
  rewrite E1 in H |- *. cbv beta in H |- *. clear E1.
  destruct (andThen_returns _ _ _ _ H) as (a2 & d2 & H2 & E2).
  rewrite E2 in H |- *. cbv beta in H |- *. clear E2.
  destruct (andThen_returns _ _ _ _ H) as (a3 & d3 & H3 & E3).
  rewrite E3 in H |- *. cbv beta in H |- *. clear E3.
  destruct (andThen_returns _ _ _ _ H) as (a4 & d4 & H4 & E4).
  rewrite E4 in H |- *. cbv beta in H |- *. clear E4.
  destruct (andThen_returns _ _ _ _ H) as (a5 & d5 & H5 & E5).
  rewrite E5 in H |- *. cbv beta in H |- *. clear E5.
  destruct (andThen_returns _ _ _ _ H) as (a6 & d6 & H6 & E6).
  rewrite E6 in H |- *. cbv beta in H |- *. clear E6.
  destruct (andThen_returns _ _ _ _ H) as (a7 & d7 & H7 & E7).
  rewrite E7 in H |- *. cbv beta in H |- *. clear E7.
  destruct (andThen_returns _ _ _ _ H) as (text & d8 & H8 & E8).
  rewrite E8 in H |- *. cbv beta in H |- *. clear E8.
  destruct (andThen_returns _ _ _ _ H) as (v & d9 & H9 & E9).
  rewrite E9 in H |- *. cbv beta in H |- *. clear E9.
  rewrite (deletions_run v
             (fun v7 => writeFileSync cwd0 "dist/package.json" (stringify v7)) d9)
    in H |- *.
  apply readFileSync_returns in H8 as (Hread & ->).
  pose proof H9 as Hparse.
  apply parse_returns in H9 as (-> & Hv).
  assert (Hwritten :
            match v with
            | Object m =>
                snd (writeFileSync cwd0 "dist/package.json" (Json (published m)) d7)
                = <[Path.resolveSegs cwd0 "dist/package.json" := File (Json (published m))]> d7
            | Null => False
            | Plain stringified =>
                snd (writeFileSync cwd0 "dist/package.json" (Text stringified) d7)
                = <[Path.resolveSegs cwd0 "dist/package.json" := File (Text stringified)]> d7
            end).
  { destruct v as [m| |stringified]; [| discriminate H |]; simpl in H.
    - destruct (writeFileSync_outcome cwd0 "dist/package.json" (Json (published m)) d7)
        as [Hw|(e & Hw)]; rewrite Hw in H |- *; [reflexivity|discriminate H].
    - destruct (writeFileSync_outcome cwd0 "dist/package.json" (Text stringified) d7)
        as [Hw|(e & Hw)]; rewrite Hw in H |- *; [reflexivity|discriminate H]. }
  clear H.
  destruct (copyFileSync_returns _ _ _ _ _ _ H1) as (c1 & S1 & _).
  destruct (copyFileSync_returns _ _ _ _ _ _ H2) as (c2 & S2 & _).
  destruct (copyFileSync_returns _ _ _ _ _ _ H3) as (c3 & S3 & _).
  destruct (copyFileSync_returns _ _ _ _ _ _ H4) as (c4 & S4 & _).
  destruct (copyFileSync_returns _ _ _ _ _ _ H5) as (c5 & S5 & _).
  destruct (copyFileSync_returns _ _ _ _ _ _ H7) as (c7 & S7 & _).
  pose proof (fun k => copyFileSync_other cwd0 _ _ _ _ _ k H1) as O1.
  pose proof (fun k => copyFileSync_other cwd0 _ _ _ _ _ k H2) as O2.
  pose proof (fun k => copyFileSync_other cwd0 _ _ _ _ _ k H3) as O3.
  pose proof (fun k => copyFileSync_other cwd0 _ _ _ _ _ k H4) as O4.
  pose proof (fun k => copyFileSync_other cwd0 _ _ _ _ _ k H5) as O5.
  pose proof (fun k => copyFileSync_other cwd0 _ _ _ _ _ k H7) as O7.
  pose proof (fun k x => mkdirSync_keeps cwd0 _ _ _ _ k x H6) as K6.
  pose proof (fun k c => mkdirSync_file cwd0 _ _ _ _ k c H6) as F6.
  assert (T1 : d1 !! Path.resolveSegs cwd0 "dist/LICENSE" = Some (File c1)).
  { destruct (copyFileSync_returns _ _ _ _ _ _ H1) as (c & S & ->).
    rewrite S in S1. injection S1 as ->. apply lookup_insert_eq. }
  assert (T2 : d2 !! Path.resolveSegs cwd0 "dist/README.md" = Some (File c2)).
  { destruct (copyFileSync_returns _ _ _ _ _ _ H2) as (c & S & ->).
    rewrite S in S2. injection S2 as ->. apply lookup_insert_eq. }
  assert (T3 : d3 !! Path.resolveSegs cwd0 "dist/.browserslistrc" = Some (File c3)).
  { destruct (copyFileSync_returns _ _ _ _ _ _ H3) as (c & S & ->).
    rewrite S in S3. injection S3 as ->. apply lookup_insert_eq. }
  assert (T4 : d4 !! Path.resolveSegs cwd0 "dist/ng-package.schema.json" = Some (File c4)).
  { destruct (copyFileSync_returns _ _ _ _ _ _ H4) as (c & S & ->).
    rewrite S in S4. injection S4 as ->. apply lookup_insert_eq. }
  assert (T5 : d5 !! Path.resolveSegs cwd0 "dist/ng-entrypoint.schema.json" = Some (File c5)).
  { destruct (copyFileSync_returns _ _ _ _ _ _ H5) as (c & S & ->).
    rewrite S in S5. injection S5 as ->. apply lookup_insert_eq. }
  assert (T7 : d7 !! Path.resolveSegs cwd0 "dist/src/lib/ts/conf/tsconfig.ngc.json"
               = Some (File c7)).
  { destruct (copyFileSync_returns _ _ _ _ _ _ H7) as (c & S & ->).
    rewrite S in S7. injection S7 as ->. apply lookup_insert_eq. }
  assert (Hfinal : forall k,
             k <> Path.resolveSegs cwd0 "dist/package.json" ->
             snd (match v with
                  | Object m => writeFileSync cwd0 "dist/package.json" (stringify (Object (published m))) d7
                  | Null => (Throw "TypeError: Cannot convert undefined or null to object", d7)
                  | Plain _ => writeFileSync cwd0 "dist/package.json" (stringify v) d7
                  end) !! k = d7 !! k).
  { intros k Hk. destruct v as [m| |stringified]; [|destruct Hwritten|]; simpl stringify;
      rewrite Hwritten; apply lookup_insert_ne; congruence. }
  assert (Hpackage : d !! Path.resolveSegs cwd0 "package.json" = Some (File text)).
  { destruct (script_keys cwd0)
      as (kL & kR & kB & kP & kE & kT & kM & tL & tR & tB & tP & tE & tD & tT & tM).
    rewrite kM in Hread |- *. rewrite tL in O1. rewrite tR in O2. rewrite tB in O3.
    rewrite tP in O4. rewrite tE in O5. rewrite tT in O7.
    rewrite O7 in Hread by apart. apply F6 in Hread.
    rewrite O5, O4, O3, O2, O1 in Hread by apart. exact Hread. }
  split.
  { exists text, v. split; [exact Hpackage|]. split.
    - unfold parse in Hparse |- *. destruct text as [s|m].
      + destruct (jsonParse s); [|discriminate Hparse].
        injection Hparse as ->. reflexivity.
      + injection Hparse as <-. reflexivity.
    - destruct v as [m| |stringified]; [|exact Hwritten|]; simpl stringify;
        rewrite Hwritten; apply lookup_insert_eq. }
  split.
  { intros m Hm. rewrite Hm in Hpackage. injection Hpackage as <-.
    simpl in Hv. subst v. simpl stringify. rewrite Hwritten.
    split; [apply lookup_insert_eq|].
    destruct (published_properties m)
      as (P1 & P2 & P3 & P4 & P5 & P6 & P7 & P8 & P9 & P10 & P11 & P12).
    repeat (split; [assumption|]). assumption. }
  destruct (script_keys cwd0)
    as (kL & kR & kB & kP & kE & kT & kM & tL & tR & tB & tP & tE & tD & tT & tM).
  rewrite ?kL, ?kR, ?kB, ?kP, ?kE, ?kT, ?kM, ?tL, ?tR, ?tB, ?tP, ?tE, ?tD, ?tT, ?tM in *.
  intros from to Hin. simpl in Hin.
  destruct Hin as [Hin|[Hin|[Hin|[Hin|[Hin|[Hin|[]]]]]]]; injection Hin as <- <-;
    rewrite ?kL, ?kR, ?kB, ?kP, ?kE, ?kT, ?kM, ?tL, ?tR, ?tB, ?tP, ?tE, ?tD, ?tT, ?tM.
  - exists c1. split; [exact S1|].
    rewrite Hfinal by apart. rewrite O7 by apart.
    apply K6. rewrite O5, O4, O3, O2 by apart. exact T1.
  - exists c2. split; [rewrite <- (O1 _) by apart; exact S2|].
    rewrite Hfinal by apart. rewrite O7 by apart.
    apply K6. rewrite O5, O4, O3 by apart. exact T2.
  - exists c3. split; [rewrite <- (O1 _), <- (O2 _) by apart; exact S3|].
    rewrite Hfinal by apart. rewrite O7 by apart.
    apply K6. rewrite O5, O4 by apart. exact T3.
  - exists c4. split; [rewrite <- (O1 _), <- (O2 _), <- (O3 _) by apart; exact S4|].
    rewrite Hfinal by apart. rewrite O7 by apart.
    apply K6. rewrite O5 by apart. exact T4.
  - exists c5.
    split; [rewrite <- (O1 _), <- (O2 _), <- (O3 _), <- (O4 _) by apart; exact S5|].
    rewrite Hfinal by apart. rewrite O7 by apart.
    apply K6. exact T5.
  - exists c7. split.
    + apply F6 in S7.
      rewrite <- (O1 _), <- (O2 _), <- (O3 _), <- (O4 _), <- (O5 _) by apart. exact S7.
    + rewrite Hfinal by apart. exact T7.
Qed.

Lemma andThen_untouched {A B} (m : Run A) (f : A -> Run B) (d : gmap (list string) fsnode)
      (k : list string) (e : string) :
  (forall d0, snd (m d0) !! k = d0 !! k) ->
  (forall a d0, fst (f a d0) = Throw e -> snd (f a d0) !! k = d0 !! k) ->
  fst (andThen m f d) = Throw e -> snd (andThen m f d) !! k = d !! k.
Proof.
  intros Hm Hf. unfold andThen. specialize (Hm d).
  destruct (m d) as [[a|e'] d']; simpl in Hm.
  - intros H. rewrite (Hf a d' H). exact Hm.
  - intros _. exact Hm.
Qed.

(** X22. The manifest is the last thing the post-build script writes: when
    the script fails, at whichever step, what is at [dist/package.json]
    is what was there before. *)
Theorem postbuild_failure_publishes_nothing (cwd0 : string) (d : gmap (list string) fsnode)
        (e : string) :
  fst (script cwd0 d) = Throw e ->
  snd (script cwd0 d) !! Path.resolveSegs cwd0 "dist/package.json"
  = d !! Path.resolveSegs cwd0 "dist/package.json".
Proof.
  destruct (script_keys cwd0)
    as (kL & kR & kB & kP & kE & kT & kM & tL & tR & tB & tP & tE & tD & tT & tM).
  cbv zeta in tL, tR, tB, tP, tE, tD, tT, tM.
  assert (Hcopy : forall from to d0,
             Path.resolveSegs cwd0 "dist/package.json" <> Path.resolveSegs cwd0 to ->
             snd (copyFileSync cwd0 from to d0) !! Path.resolveSegs cwd0 "dist/package.json"
             = d0 !! Path.resolveSegs cwd0 "dist/package.json").
  { intros from to d0 Hne. apply copyFileSync_elsewhere, Hne. }
  unfold script.
  intros H. revert d H.
  intros d. apply andThen_untouched; [intros d0; apply Hcopy; rewrite tM, tL; apart|].
  intros _ d1. apply andThen_untouched; [intros d0; apply Hcopy; rewrite tM, tR; apart|].
  intros _ d2. apply andThen_untouched; [intros d0; apply Hcopy; rewrite tM, tB; apart|].
  intros _ d3. apply andThen_untouched; [intros d0; apply Hcopy; rewrite tM, tP; apart|].
  intros _ d4. apply andThen_untouched; [intros d0; apply Hcopy; rewrite tM, tE; apart|].
  intros _ d5. apply andThen_untouched.
  { intros d0. destruct (mkdirSync_effect cwd0 "dist/src/lib/ts/conf" d0
                           (Path.resolveSegs cwd0 "dist/package.json"))
      as [Hsame|(_ & _ & Hpre)]; [exact Hsame|].
    exfalso. rewrite tM, tD in Hpre. destruct Hpre as (r & Hr).
    rewrite <- app_assoc in Hr. apply app_inv_head in Hr. discriminate Hr. }
  intros _ d6. apply andThen_untouched; [intros d0; apply Hcopy; rewrite tM, tT; apart|].
  intros _ d7. apply andThen_untouched.
  { intros d0. unfold readFileSync.
    destruct (d0 !! Path.resolveSegs cwd0 "package.json") as [[c| |]|]; reflexivity. }
  intros text d8. apply andThen_untouched.
  { intros d0. unfold parse. destruct text as [s|m]; [|reflexivity].
    destruct (jsonParse s); reflexivity. }
  assert (Hdelete : forall k v d0,
             snd (deleteKey k v d0) !! Path.resolveSegs cwd0 "dist/package.json"
             = d0 !! Path.resolveSegs cwd0 "dist/package.json").
  { intros k v d0. destruct v; reflexivity. }
  intros v d9. apply andThen_untouched; [intros d0; apply Hdelete|].
  intros v1 d10. apply andThen_untouched; [intros d0; apply Hdelete|].
  intros v2 d11. apply andThen_untouched; [intros d0; apply Hdelete|].
  intros v3 d12. apply andThen_untouched; [intros d0; apply Hdelete|].
  intros v4 d13. apply andThen_untouched; [intros d0; apply Hdelete|].
  intros v5 d14. apply andThen_untouched; [intros d0; apply Hdelete|].
  intros v6 d15. apply andThen_untouched; [intros d0; apply Hdelete|].
  intros v7 d16 H.
  destruct (writeFileSync_outcome cwd0 "dist/package.json" (stringify v7) d16)
    as [Hw|(e' & Hw)].
  - rewrite Hw in H. discriminate H.
  - rewrite Hw. reflexivity.
Qed.

End PostbuildTheorems.

Section PostbuildCompletes.

Import Postbuild.

Context {json : JsonParse}.

Variable cwd0 : string.







End PostbuildCompletes.


Section PostbuildRuns.

Import Postbuild.

Context {json : JsonParse}.


End PostbuildRuns.

(** ** The further theorems at work on the samples *)

(** The README of the sample package is read and written within the
    roots. *)
Lemma copied_assets_are_contained_witness :
  withinRoot "/repo" "/repo/src" "/repo/src"
  /\ withinRoot "/repo" "/repo/dist" "/repo/dist".
Proof.
  apply (@copied_assets_are_contained Sample.host (Sample.primaryNode true)
           (Sample.package [AssetString "README.md"] []) [Sample.primaryNode true]
           (Sample.world 0 Sample.disk) (AssetString "README.md")
           (plainAsset "README.md" "." ".")).
  - vm_compute. reflexivity.
  - simpl. left. reflexivity.
  - vm_compute. reflexivity.
Defined.

(** A directory named [..data] in the source root is refused. *)
Lemma dotted_directory_is_refused_witness :
  withinRoot "/repo" "/repo/src" "/repo/src/..data"
  /\ exists message,
       @copyAssets Sample.host (Sample.primaryNode true)
         (Sample.package [AssetObject (plainAsset "**/*" "..data" "data")] [])
         [Sample.primaryNode true] (Sample.world 0 Sample.disk)
       = (Throw message, Sample.world 0 Sample.disk)
       /\ (message = inputOutsideMessage \/ message = outputOutsideMessage).
Proof.
  apply (@dotted_directory_is_refused Sample.host (Sample.primaryNode true)
           (Sample.package [AssetObject (plainAsset "**/*" "..data" "data")] [])
           [Sample.primaryNode true] (Sample.world 0 Sample.disk)
           (AssetObject (plainAsset "**/*" "..data" "data"))
           (plainAsset "**/*" "..data" "data")).
  - simpl. left. reflexivity.
  - reflexivity.
  - repeat split; discriminate.
  - simpl. tauto.
  - reflexivity.
Defined.

(** A pattern that climbs out of the source root passes the checks. *)
Lemma unmatched_string_is_never_refused_witness :
  resolveAssets (Sample.package [] []) [AssetString "../secret/*.md"] []
    (Sample.world 0 Sample.disk)
  = (Return [{| glob := "../secret/*.md"; input := "/repo/src/"; output := "/repo/dist/";
               ignore := None; followSymlinks := None |}], Sample.world 0 Sample.disk)
  /\ Path.resolveSegs "/repo" "/repo/src/" = ["repo"; "src"]
  /\ Path.resolveSegs "/repo" "/repo/dist/" = ["repo"; "dist"].
Proof.
  apply (unmatched_string_is_never_refused (Sample.package [] [])
           "../secret/*.md" (Sample.world 0 Sample.disk)).
  - reflexivity.
  - reflexivity.
  - vm_compute. reflexivity.
Defined.

(** An asset outside the source root: the transform fails before it
    writes anything. *)
Lemma asset_failure_aborts_transform_witness :
  let run := @writePackageTransform Sample.host {| watch := false |}
               [Sample.primaryNode true]
               (Sample.package [AssetObject (plainAsset "README.md" "../secret" ".")] ["tslib"])
               (Sample.world 0 Sample.disk) in
  exists copies,
    fst run = Throw inputOutsideMessage
    /\ events (snd run) = [SpinnerStart "Copying assets"; SpinnerFail]
    /\ fsops (snd run) = List.map copyOp copies
    /\ (forall k, (forall c, In c copies -> Path.resolveSegs "/repo" (snd c) <> k) ->
                  fs (snd run) !! k = Sample.disk !! k).
Proof.
  apply (@asset_failure_aborts_transform Sample.host {| watch := false |}
           [Sample.primaryNode true]
           (Sample.package [AssetObject (plainAsset "README.md" "../secret" ".")] ["tslib"])
           (Sample.world 0 Sample.disk) (Sample.primaryNode true) inputOutsideMessage).
  - reflexivity.
  - reflexivity.
  - vm_compute. reflexivity.
Defined.

(** The sample package built outside watch mode. *)
Lemma primary_transform_operations_witness :
  let run := @writePackageTransform Sample.host {| watch := false |}
               [Sample.primaryNode true; Sample.secondaryNode false]
               (Sample.package [AssetObject (plainAsset "README.md" "." ".")] ["tslib"])
               (Sample.world 0 Sample.disk) in
  exists copies m earlier,
    fsops (snd run)
    = List.map copyOp copies
      ++ [OpWriteFile "/repo/dist/.npmignore" (Text npmignoreText)]
      ++ [OpWriteFile "/repo/dist/package.json" (Json m)]
    /\ name m = Some "lib"
    /\ fs (snd run) !! ["repo"; "dist"; "package.json"] = Some (File (Json m))
    /\ fs (snd run) !! ["repo"; "dist"; ".npmignore"] = Some (File (Text npmignoreText))
    /\ events (snd run)
       = [SpinnerStart "Copying assets"; SpinnerSucceed None;
          SpinnerStart "Writing package manifest"]
         ++ earlier
         ++ [SpinnerSucceed None; SpinnerSucceed (Some "Built lib")].
Proof.
  destruct (@primary_transform_operations Sample.host {| watch := false |}
              [Sample.primaryNode true; Sample.secondaryNode false]
              (Sample.package [AssetObject (plainAsset "README.md" "." ".")] ["tslib"])
              (Sample.world 0 Sample.disk) (Sample.primaryNode true))
    as (copies & m & earlier & Hops & Hname & Hfile & Hignore & Hev).
  - reflexivity.
  - reflexivity.
  - vm_compute. reflexivity.
  - exists copies, m, earlier.
    split; [exact Hops|]. split; [exact Hname|]. split; [exact Hfile|].
    split; [exact (Hignore eq_refl)|exact Hev].
Defined.

(** [left-pad] is not allowed: the build fails and [dist] is gone, with
    the README copied into it and the [.npmignore] written there. *)
Lemma gate_failure_empties_destination_witness :
  let run := @writePackageTransform Sample.host {| watch := false |}
               [Sample.nodeOf (Sample.entryWith
                                  (Sample.manifestWith (Some [("left-pad", "^1.0.0")])
                                                       None None))]
               (Sample.package [AssetObject (plainAsset "README.md" "." ".")] ["tslib"])
               (Sample.world 0 Sample.disk) in
  fst run = Throw (notAllowedMessage "left-pad")
  /\ fs (snd run) !! ["repo"; "dist"; "README.md"] = None
  /\ fs (snd run) !! ["repo"; "dist"; ".npmignore"] = None
  /\ fs (snd run) !! ["repo"; "dist"; "fesm2022"; "lib.mjs"] = None
  /\ exists earlier, events (snd run) = earlier ++ [SpinnerFail].
Proof.
  destruct (@gate_failure_empties_destination Sample.host {| watch := false |}
              [Sample.nodeOf (Sample.entryWith
                                 (Sample.manifestWith (Some [("left-pad", "^1.0.0")])
                                                      None None))]
              (Sample.package [AssetObject (plainAsset "README.md" "." ".")] ["tslib"])
              (Sample.world 0 Sample.disk)
              (Sample.nodeOf (Sample.entryWith
                                 (Sample.manifestWith (Some [("left-pad", "^1.0.0")])
                                                      None None)))
              "left-pad")
    as (d & copies & earlier & Hrun & Hin & _ & _ & Hgone & _ & Hignore & Hev).
  - reflexivity.
  - reflexivity.
  - vm_compute. reflexivity.
  - intros value [<-|[]]. reflexivity.
  - simpl. left. reflexivity.
  - reflexivity.
  - destruct Hin as [<-|[]].
    split; [exact Hrun|].
    split; [apply Hgone; exists ["README.md"]; reflexivity|].
    split; [exact (Hignore eq_refl)|].
    split; [apply Hgone; exists ["fesm2022"; "lib.mjs"]; reflexivity|].
    exists earlier. exact Hev.
Defined.


(** The sample manifest declares its own [module] and [ngPackage]: the
    written one has the computed module and no [ngPackage]. *)
Lemma computed_properties_replace_declared_witness :
  exists m,
    fs (snd (@writePackageJson Sample.host Sample.primaryEntry (Sample.package [] ["tslib"])
               Sample.additional false (Some Partial) (Sample.world 0 Sample.disk)))
    = <[ ["repo"; "dist"; "package.json"] := File (Json m) ]> Sample.disk
    /\ name m = Some "lib"
    /\ module_ m = Some "fesm2022/lib.mjs" /\ typings m = Some "index.d.ts"
    /\ exports m = Some [("./package.json", [("default", "./package.json")])]
    /\ sideEffects m = Some (SideEffectsFlag false)
    /\ ngPackage m = None
    /\ version m = Some "1.2.3".
Proof.
  destruct (@computed_properties_replace_declared Sample.host Sample.primaryEntry
              (Sample.package [] ["tslib"]) Sample.additional false (Some Partial)
              (Sample.world 0 Sample.disk))
    as (m & Hfs & Hn & Hm & Ht & He & Hs & Hg & Hv).
  - vm_compute. reflexivity.
  - exists m. repeat (split; [assumption|]). exact (Hv eq_refl).
Defined.

(** The sample manifest loses its [devDependencies]. *)
Lemma development_sections_are_stripped_witness :
  exists m,
    fs (snd (@writePackageJson Sample.host Sample.primaryEntry (Sample.package [] ["tslib"])
               Sample.additional false (Some Partial) (Sample.world 0 Sample.disk)))
       !! ["repo"; "dist"; "package.json"] = Some (File (Json m))
    /\ Obj.get "devDependencies" (other m) = None
    /\ In (SpinnerInfo "Removing devDependencies section in package.json.")
          (events (snd (@writePackageJson Sample.host Sample.primaryEntry
                          (Sample.package [] ["tslib"])
                          Sample.additional false (Some Partial)
                          (Sample.world 0 Sample.disk)))).
Proof.
  destruct (@development_sections_are_stripped Sample.host Sample.primaryEntry
              (Sample.package [] ["tslib"]) Sample.additional false (Some Partial)
              (Sample.world 0 Sample.disk))
    as (m & Hfile & Hgone & _ & _ & Hlog).
  - vm_compute. reflexivity.
  - exists m. split; [exact Hfile|]. split.
    + apply Hgone. simpl. tauto.
    + apply (Hlog "devDependencies"); [simpl; tauto|reflexivity].
Defined.

(** Declared scripts do not reach the manifest of the sample package. *)
Lemma declared_scripts_are_removed_witness :
  exists m,
    fs (snd (@writePackageJson Sample.host
               (Sample.entryWith (Sample.manifestWith None None (Some [("build", "ng build")])))
               (Sample.package [] ["tslib"])
               Sample.additional false (Some Full) (Sample.world 0 Sample.disk)))
       !! ["repo"; "dist"; "package.json"] = Some (File (Json m))
    /\ scripts m = Some [("prepublishOnly", prepublishOnlyGuard)]
    /\ In (SpinnerInfo removingScriptsInfo)
          (events (snd (@writePackageJson Sample.host
                          (Sample.entryWith
                             (Sample.manifestWith None None (Some [("build", "ng build")])))
                          (Sample.package [] ["tslib"])
                          Sample.additional false (Some Full) (Sample.world 0 Sample.disk)))).
Proof.
  destruct (@declared_scripts_are_removed Sample.host
              (Sample.entryWith (Sample.manifestWith None None (Some [("build", "ng build")])))
              (Sample.package [] ["tslib"])
              Sample.additional false (Some Full) (Sample.world 0 Sample.disk))
    as (m & Hfile & Hscripts & Hlog).
  - reflexivity.
  - vm_compute. reflexivity.
  - exists m. split; [exact Hfile|]. split; [exact Hscripts|].
    apply Hlog. discriminate.
Defined.

(** A declared [tslib] dependency and the other dependencies are written
    as declared. *)
Lemma other_dependencies_are_untouched_witness :
  exists m,
    fs (snd (@writePackageJson Sample.host
               (Sample.entryWith
                  (Sample.manifestWith (Some [("rxjs", "^7.0.0"); ("tslib", "^2.0.0")])
                                       (Some [("@angular/core", "^20.0.0")]) None))
               (Sample.package [] ["tslib"; "rxjs"])
               Sample.additional false (Some Partial) (Sample.world 0 Sample.disk)))
       !! ["repo"; "dist"; "package.json"] = Some (File (Json m))
    /\ dependencies m = Some [("rxjs", "^7.0.0"); ("tslib", "^2.0.0")]
    /\ peerDependencies m = Some [("@angular/core", "^20.0.0")].
Proof.
  destruct (@other_dependencies_are_untouched Sample.host
              (Sample.entryWith
                 (Sample.manifestWith (Some [("rxjs", "^7.0.0"); ("tslib", "^2.0.0")])
                                      (Some [("@angular/core", "^20.0.0")]) None))
              (Sample.package [] ["tslib"; "rxjs"])
              Sample.additional false (Some Partial) (Sample.world 0 Sample.disk))
    as (m & Hfile & _ & _ & Hquiet).
  - vm_compute. reflexivity.
  - destruct (Hquiet eq_refl) as (Hpeers & Hdeps).
    exists m. split; [exact Hfile|]. split; [exact (Hdeps eq_refl)|exact Hpeers].
Defined.

(** With an empty allow-list the sample package fails on the injected
    [tslib]. *)
Lemma injected_tslib_must_be_allowed_witness :
  exists w',
    @writePackageJson Sample.host Sample.primaryEntry (Sample.package [] [])
      Sample.additional false (Some Partial) (Sample.world 0 Sample.disk)
    = (Throw (notAllowedMessage "tslib"), w')
    /\ In (SpinnerWarn (notRecommendedWarning "dependencies" "tslib")) (events w')
    /\ fsops w' = [OpRmdir "/repo/dist"]
    /\ (forall k, ["repo"; "dist"] `prefix_of` k -> fs w' !! k = None).
Proof.
  apply (@injected_tslib_must_be_allowed Sample.host Sample.primaryEntry (Sample.package [] [])
           Sample.additional false (Some Partial) (Sample.world 0 Sample.disk) "^2.3.0").
  - intros value [].
  - reflexivity.
  - reflexivity.
  - reflexivity.
  - reflexivity.
  - intros d [].
  - reflexivity.
Defined.

(** An allow-list with the entry [*]: the build stops there, [left-pad]
    is not looked at, and the built package stays in [dist]. *)
Lemma invalid_pattern_stops_before_gate_witness :
  exists w',
    @writePackageJson Sample.host
      (Sample.entryWith (Sample.manifestWith (Some [("left-pad", "^1.0.0")]) None None))
      (Sample.package [] ["tslib"; "*"]) Sample.additional false (Some Partial)
      (Sample.world 0 Sample.builtDisk)
    = (Throw "Invalid regular expression: /*/: Nothing to repeat", w')
    /\ fsops w' = []
    /\ fs w' = Sample.builtDisk.
Proof.
  apply (@invalid_pattern_stops_before_gate Sample.host
           (Sample.entryWith (Sample.manifestWith (Some [("left-pad", "^1.0.0")]) None None))
           (Sample.package [] ["tslib"; "*"]) Sample.additional false (Some Partial)
           (Sample.world 0 Sample.builtDisk) ["tslib"] "*" []
           "Invalid regular expression: /*/: Nothing to repeat").
  - reflexivity.
  - intros value [<-|[]]. reflexivity.
  - reflexivity.
Defined.

(** The export map of the sample package is generated without a warning. *)
Lemma exports_without_conflict_are_silent_witness :
  snd (generatePackageExports Sample.primaryEntry
         [Sample.primaryNode true; Sample.secondaryNode false] (Sample.world 0 Sample.disk))
  = Sample.world 0 Sample.disk.
Proof.
  apply (exports_without_conflict_are_silent Sample.primaryEntry
           [Sample.primaryNode true; Sample.secondaryNode false] (Sample.world 0 Sample.disk)).
  - repeat constructor; simpl; intuition discriminate.
  - simpl. intuition discriminate.
  - reflexivity.
  - intros s k _ _. reflexivity.
Defined.

(** The export map of the sample package. *)
Lemma undeclared_exports_are_generated_witness :
  generatePackageExports Sample.primaryEntry
    [Sample.primaryNode true; Sample.secondaryNode false] (Sample.world 0 Sample.disk)
  = (Return [("./package.json", [("default", "./package.json")]);
             (".", [("types", "./index.d.ts"); ("default", "./fesm2022/lib.mjs")]);
             ("./testing", [("types", "./testing/index.d.ts");
                            ("default", "./fesm2022/lib-testing.mjs")])],
     Sample.world 0 Sample.disk).
Proof.
  apply (undeclared_exports_are_generated Sample.primaryEntry
           [Sample.primaryNode true; Sample.secondaryNode false] (Sample.world 0 Sample.disk)).
  - reflexivity.
  - repeat constructor; simpl; intuition discriminate.
  - simpl. intuition discriminate.
Defined.

(** A caller's environment keeps its variable and gets the cache
    directory; the [PATH] of the process is not in it. *)
Lemma worker_environment_variables_witness :
  exists vars,
    WorkerPool.env
      (WorkerPool.constructor Sample.process
         {| WorkerPool.minThreads := None; WorkerPool.idleTimeout := None;
            WorkerPool.atomics := None; WorkerPool.recordTiming := None;
            WorkerPool.env := Some (WorkerPool.EnvObject [("NG_BUILD", "1")]) |})
    = Some (WorkerPool.EnvObject vars)
    /\ Obj.get "NODE_COMPILE_CACHE" vars = Some "/tmp/node-compile-cache"
    /\ Obj.get "NG_BUILD" vars = Some "1"
    /\ Obj.get "PATH" vars = None.
Proof.
  destruct (worker_environment_variables Sample.process
              {| WorkerPool.minThreads := None; WorkerPool.idleTimeout := None;
                 WorkerPool.atomics := None; WorkerPool.recordTiming := None;
                 WorkerPool.env := Some (WorkerPool.EnvObject [("NG_BUILD", "1")]) |}
              "/tmp/node-compile-cache" eq_refl eq_refl eq_refl)
    as (vars & Henv & Hcache & Hgiven & _).
  destruct (Hgiven [("NG_BUILD", "1")] eq_refl) as (_ & Hkept).
  exists vars. split; [exact Henv|]. split; [exact Hcache|].
  split; rewrite Hkept by discriminate; reflexivity.
Defined.

(** The script run in the sample repository. *)
Lemma postbuild_publishes_clean_manifest_witness :
  snd (@Postbuild.script Sample.json "/work" Sample.repository)
      !! ["work"; "dist"; "package.json"]
  = Some (File (Json (Postbuild.published Sample.rootManifest)))
  /\ scripts (Postbuild.published Sample.rootManifest) = None
  /\ Obj.keys (other (Postbuild.published Sample.rootManifest)) = ["license"]
  /\ snd (@Postbuild.script Sample.json "/work" Sample.repository)
         !! ["work"; "dist"; "LICENSE"]
     = Some (File (Text "MIT")).
Proof.
  destruct (@postbuild_publishes_clean_manifest Sample.json "/work" Sample.repository)
    as (_ & Hmanifest & Hcopied).
  - vm_compute. reflexivity.
  - destruct (Hmanifest Sample.rootManifest) as (Hfile & Hscripts & _);
      [vm_compute; reflexivity|].
    split; [exact Hfile|]. split; [exact Hscripts|]. split; [reflexivity|].
    destruct (Hcopied "LICENSE" "dist/LICENSE") as (c & Hsrc & Hdst); [left; reflexivity|].
    vm_compute in Hsrc. injection Hsrc as <-. exact Hdst.
Defined.

(** The script does not ask for a manifest: a [package.json] that holds
    the number [42] is published as it is. *)
Example postbuild_publishes_a_number :
  let disk := <[ ["work"; "package.json"] := File (Text "42") ]> Sample.repository in
  fst (@Postbuild.script Sample.json "/work" disk) = Return tt
  /\ snd (@Postbuild.script Sample.json "/work" disk) !! ["work"; "dist"; "package.json"]
     = Some (File (Text "42")).
Proof. split; vm_compute; reflexivity. Qed.

(** A [package.json] that holds [null] parses, and the first deletion
    throws. *)
Example postbuild_null_manifest :
  let disk := <[ ["work"; "package.json"] := File (Text "null") ]> Sample.repository in
  fst (@Postbuild.script Sample.json "/work" disk)
  = Throw "TypeError: Cannot convert undefined or null to object".
Proof. vm_compute. reflexivity. Qed.

(** Without a licence the script fails at its first step. *)
Lemma postbuild_failure_publishes_nothing_witness :
  snd (@Postbuild.script Sample.json "/work"
         (delete ["work"; "LICENSE"] Sample.repository))
      !! ["work"; "dist"; "package.json"]
  = None.
Proof.
  rewrite (@postbuild_failure_publishes_nothing Sample.json "/work"
             (delete ["work"; "LICENSE"] Sample.repository)
             "ENOENT: no such file or directory, copyfile 'LICENSE' -> 'dist/LICENSE'").
  - vm_compute. reflexivity.
  - vm_compute. reflexivity.
Defined.

(** The gate lets the two allowed dependencies pass. *)
Lemma allowed_dependencies_pass_the_gate_witness :
  exists w',
    @checkNonPeerDependencies Sample.host
      (Sample.manifestWith (Some [("rxjs", "^7.0.0"); ("tslib", "^2.0.0")]) None None)
      "dependencies" ["rxjs"; "tslib"] (Sample.world 0 Sample.disk)
    = (Return tt, w')
    /\ extends (Sample.world 0 Sample.disk) w'
    /\ events w' = [LogDebug "Dependency rxjs is allowed in 'dependencies'";
                    LogDebug "Dependency tslib is allowed in 'dependencies'"].
Proof.
  apply (@allowed_dependencies_pass_the_gate Sample.host
           (Sample.manifestWith (Some [("rxjs", "^7.0.0"); ("tslib", "^2.0.0")]) None None)
           "dependencies" ["rxjs"; "tslib"] (Sample.world 0 Sample.disk)).
  intros deps d Hdeps Hd. injection Hdeps as <-.
  destruct Hd as [<-|[<-|[]]]; reflexivity.
Defined.

